(** * Modelum floor-plan editor: a shallow embedding of [Modelum_Prototype.py]

    The editing engine of the application (shape model, hit-testing,
    pointer-driven interaction, copy/paste and the linear undo/redo log) is
    transcribed function by function.

    Modelling conventions.
    - Plane coordinates are Python floats in the source; here they are
      rationals [Q] with exact arithmetic.  Python's [==] on numbers is
      [Qeq_bool].  The infinities and the NaN that [float()] accepts in a
      properties dialog appear only in the model of the dialog itself
      ([PyFloat], [on_ok]); the states of the editor hold finite numbers.
    - Of [draw_blueprint] the model keeps what the engine reads back: the
      area label and the view limits.  The patches and the text layout
      ([format_text_for_room]) are not modelled.
    - [Room] and [BlueprintObject] instances are mutable objects shared
      between [house]/[furnishings], the selection and the history entries.
      They live in an object store [heap : list Shape]; a reference is the
      index of the object in the store and identity comparison is equality
      of indices.
    - Dialogs and [random] are effects: an operation that needs them is a
      tree of type [Eff] whose nodes are the questions asked and whose
      branches are indexed by the answers.  A question is answered before
      the next event is handled: the message boxes and [askstring] are
      modal; a properties dialog holds no grab, and what the program does
      when other handlers run while one is open is not modelled.
    - An uncaught Python exception ends the Tk callback; the store keeps
      whatever was written before.  Such operations return a [Result]. *)

From Stdlib Require Import QArith Qabs Qround Lqa String DecimalString.
From stdpp Require Import base list strings.

Open Scope Q_scope.

(** ** Python primitives *)

Definition Qlt_bool (a b : Q) : bool := negb (Qle_bool b a).

(** [max(a, b)]: the first argument wins a tie. *)
Definition py_max (a b : Q) : Q := if Qlt_bool a b then b else a.

(** [min(a, b)]: the first argument wins a tie. *)
Definition py_min (a b : Q) : Q := if Qlt_bool b a then b else a.

(** [min(l)] and [max(l)] over a non-empty list given as head and tail. *)
Definition py_min_list (d : Q) (l : list Q) : Q := fold_left py_min l d.
Definition py_max_list (d : Q) (l : list Q) : Q := fold_left py_max l d.

(** [l.remove(i)]: drops the first occurrence; [None] stands for
    [ValueError]. *)
Fixpoint list_remove (i : nat) (l : list nat) : option (list nat) :=
  match l with
  | [] => None
  | j :: l' =>
      if decide (j = i) then Some l'
      else match list_remove i l' with
           | Some r => Some (j :: r)
           | None => None
           end
  end.

(** [l.pop()]: the last element together with the shortened list. *)
Definition list_pop {A : Type} (l : list A) : option (A * list A) :=
  match rev l with
  | [] => None
  | a :: r => Some (a, rev r)
  end.

(** [sub in s] on strings. *)
Fixpoint str_in (sub s : string) : bool :=
  String.prefix sub s ||
  match s with
  | EmptyString => false
  | String _ s' => str_in sub s'
  end.

(** Truth value of an optional string ([None] and [""] are false). *)
Definition truthy (o : option string) : bool :=
  match o with
  | Some (String _ _) => true
  | _ => false
  end.

(** [f"{v:.2f}"]: two decimals, ties to even. *)
Definition round_half_even (q : Q) : Z :=
  let f := Qfloor q in
  let r := q - inject_Z f in
  if Qlt_bool r (1 # 2) then f
  else if Qlt_bool (1 # 2) r then (f + 1)%Z
  else if Z.even f then f else (f + 1)%Z.

Definition two_digits (n : Z) : string :=
  let s := NilZero.string_of_uint (N.to_uint (Z.to_N n)) in
  if (n <? 10)%Z then "0" +:+ s else s.

Definition format_2f (q : Q) : string :=
  let n := round_half_even (q * 100) in
  let m := Z.abs n in
  (if (n <? 0)%Z then "-" else "") +:+
  NilZero.string_of_uint (N.to_uint (Z.to_N (m / 100))) +:+ "." +:+ two_digits (m mod 100).

(** ** Shape model *)

Inductive Class : Type := Room | BlueprintObject.

#[global] Instance Class_eq_dec : EqDecision Class.
Proof. solve_decision. Defined.

(** The tuple [(name, x, y, width, height)]. *)
Definition State : Type := string * Q * Q * Q * Q.

Definition state_eqb (s t : State) : bool :=
  let '(n1, x1, y1, w1, h1) := s in
  let '(n2, x2, y2, w2, h2) := t in
  String.eqb n1 n2 && Qeq_bool x1 x2 && Qeq_bool y1 y2
  && Qeq_bool w1 w2 && Qeq_bool h1 h2.

Record Shape : Type := mkShape {
  cls : Class;
  name : string;
  x : Q;
  y : Q;
  width : Q;
  height : Q
}.

#[global] Instance Shape_inhabited : Inhabited Shape :=
  populate (mkShape Room "" 0 0 0 0).

Definition get_state (sh : Shape) : State :=
  (name sh, x sh, y sh, width sh, height sh).

Definition update_state (state_tuple : State) (sh : Shape) : Shape :=
  let '(n, x', y', w, h) := state_tuple in
  mkShape (cls sh) n x' y' w h.

(** [Room(...)] and [BlueprintObject(...)]. *)
Definition new_shape (c : Class) (s : State) : Shape :=
  update_state s (mkShape c "" 0 0 0 0).

Definition contains (sh : Shape) (px py : Q) : bool :=
  Qle_bool (x sh) px && Qle_bool px (x sh + width sh)
  && Qle_bool (y sh) py && Qle_bool py (y sh + height sh).

Definition get_resize_handle (sh : Shape) (px py tolerance : Q)
  : option string :=
  let l := x sh in
  let r := x sh + width sh in
  let b := y sh in
  let t := y sh + height sh in
  let on_l := Qlt_bool (Qabs (px - l)) tolerance in
  let on_r := Qlt_bool (Qabs (px - r)) tolerance in
  let on_b := Qlt_bool (Qabs (py - b)) tolerance in
  let on_t := Qlt_bool (Qabs (py - t)) tolerance in
  if on_t && on_l then Some "top-left"
  else if on_t && on_r then Some "top-right"
  else if on_b && on_l then Some "bottom-left"
  else if on_b && on_r then Some "bottom-right"
  else if on_t then Some "top"
  else if on_b then Some "bottom"
  else if on_l then Some "left"
  else if on_r then Some "right"
  else None.

Definition default_tolerance : Q := 5.

(** ** Effects: dialogs and randomness *)

(** What a properties dialog hands back: the validated tuple, the
    ['delete'] sentinel, or nothing. *)
Inductive DialogResult : Type :=
| Submitted (s : State)
| DeleteItem
| Cancelled.

Inductive Eff (A : Type) : Type :=
| Ret (a : A)
| AskYesNo (title message : string) (k : bool -> Eff A)
| AskString (title prompt : string) (k : option string -> Eff A)
| OpenDialog (title : string) (existing : option State)
    (k : DialogResult -> Eff A)
| Random (k : Q -> Eff A).

Arguments Ret {A} a.
Arguments AskYesNo {A} title message k.
Arguments AskString {A} title prompt k.
Arguments OpenDialog {A} title existing k.
Arguments Random {A} k.

Fixpoint bind {A B : Type} (m : Eff A) (f : A -> Eff B) : Eff B :=
  match m with
  | Ret a => f a
  | AskYesNo t msg k => AskYesNo t msg (fun b => bind (k b) f)
  | AskString t p k => AskString t p (fun o => bind (k o) f)
  | OpenDialog t e k => OpenDialog t e (fun r => bind (k r) f)
  | Random k => Random (fun u => bind (k u) f)
  end.

#[global] Instance Eff_ret : MRet Eff := @Ret.
#[global] Instance Eff_bind : MBind Eff := fun A B f m => bind m f.

(** [random.uniform(a, b)] is [a + (b - a) * random()]. *)
Definition uniform (a b : Q) : Eff Q :=
  Random (fun u => Ret (a + (b - a) * u)).

(** [a] is a possible result of the interaction [m]. *)
Inductive outcome {A : Type} : Eff A -> A -> Prop :=
| out_ret a : outcome (Ret a) a
| out_yesno t msg k b a : outcome (k b) a -> outcome (AskYesNo t msg k) a
| out_string t p k o a : outcome (k o) a -> outcome (AskString t p k) a
| out_dialog t e k r a : outcome (k r) a -> outcome (OpenDialog t e k) a
| out_random k u a : outcome (k u) a -> outcome (Random k) a.

(** ** Application state *)

Inductive ActionKind : Type :=
| add_room | delete_room | edit_room | add_obj | delete_obj | edit_obj.

(** A history entry [(action, item, s1, s2)]; a state slot holds a tuple
    or [None] ([s2] is [None] for add and delete entries). *)
Definition Entry : Type := ActionKind * nat * option State * option State.

Inductive Action : Type := drawing_room | moving | resizing_room.

(** [patches.Rectangle(xy, width, height)]. *)
Record Rectangle : Type := mkRectangle {
  rect_xy : Q * Q;
  rect_width : Q;
  rect_height : Q
}.

Record App : Type := mkApp {
  heap : list Shape;
  house : list nat;
  furnishings : list nat;
  selected_item : option nat;
  history : list Entry;
  redo_stack : list Entry;
  clipboard : option State;
  current_action : option Action;
  action_start_xy : option (Q * Q);
  ghost_rect : option Rectangle;
  object_to_add : option string;
  draw_mode_active : bool;
  original_state : option State;
  resize_handle : option string;
  toolbar_mode : bool;
  xlim : Q * Q;
  ylim : Q * Q;
  total_sqft_label : string;
  cursor : string;
  copy_button : bool;
  paste_button : bool
}.

Definition set_heap (v : list Shape) (st : App) : App :=
  mkApp v (house st) (furnishings st) (selected_item st) (history st) (redo_stack st) (clipboard st) (current_action st) (action_start_xy st) (ghost_rect st) (object_to_add st) (draw_mode_active st) (original_state st) (resize_handle st) (toolbar_mode st) (xlim st) (ylim st) (total_sqft_label st) (cursor st) (copy_button st) (paste_button st).

Definition set_house (v : list nat) (st : App) : App :=
  mkApp (heap st) v (furnishings st) (selected_item st) (history st) (redo_stack st) (clipboard st) (current_action st) (action_start_xy st) (ghost_rect st) (object_to_add st) (draw_mode_active st) (original_state st) (resize_handle st) (toolbar_mode st) (xlim st) (ylim st) (total_sqft_label st) (cursor st) (copy_button st) (paste_button st).

Definition set_furnishings (v : list nat) (st : App) : App :=
  mkApp (heap st) (house st) v (selected_item st) (history st) (redo_stack st) (clipboard st) (current_action st) (action_start_xy st) (ghost_rect st) (object_to_add st) (draw_mode_active st) (original_state st) (resize_handle st) (toolbar_mode st) (xlim st) (ylim st) (total_sqft_label st) (cursor st) (copy_button st) (paste_button st).

Definition set_selected_item (v : option nat) (st : App) : App :=
  mkApp (heap st) (house st) (furnishings st) v (history st) (redo_stack st) (clipboard st) (current_action st) (action_start_xy st) (ghost_rect st) (object_to_add st) (draw_mode_active st) (original_state st) (resize_handle st) (toolbar_mode st) (xlim st) (ylim st) (total_sqft_label st) (cursor st) (copy_button st) (paste_button st).

Definition set_history (v : list Entry) (st : App) : App :=
  mkApp (heap st) (house st) (furnishings st) (selected_item st) v (redo_stack st) (clipboard st) (current_action st) (action_start_xy st) (ghost_rect st) (object_to_add st) (draw_mode_active st) (original_state st) (resize_handle st) (toolbar_mode st) (xlim st) (ylim st) (total_sqft_label st) (cursor st) (copy_button st) (paste_button st).

Definition set_redo_stack (v : list Entry) (st : App) : App :=
  mkApp (heap st) (house st) (furnishings st) (selected_item st) (history st) v (clipboard st) (current_action st) (action_start_xy st) (ghost_rect st) (object_to_add st) (draw_mode_active st) (original_state st) (resize_handle st) (toolbar_mode st) (xlim st) (ylim st) (total_sqft_label st) (cursor st) (copy_button st) (paste_button st).

Definition set_clipboard (v : option State) (st : App) : App :=
  mkApp (heap st) (house st) (furnishings st) (selected_item st) (history st) (redo_stack st) v (current_action st) (action_start_xy st) (ghost_rect st) (object_to_add st) (draw_mode_active st) (original_state st) (resize_handle st) (toolbar_mode st) (xlim st) (ylim st) (total_sqft_label st) (cursor st) (copy_button st) (paste_button st).

Definition set_current_action (v : option Action) (st : App) : App :=
  mkApp (heap st) (house st) (furnishings st) (selected_item st) (history st) (redo_stack st) (clipboard st) v (action_start_xy st) (ghost_rect st) (object_to_add st) (draw_mode_active st) (original_state st) (resize_handle st) (toolbar_mode st) (xlim st) (ylim st) (total_sqft_label st) (cursor st) (copy_button st) (paste_button st).

Definition set_action_start_xy (v : option (Q * Q)) (st : App) : App :=
  mkApp (heap st) (house st) (furnishings st) (selected_item st) (history st) (redo_stack st) (clipboard st) (current_action st) v (ghost_rect st) (object_to_add st) (draw_mode_active st) (original_state st) (resize_handle st) (toolbar_mode st) (xlim st) (ylim st) (total_sqft_label st) (cursor st) (copy_button st) (paste_button st).

Definition set_ghost_rect (v : option Rectangle) (st : App) : App :=
  mkApp (heap st) (house st) (furnishings st) (selected_item st) (history st) (redo_stack st) (clipboard st) (current_action st) (action_start_xy st) v (object_to_add st) (draw_mode_active st) (original_state st) (resize_handle st) (toolbar_mode st) (xlim st) (ylim st) (total_sqft_label st) (cursor st) (copy_button st) (paste_button st).

Definition set_object_to_add (v : option string) (st : App) : App :=
  mkApp (heap st) (house st) (furnishings st) (selected_item st) (history st) (redo_stack st) (clipboard st) (current_action st) (action_start_xy st) (ghost_rect st) v (draw_mode_active st) (original_state st) (resize_handle st) (toolbar_mode st) (xlim st) (ylim st) (total_sqft_label st) (cursor st) (copy_button st) (paste_button st).

Definition set_draw_mode_active (v : bool) (st : App) : App :=
  mkApp (heap st) (house st) (furnishings st) (selected_item st) (history st) (redo_stack st) (clipboard st) (current_action st) (action_start_xy st) (ghost_rect st) (object_to_add st) v (original_state st) (resize_handle st) (toolbar_mode st) (xlim st) (ylim st) (total_sqft_label st) (cursor st) (copy_button st) (paste_button st).

Definition set_original_state (v : option State) (st : App) : App :=
  mkApp (heap st) (house st) (furnishings st) (selected_item st) (history st) (redo_stack st) (clipboard st) (current_action st) (action_start_xy st) (ghost_rect st) (object_to_add st) (draw_mode_active st) v (resize_handle st) (toolbar_mode st) (xlim st) (ylim st) (total_sqft_label st) (cursor st) (copy_button st) (paste_button st).

Definition set_resize_handle (v : option string) (st : App) : App :=
  mkApp (heap st) (house st) (furnishings st) (selected_item st) (history st) (redo_stack st) (clipboard st) (current_action st) (action_start_xy st) (ghost_rect st) (object_to_add st) (draw_mode_active st) (original_state st) v (toolbar_mode st) (xlim st) (ylim st) (total_sqft_label st) (cursor st) (copy_button st) (paste_button st).

Definition set_toolbar_mode (v : bool) (st : App) : App :=
  mkApp (heap st) (house st) (furnishings st) (selected_item st) (history st) (redo_stack st) (clipboard st) (current_action st) (action_start_xy st) (ghost_rect st) (object_to_add st) (draw_mode_active st) (original_state st) (resize_handle st) v (xlim st) (ylim st) (total_sqft_label st) (cursor st) (copy_button st) (paste_button st).

Definition set_xlim (v : Q * Q) (st : App) : App :=
  mkApp (heap st) (house st) (furnishings st) (selected_item st) (history st) (redo_stack st) (clipboard st) (current_action st) (action_start_xy st) (ghost_rect st) (object_to_add st) (draw_mode_active st) (original_state st) (resize_handle st) (toolbar_mode st) v (ylim st) (total_sqft_label st) (cursor st) (copy_button st) (paste_button st).

Definition set_ylim (v : Q * Q) (st : App) : App :=
  mkApp (heap st) (house st) (furnishings st) (selected_item st) (history st) (redo_stack st) (clipboard st) (current_action st) (action_start_xy st) (ghost_rect st) (object_to_add st) (draw_mode_active st) (original_state st) (resize_handle st) (toolbar_mode st) (xlim st) v (total_sqft_label st) (cursor st) (copy_button st) (paste_button st).

Definition set_total_sqft_label (v : string) (st : App) : App :=
  mkApp (heap st) (house st) (furnishings st) (selected_item st) (history st) (redo_stack st) (clipboard st) (current_action st) (action_start_xy st) (ghost_rect st) (object_to_add st) (draw_mode_active st) (original_state st) (resize_handle st) (toolbar_mode st) (xlim st) (ylim st) v (cursor st) (copy_button st) (paste_button st).

Definition set_cursor (v : string) (st : App) : App :=
  mkApp (heap st) (house st) (furnishings st) (selected_item st) (history st) (redo_stack st) (clipboard st) (current_action st) (action_start_xy st) (ghost_rect st) (object_to_add st) (draw_mode_active st) (original_state st) (resize_handle st) (toolbar_mode st) (xlim st) (ylim st) (total_sqft_label st) v (copy_button st) (paste_button st).

Definition set_copy_button (v : bool) (st : App) : App :=
  mkApp (heap st) (house st) (furnishings st) (selected_item st) (history st) (redo_stack st) (clipboard st) (current_action st) (action_start_xy st) (ghost_rect st) (object_to_add st) (draw_mode_active st) (original_state st) (resize_handle st) (toolbar_mode st) (xlim st) (ylim st) (total_sqft_label st) (cursor st) v (paste_button st).

Definition set_paste_button (v : bool) (st : App) : App :=
  mkApp (heap st) (house st) (furnishings st) (selected_item st) (history st) (redo_stack st) (clipboard st) (current_action st) (action_start_xy st) (ghost_rect st) (object_to_add st) (draw_mode_active st) (original_state st) (resize_handle st) (toolbar_mode st) (xlim st) (ylim st) (total_sqft_label st) (cursor st) (copy_button st) v.

Inductive PyError : Type :=
| ValueError | KeyError | TypeError.

(** How a callback ends: normally, or with an uncaught exception and the
    state reached so far. *)
Inductive Result : Type :=
| Ok (st : App)
| Raised (e : PyError) (st : App).

Definition state_of (r : Result) : App :=
  match r with
  | Ok st => st
  | Raised _ st => st
  end.

Record MouseEvent : Type := mkEvent {
  inaxes : bool;
  xdata : Q;
  ydata : Q;
  dblclick : bool
}.

(** ** BlueprintApp *)

Definition object_templates : list (string * (Q * Q)) :=
  [("Bed (Queen)", (5, 6.7)); ("Dining Table", (6, 3.5));
   ("Sofa", (7, 3)); ("Chair", (2, 2)); ("Rug", (8, 5))].

Fixpoint dict_get (d : list (string * (Q * Q))) (key : string)
  : option (Q * Q) :=
  match d with
  | [] => None
  | (k, v) :: d' => if String.eqb k key then Some v else dict_get d' key
  end.

(** The object behind a reference. *)
Definition obj (st : App) (i : nat) : Shape := heap st !!! i.

(** [isinstance(item, Room)] and [isinstance(item, BlueprintObject)]. *)
Definition is_room (st : App) (item : option nat) : bool :=
  match item with
  | Some i => bool_decide (cls (obj st i) = Room)
  | None => false
  end.

Definition is_object (st : App) (item : option nat) : bool :=
  match item with
  | Some i => bool_decide (cls (obj st i) = BlueprintObject)
  | None => false
  end.

(** [item.update_state(s)] on the shared object. *)
Definition set_obj_state (i : nat) (s : State) (st : App) : App :=
  set_heap (alter (update_state s) i (heap st)) st.

(** Object creation: the reference the next object gets, and the store
    extended with that object. *)
Definition new_ref (st : App) : nat := length (heap st).

Definition store (sh : Shape) (st : App) : App :=
  set_heap (heap st ++ [sh]) st.

(** [self.house.append(item)] and [self.furnishings.append(item)]. *)
Definition house_append (item : nat) (st : App) : App :=
  set_house (house st ++ [item]) st.

Definition furnishings_append (item : nat) (st : App) : App :=
  set_furnishings (furnishings st ++ [item]) st.

Definition update_buttons (st : App) : App :=
  let is_room_selected := is_room st (selected_item st) in
  set_paste_button (bool_decide (is_Some (clipboard st)))
    (set_copy_button is_room_selected st).

Definition lim_eqb (a b : Q * Q) : bool :=
  Qeq_bool (fst a) (fst b) && Qeq_bool (snd a) (snd b).

(** The running total of the loop over [self.house]. *)
Definition total_sqft (st : App) : Q :=
  fold_left
    (fun total r =>
       let w := py_max 0.1 (width (obj st r)) in
       let h := py_max 0.1 (height (obj st r)) in
       let area := w * h in
       total + area)
    (house st) 0.

Definition area_text (total : Q) : string :=
  "Total Area: " +:+ format_2f total +:+ " sqft".

(** The model-dependent part of [draw_blueprint]: the area label and the
    view limits.  Patches and texts are pure rendering. *)
Definition draw_blueprint (st : App) : App :=
  let xlim_before := xlim st in
  let ylim_before := ylim st in
  let st := set_total_sqft_label (area_text (total_sqft st)) st in
  let is_first_draw :=
    lim_eqb xlim_before (0, 1) && lim_eqb ylim_before (0, 1) in
  let all_items := map (obj st) (house st ++ furnishings st) in
  let all_x := map x all_items ++ map (fun item => x item + width item) all_items in
  let all_y := map y all_items ++ map (fun item => y item + height item) all_items in
  match all_items with
  | _ :: _ =>
      match is_first_draw, all_x, all_y with
      | true, x0 :: xs, y0 :: ys =>
          let min_x := py_min_list x0 xs in
          let max_x := py_max_list x0 xs in
          let min_y := py_min_list y0 ys in
          let max_y := py_max_list y0 ys in
          let x_margin := py_max 5 ((max_x - min_x) * 0.1) in
          let y_margin := py_max 5 ((max_y - min_y) * 0.1) in
          set_ylim (min_y - y_margin, max_y + y_margin)
            (set_xlim (min_x - x_margin, max_x + x_margin) st)
      | _, _, _ => set_ylim ylim_before (set_xlim xlim_before st)
      end
  | [] =>
      if is_first_draw then set_ylim (0, 50) (set_xlim (0, 50) st)
      else set_ylim ylim_before (set_xlim xlim_before st)
  end.

Definition select_item (item : option nat) (st : App) : App :=
  if decide (selected_item st = item) then st
  else draw_blueprint (update_buttons (set_selected_item item st)).

Definition log_action (action : Entry) (st : App) : App :=
  update_buttons
    (set_redo_stack [] (set_history (history st ++ [action]) st)).

(** [f'edit_{item_type}'] for the two shape classes. *)
Definition edit_kind (c : Class) : ActionKind :=
  match c with
  | Room => edit_room
  | BlueprintObject => edit_obj
  end.

Definition move_selected (dx dy : Q) (st : App) : App :=
  match selected_item st with
  | None => st
  | Some item =>
      let old_state := get_state (obj st item) in
      let '(n, ox, oy, ow, oh) := old_state in
      let new_state := (n, ox + dx, oy + dy, ow, oh) in
      let st := set_obj_state item new_state st in
      let st :=
        log_action
          (edit_kind (cls (obj st item)), item, Some old_state, Some new_state)
          st in
      draw_blueprint st
  end.

Definition prompt_add_room_precise (st : App) : Eff App :=
  OpenDialog "Add New Room" None (fun result =>
    match result with
    | Submitted s =>
        let new_room := new_ref st in
        let st := store (new_shape Room s) st in
        let st := house_append new_room st in
        let st :=
          log_action
            (add_room, new_room, Some (get_state (obj st new_room)), None) st in
        Ret (draw_blueprint st)
    | _ => Ret st
    end).

Definition copy_room (st : App) : App :=
  match selected_item st with
  | Some item =>
      if is_room st (Some item)
      then update_buttons (set_clipboard (Some (get_state (obj st item))) st)
      else st
  | None => st
  end.

Definition paste_room (st : App) : App :=
  match clipboard st with
  | None => st
  | Some (n, _, _, w, h) =>
      let new_name := n +:+ "(copy)" in
      let x_lim := xlim st in
      let y_lim := ylim st in
      let new_x := (fst x_lim + snd x_lim) / 2 in
      let new_y := (fst y_lim + snd y_lim) / 2 in
      let new_room := new_ref st in
      let st := store (new_shape Room (new_name, new_x, new_y, w, h)) st in
      let st := house_append new_room st in
      let st :=
        log_action
          (add_room, new_room, Some (get_state (obj st new_room)), None) st in
      let st := select_item (Some new_room) st in
      draw_blueprint st
  end.

Definition clear_all (st : App) : App :=
  let st := set_redo_stack [] (set_history [] (set_furnishings [] (set_house [] st))) in
  let st := select_item None st in
  update_buttons st.

Definition clear_blueprint (confirm : bool) (st : App) : Eff App :=
  if confirm then
    AskYesNo "Confirm" "This will clear the layout and all history. Continue?"
      (fun yes => if yes then Ret (clear_all st) else Ret st)
  else Ret (clear_all st).

(** [self.house.append(Room(...))]. *)
Definition append_room (s : State) (st : App) : App :=
  house_append (new_ref st) (store (new_shape Room s) st).

Definition generate_rooms (st : App) : Eff App :=
  st ← clear_blueprint false st;
  lr_w ← uniform 15 22;
  lr_h ← uniform 12 18;
  let st := append_room ("Living Room", 0, 0, lr_w, lr_h) st in
  k_w ← uniform 8 14;
  k_h ← uniform 8 14;
  k_y ← uniform 0 (lr_h - k_h);
  let st := append_room ("Kitchen", lr_w, k_y, k_w, k_h) st in
  mbr_w ← uniform 12 18;
  mbr_h ← uniform 10 15;
  mbr_x ← uniform 0 (lr_w - mbr_w);
  let st := append_room ("Master Bedroom", mbr_x, lr_h, mbr_w, mbr_h) st in
  b_w ← uniform 6 9;
  b_h ← uniform 6 9;
  let house1_y :=
    match house st !! 1%nat with
    | Some r => y (obj st r)
    | None => 0
    end in
  let st := append_room ("Bathroom", lr_w, house1_y + k_h, b_w, b_h) st in
  mret (draw_blueprint (update_buttons st)).

Definition generate_random_layout (st : App) : Eff App :=
  match house st with
  | _ :: _ =>
      AskYesNo "Confirm" "This will clear the current layout. Continue?"
        (fun yes => if yes then generate_rooms st else Ret st)
  | [] => generate_rooms st
  end.

Definition find_item_at (st : App) (px py : Q) : option nat :=
  match find (fun o => contains (obj st o) px py) (rev (furnishings st)) with
  | Some o => Some o
  | None => find (fun room => contains (obj st room) px py) (rev (house st))
  end.

(** Sequencing of callbacks that may raise. *)
Definition and_then (r : Result) (f : App -> Result) : Result :=
  match r with
  | Ok st => f st
  | Raised e st => Raised e st
  end.

(** [item.update_state(s)] where the slot [s] may hold [None]. *)
Definition restore_state (item : nat) (s : option State) (st : App) : Result :=
  match s with
  | Some s => Ok (set_obj_state item s st)
  | None => Raised TypeError st
  end.

Definition house_remove (item : nat) (st : App) : Result :=
  match list_remove item (house st) with
  | Some h => Ok (set_house h st)
  | None => Raised ValueError st
  end.

Definition furnishings_remove (item : nat) (st : App) : Result :=
  match list_remove item (furnishings st) with
  | Some f => Ok (set_furnishings f st)
  | None => Raised ValueError st
  end.

Definition prompt_edit_room_properties (room : nat) (st : App) : Eff Result :=
  let old_state := get_state (obj st room) in
  OpenDialog "Edit Room Properties" (Some old_state) (fun res =>
    Ret
      (match res with
       | DeleteItem =>
           and_then (house_remove room st) (fun st =>
             let st := log_action (delete_room, room, Some old_state, None) st in
             let st :=
               if decide (selected_item st = Some room)
               then select_item None st else st in
             Ok (draw_blueprint st))
       | Submitted res =>
           if negb (state_eqb res old_state) then
             let st := set_obj_state room res st in
             let st := log_action (edit_room, room, Some old_state, Some res) st in
             Ok (draw_blueprint st)
           else Ok (draw_blueprint st)
       | Cancelled => Ok (draw_blueprint st)
       end)).

Definition prompt_edit_object_properties (o : nat) (st : App) : Eff Result :=
  let old_state := get_state (obj st o) in
  OpenDialog "Edit Object Properties" (Some old_state) (fun res =>
    Ret
      (match res with
       | DeleteItem =>
           and_then (furnishings_remove o st) (fun st =>
             let st := log_action (delete_obj, o, Some old_state, None) st in
             let st :=
               if decide (selected_item st = Some o)
               then select_item None st else st in
             Ok (draw_blueprint st))
       | Submitted res =>
           if negb (state_eqb res old_state) then
             let st := set_obj_state o res st in
             let st := log_action (edit_obj, o, Some old_state, Some res) st in
             Ok (draw_blueprint st)
           else Ok (draw_blueprint st)
       | Cancelled => Ok (draw_blueprint st)
       end)).

(** [BaseDialog.on_delete]: the ['delete'] result is only set after a
    confirmation; otherwise the dialog stays open. *)
Definition on_delete : Eff (option DialogResult) :=
  AskYesNo "Confirm Deletion" "Are you sure you want to delete this item?"
    (fun yes => Ret (if yes then Some DeleteItem else None)).

(** The five entry widgets of a properties dialog, as typed. *)
Record Entries : Type := mkEntries {
  entry_name : string;
  entry_x : string;
  entry_y : string;
  entry_width : string;
  entry_height : string
}.

(** What [float(text)] returns when it returns: a finite number, an
    infinity (["inf"], ["-inf"]) or a NaN (["nan"]). *)
Inductive PyFloat : Type :=
| Finite (q : Q)
| PosInf
| NegInf
| NaN.

(** [v <= 0] on floats: every comparison with a NaN is false. *)
Definition le_zero (v : PyFloat) : bool :=
  match v with
  | Finite q => Qle_bool q 0
  | NegInf => true
  | PosInf | NaN => false
  end.

(** The tuple that [on_ok] stores in [self.result]. *)
Definition DialogTuple : Type :=
  string * PyFloat * PyFloat * PyFloat * PyFloat.

(** What [on_ok] reports through [messagebox.showerror]. *)
Inductive InputError : Type :=
| NameRequired                       (* "Name is required." *)
| NotAFloat (text : string)          (* the message of [float(text)] *)
| NotPositive.                       (* "Width and height must be positive." *)

(** [BaseDialog.on_ok].  [float] is Python's conversion of a string to a
    number, [None] standing for its [ValueError].  The fields are
    converted in the order x, y, width, height and the first failure is
    the one reported; an error leaves the dialog open with no result. *)
Definition on_ok (float : string -> option PyFloat) (entries : Entries)
  : InputError + DialogTuple :=
  let n := entry_name entries in
  if negb (truthy (Some n)) then inl NameRequired
  else
    match float (entry_x entries) with
    | None => inl (NotAFloat (entry_x entries))
    | Some vx =>
        match float (entry_y entries) with
        | None => inl (NotAFloat (entry_y entries))
        | Some vy =>
            match float (entry_width entries) with
            | None => inl (NotAFloat (entry_width entries))
            | Some w =>
                match float (entry_height entries) with
                | None => inl (NotAFloat (entry_height entries))
                | Some h =>
                    if le_zero w || le_zero h then inl NotPositive
                    else inr (n, vx, vy, w, h)
                end
            end
        end
    end.

(** [BaseDialog.on_cancel]. *)
Definition on_cancel : DialogResult := Cancelled.

Definition cancel_action (clear_draw_mode : bool) (st : App) : App :=
  let st :=
    match ghost_rect st with
    | Some _ => set_ghost_rect None st
    | None => st
    end in
  let st := set_object_to_add None st in
  let st := if clear_draw_mode then set_draw_mode_active false st else st in
  let st := set_current_action None st in
  let st := set_cursor "arrow" st in
  draw_blueprint st.

Definition toggle_draw_mode (st : App) : App :=
  let st := if draw_mode_active st then cancel_action false st else st in
  set_cursor (if draw_mode_active st then "crosshair" else "arrow") st.

(** [combo] is the current value of the object-type combobox. *)
Definition enter_add_object_mode (combo : string) (st : App) : App :=
  let st := cancel_action true st in
  let st := set_object_to_add (Some combo) st in
  set_cursor "tcross" st.

Definition add_object_at (px py : Q) (st : App) : Result :=
  match object_to_add st with
  | None => Raised KeyError st
  | Some n =>
      match dict_get object_templates n with
      | None => Raised KeyError st
      | Some (w, h) =>
          let new_obj := new_ref st in
          let st :=
            store (new_shape BlueprintObject (n, px - w / 2, py - h / 2, w, h))
              st in
          let st := furnishings_append new_obj st in
          let st :=
            log_action
              (add_obj, new_obj, Some (get_state (obj st new_obj)), None) st in
          Ok (cancel_action true st)
      end
  end.

Definition undo (st : App) : Result :=
  match list_pop (history st) with
  | None => Ok st
  | Some ((action, item, s1, s2), rest) =>
      let st := set_history rest st in
      and_then
        (match action with
         | add_room => house_remove item st
         | delete_room => restore_state item s1 (house_append item st)
         | edit_room => restore_state item s1 st
         | add_obj => furnishings_remove item st
         | delete_obj => restore_state item s1 (furnishings_append item st)
         | edit_obj => restore_state item s1 st
         end)
        (fun st =>
           let st := set_redo_stack (redo_stack st ++ [(action, item, s1, s2)]) st in
           Ok (draw_blueprint (update_buttons st)))
  end.

Definition redo (st : App) : Result :=
  match list_pop (redo_stack st) with
  | None => Ok st
  | Some ((action, item, s1, s2), rest) =>
      let st := set_redo_stack rest st in
      and_then
        (match action with
         | add_room => Ok (house_append item st)
         | delete_room => house_remove item st
         | edit_room => restore_state item s2 st
         | add_obj => Ok (furnishings_append item st)
         | delete_obj => furnishings_remove item st
         | edit_obj => restore_state item s2 st
         end)
        (fun st =>
           let st := set_history (history st ++ [(action, item, s1, s2)]) st in
           Ok (draw_blueprint (update_buttons st)))
  end.

Definition delete_selected_item (st : App) : Eff Result :=
  match selected_item st with
  | None => Ret (Ok st)
  | Some item =>
      let item_name := name (obj st item) in
      AskYesNo "Confirm Deletion"
        ("Are you sure you want to delete '" +:+ item_name +:+ "'?")
        (fun yes =>
           if negb yes then Ret (Ok st)
           else
             let old_state := get_state (obj st item) in
             Ret
               (and_then
                  (match cls (obj st item) with
                   | Room =>
                       and_then (house_remove item st) (fun st =>
                         Ok (log_action (delete_room, item, Some old_state, None) st))
                   | BlueprintObject =>
                       and_then (furnishings_remove item st) (fun st =>
                         Ok (log_action (delete_obj, item, Some old_state, None) st))
                   end)
                  (fun st => Ok (select_item None st))))
  end.

Definition on_press (event : MouseEvent) (st : App) : Eff Result :=
  if negb (inaxes event) || toolbar_mode st then Ret (Ok st)
  else
    let st := set_action_start_xy (Some (xdata event, ydata event)) st in
    if truthy (object_to_add st) then
      Ret (add_object_at (xdata event) (ydata event) st)
    else if dblclick event then
      match find_item_at st (xdata event) (ydata event) with
      | Some item =>
          match cls (obj st item) with
          | Room => prompt_edit_room_properties item st
          | BlueprintObject => prompt_edit_object_properties item st
          end
      | None => Ret (Ok st)
      end
    else
      let item_under_cursor := find_item_at st (xdata event) (ydata event) in
      let handle :=
        match item_under_cursor with
        | Some item =>
            if is_room st (Some item)
            then get_resize_handle (obj st item) (xdata event) (ydata event)
                   default_tolerance
            else None
        | None => None
        end in
      let st :=
        if truthy handle && bool_decide (item_under_cursor = selected_item st)
        then
          let st := set_current_action (Some resizing_room) st in
          let st := set_resize_handle handle st in
          set_original_state (get_state <$> (obj st <$> selected_item st)) st
        else
          match item_under_cursor with
          | Some item =>
              let st := select_item (Some item) st in
              let st := set_current_action (Some moving) st in
              set_original_state (get_state <$> (obj st <$> selected_item st)) st
          | None =>
              if draw_mode_active st then
                let st := select_item None st in
                let st := set_current_action (Some drawing_room) st in
                set_ghost_rect
                  (Some (mkRectangle (xdata event, ydata event) 0 0)) st
              else select_item None st
          end in
      Ret (Ok (draw_blueprint st)).

(** The three edge-adjusting assignments of the ['resizing_room'] branch,
    applied in source order to [(nx, ny, nw, nh)]. *)
Definition resize_state (handle : string) (original : State) (px py : Q)
  : State :=
  let '(n, ox, oy, ow, oh) := original in
  let '(nx, ny, nw, nh) := (ox, oy, ow, oh) in
  let nw := if str_in "right" handle then py_max 1 (px - ox) else nw in
  let '(nw, nx) :=
    if str_in "left" handle then (py_max 1 ((ox + ow) - px), px)
    else (nw, nx) in
  let nh := if str_in "top" handle then py_max 1 (py - oy) else nh in
  let '(nh, ny) :=
    if str_in "bottom" handle then (py_max 1 ((oy + oh) - py), py)
    else (nh, ny) in
  (n, nx, ny, nw, nh).

Definition on_motion (event : MouseEvent) (st : App) : Result :=
  if negb (inaxes event) || toolbar_mode st then Ok st
  else if truthy (object_to_add st) then
    match object_to_add st ≫= dict_get object_templates with
    | None => Raised KeyError st
    | Some (w, h) =>
        let st :=
          match ghost_rect st with
          | None => set_ghost_rect (Some (mkRectangle (0, 0) w h)) st
          | Some _ => st
          end in
        Ok (set_ghost_rect
              (match ghost_rect st with
               | Some g =>
                   Some (mkRectangle (xdata event - w / 2, ydata event - h / 2)
                           (rect_width g) (rect_height g))
               | None => None
               end) st)
    end
  else
    match current_action st with
    | None =>
        let cursor :=
          if is_room st (selected_item st)
             && truthy
                  (selected_item st ≫= fun item =>
                     get_resize_handle (obj st item) (xdata event) (ydata event)
                       default_tolerance)
          then "plus"
          else if bool_decide (is_Some (find_item_at st (xdata event) (ydata event)))
          then "fleur"
          else if draw_mode_active st then "crosshair"
          else "arrow" in
        Ok (set_cursor cursor st)
    | Some action =>
        match action_start_xy st with
        | None => Ok st
        | Some (sx, sy) =>
            let px := xdata event in
            let py := ydata event in
            and_then
              (match action, ghost_rect st, selected_item st with
               | drawing_room, Some g, _ =>
                   Ok (set_ghost_rect
                         (Some (mkRectangle (rect_xy g) (px - sx) (py - sy))) st)
               | moving, _, Some item =>
                   let dx := px - sx in
                   let dy := py - sy in
                   match original_state st with
                   | Some (n, ox, oy, ow, oh) =>
                       Ok (set_obj_state item (n, ox + dx, oy + dy, ow, oh) st)
                   | None => Raised TypeError st
                   end
               | resizing_room, _, Some item =>
                   match original_state st, resize_handle st with
                   | Some original, Some handle =>
                       Ok (set_obj_state item
                             (resize_state handle original px py) st)
                   | _, _ => Raised TypeError st
                   end
               | _, _, _ => Ok st
               end)
              (fun st => Ok (draw_blueprint st))
        end
    end.

Definition on_release (event : MouseEvent) (st : App) : Eff Result :=
  match current_action st with
  | None => Ret (Ok st)
  | Some action =>
      let item_type :=
        if is_room st (selected_item st) then Some Room
        else if is_object st (selected_item st) then Some BlueprintObject
        else None in
      let finish (st : App) : Result :=
        let st :=
          set_resize_handle None
            (set_original_state None (set_current_action None st)) in
        Ok (draw_blueprint st) in
      match action, ghost_rect st with
      | drawing_room, Some g =>
          let w := rect_width g in
          let h := rect_height g in
          let discard (st : App) : Result := finish (set_ghost_rect None st) in
          if Qlt_bool 1 (Qabs w) && Qlt_bool 1 (Qabs h) then
            match action_start_xy st with
            | None => Ret (Raised TypeError st)
            | Some (sx, sy) =>
                let x_start := py_min sx (sx + w) in
                let y_start := py_min sy (sy + h) in
                AskString "Room Name" "Enter a name:" (fun name =>
                  if truthy name then
                    let n := default "" name in
                    let nr := new_ref st in
                    let st :=
                      store (new_shape Room (n, x_start, y_start, Qabs w, Qabs h))
                        st in
                    let st := house_append nr st in
                    let st :=
                      log_action
                        (add_room, nr, Some (get_state (obj st nr)), None) st in
                    Ret (discard st)
                  else Ret (discard st))
            end
          else Ret (discard st)
      | moving, _ | resizing_room, _ =>
          match selected_item st, item_type with
          | Some item, Some c =>
              let differs :=
                match original_state st with
                | Some os => negb (state_eqb (get_state (obj st item)) os)
                | None => true
                end in
              if differs then
                Ret (finish
                       (log_action
                          (edit_kind c, item, original_state st,
                           Some (get_state (obj st item))) st))
              else Ret (finish st)
          | _, _ => Ret (finish st)
          end
      | drawing_room, None => Ret (finish st)
      end
  end.

(** [up] is [event.button == 'up'].  The limits that [get_xlim] and
    [get_ylim] return are [numpy.float64]: a division by a zero width does
    not raise, it gives an infinity or a NaN, the new limits are NaN and
    [set_xlim] refuses them with [ValueError].  With a zero height alone
    the x limits are already set when [set_ylim] raises. *)
Definition on_scroll (event : MouseEvent) (up : bool) (st : App) : Result :=
  if negb (inaxes event) then Ok st
  else
    let base_scale := 1.1 in
    let cur_xlim := xlim st in
    let cur_ylim := ylim st in
    let scale_factor := if up then 1 / base_scale else base_scale in
    let new_width := (snd cur_xlim - fst cur_xlim) * scale_factor in
    let new_height := (snd cur_ylim - fst cur_ylim) * scale_factor in
    if Qeq_bool (snd cur_xlim - fst cur_xlim) 0 then Raised ValueError st
    else
      let relx := (xdata event - fst cur_xlim) / (snd cur_xlim - fst cur_xlim) in
      let st :=
        set_xlim (xdata event - new_width * relx,
                  xdata event + new_width * (1 - relx)) st in
      if Qeq_bool (snd cur_ylim - fst cur_ylim) 0 then Raised ValueError st
      else
        let rely :=
          (ydata event - fst cur_ylim) / (snd cur_ylim - fst cur_ylim) in
        Ok (set_ylim (ydata event - new_height * rely,
                      ydata event + new_height * (1 - rely)) st).

(** [BlueprintApp.__init__]: empty model, default view [(0, 1)], first draw. *)
Definition init : App :=
  draw_blueprint
    (update_buttons
       (mkApp [] [] [] None [] [] None None None None None false None None
          false (0, 1) (0, 1) "Total Area: 0.00 sqft" "" false false)).

(** ** Vocabulary of the specification *)

(** The four boundary lines of a rectangle. *)
Definition left_edge (sh : Shape) : Q := x sh.
Definition right_edge (sh : Shape) : Q := x sh + width sh.
Definition bottom_edge (sh : Shape) : Q := y sh.
Definition top_edge (sh : Shape) : Q := y sh + height sh.

(** A coordinate lies within the tolerance of a boundary line. *)
Definition near (p line tolerance : Q) : Prop := Qabs (p - line) < tolerance.

(** The eight handle names [get_resize_handle] can return. *)
Definition handles : list string :=
  ["top-left"; "top-right"; "bottom-left"; "bottom-right";
   "top"; "bottom"; "left"; "right"].

(** A user who gives the same answer to every question of one kind; used
    to run an interaction to its result. *)
Record User : Type := mkUser {
  says_yes : bool;
  types_text : option string;
  dialog_result : DialogResult;
  random_draw : Q
}.

Fixpoint run {A : Type} (u : User) (m : Eff A) : A :=
  match m with
  | Ret a => a
  | AskYesNo _ _ k => run u (k (says_yes u))
  | AskString _ _ k => run u (k (types_text u))
  | OpenDialog _ _ k => run u (k (dialog_result u))
  | Random k => run u (k (random_draw u))
  end.

(** A plain single click or pointer position inside the axes. *)
Definition pointer (px py : Q) : MouseEvent := mkEvent true px py false.

(** A user who declines, types nothing and submits the given tuple. *)
Definition submits (s : State) : User := mkUser false None (Submitted s) 0.

(** Scenario: a 10 x 10 room "A" at the origin is added, selected by a
    click, grabbed by its left handle at [(0.5, 5)] and dragged to
    [(12, 5)], past its right edge at [x = 10]. *)
Definition room_A : State := ("A", 0, 0, 10, 10).

Definition room_A_added : App :=
  run (submits room_A) (prompt_add_room_precise init).

Definition room_A_selected : App :=
  let st := state_of (run (submits room_A) (on_press (pointer 0.5 5) room_A_added)) in
  state_of (run (submits room_A) (on_release (pointer 0.5 5) st)).

Definition room_A_grabbed : App :=
  state_of (run (submits room_A) (on_press (pointer 0.5 5) room_A_selected)).

Definition room_A_dragged : Result :=
  on_motion (pointer 12 5) room_A_grabbed.

(** The sum over all rooms of [max(0.1, width) * max(0.1, height)]. *)
Definition room_area (sh : Shape) : Q :=
  py_max 0.1 (width sh) * py_max 0.1 (height sh).

Fixpoint sum_areas (rooms : list Shape) : Q :=
  match rooms with
  | [] => 0
  | sh :: rest => room_area sh + sum_areas rest
  end.

(** The area label displays that sum for the rooms currently in [house]. *)
Definition label_ok (st : App) : Prop :=
  total_sqft_label st = area_text (sum_areas (map (obj st) (house st))).

(** What an operation may do to the two stacks: leave them alone, commit
    one entry (and then the redo stack is empty and the label fresh), or
    clear both. *)
Definition stack_effect (st st' : App) : Prop :=
  (history st' = history st /\ redo_stack st' = redo_stack st)
  \/ (exists e, history st' = history st ++ [e] /\ redo_stack st' = []
                /\ label_ok st')
  \/ (history st' = [] /\ redo_stack st' = []).

(** One user gesture other than undo and redo: every button, key binding
    and canvas event of the window, with every possible answer to the
    dialogs it opens. *)
Inductive edit_step : App -> App -> Prop :=
| es_move dx dy st :
    edit_step st (move_selected dx dy st)
| es_add_room st st' :
    outcome (prompt_add_room_precise st) st' -> edit_step st st'
| es_copy st :
    edit_step st (copy_room st)
| es_paste st :
    edit_step st (paste_room st)
| es_generate st st' :
    outcome (generate_random_layout st) st' -> edit_step st st'
| es_press event st r :
    outcome (on_press event st) r -> edit_step st (state_of r)
| es_motion event st :
    edit_step st (state_of (on_motion event st))
| es_release event st r :
    outcome (on_release event st) r -> edit_step st (state_of r)
| es_scroll event up st :
    edit_step st (state_of (on_scroll event up st))
| es_draw_button st :
    edit_step st
      (toggle_draw_mode (set_draw_mode_active (negb (draw_mode_active st)) st))
| es_object_button combo st :
    is_Some (dict_get object_templates combo) ->
    edit_step st (enter_add_object_mode combo st)
| es_escape st :
    edit_step st (cancel_action true st)
| es_clear st st' :
    outcome (clear_blueprint true st) st' -> edit_step st st'
| es_delete st r :
    outcome (delete_selected_item st) r -> edit_step st (state_of r)
| es_toolbar mode st :
    edit_step st (set_toolbar_mode mode st).

Inductive step : App -> App -> Prop :=
| step_edit st st' : edit_step st st' -> step st st'
| step_undo st : step st (state_of (undo st))
| step_redo st : step st (state_of (redo st)).

(** The states the window goes through when the events are handled one
    after the other, every question answered before the next event. *)
Inductive reachable : App -> Prop :=
| reach_init : reachable init
| reach_step st st' : reachable st -> step st st' -> reachable st'.

(** An entry on top of the undo stack can be undone without an exception:
    the item to take out is in its collection, the state to restore is a
    tuple. *)
Definition undoable (e : Entry) (st : App) : Prop :=
  let '(action, item, s1, _) := e in
  match action with
  | add_room => item ∈ house st
  | add_obj => item ∈ furnishings st
  | delete_room | edit_room | delete_obj | edit_obj => is_Some s1
  end.

(** Likewise for an entry on top of the redo stack. *)
Definition redoable (e : Entry) (st : App) : Prop :=
  let '(action, item, _, s2) := e in
  match action with
  | add_room | add_obj => True
  | delete_room => item ∈ house st
  | delete_obj => item ∈ furnishings st
  | edit_room | edit_obj => is_Some s2
  end.

(** Scenario: Room("Kitchen", 0, 0, 10, 10) is added through the dialog,
    its width is set to 5 in the properties dialog opened by a
    double-click, and the edit is undone. *)
Definition kitchen : State := ("Kitchen", 0, 0, 10, 10).

Definition kitchen_added : App :=
  run (submits kitchen) (prompt_add_room_precise init).

Definition kitchen_edited : Result :=
  run (submits ("Kitchen", 0, 0, 5, 10))
    (on_press (mkEvent true 5 5 true) kitchen_added).

Definition kitchen_undone : Result := undo (state_of kitchen_edited).

(** Scenario: free-draw mode is switched on, the pointer goes down at
    [(2, 3)] on the empty canvas and is dragged to [(6, 1)]. *)
Definition drawing_started : App :=
  state_of
    (run (submits room_A)
       (on_press (pointer 2 3)
          (toggle_draw_mode (set_draw_mode_active true init)))).

Definition drawing_dragged : App :=
  state_of (on_motion (pointer 6 1) drawing_started).

(** An operation asks for a confirmation first, and the answer "no" ends
    it with the result [declined]. *)
Definition asks_confirmation {A : Type} (m : Eff A) (declined : A) : Prop :=
  exists title message k,
    m = AskYesNo title message k /\ k false = Ret declined.

(** Scenario: a sofa is placed at [(10, 10)] on the empty canvas.  The
    house is empty, the furnishings and the history are not. *)
Definition sofa_placed : App :=
  state_of
    (run (submits room_A)
       (on_press (pointer 10 10) (enter_add_object_mode "Sofa" init))).

(** The entry on top of the undo stack records the latest change of its
    item: an added item is in its collection, a deleted one is still in
    its state at deletion, an edited one is in the entry's after-state. *)
Definition applied (e : Entry) (st : App) : Prop :=
  let '(action, item, s1, s2) := e in
  match action with
  | add_room => item ∈ house st
  | add_obj => item ∈ furnishings st
  | delete_room | delete_obj => s1 = Some (get_state (obj st item))
  | edit_room | edit_obj =>
      (item < length (heap st))%nat /\ is_Some s1
      /\ s2 = Some (get_state (obj st item))
  end.

(** The entry on top of the redo stack records the latest undone change. *)
Definition undone (e : Entry) (st : App) : Prop :=
  let '(action, item, s1, s2) := e in
  match action with
  | add_room | add_obj => True
  | delete_room =>
      item ∈ house st /\ s1 = Some (get_state (obj st item))
  | delete_obj =>
      item ∈ furnishings st /\ s1 = Some (get_state (obj st item))
  | edit_room | edit_obj =>
      (item < length (heap st))%nat /\ is_Some s2
      /\ s1 = Some (get_state (obj st item))
  end.

(** The model part of a state, field by field. *)
Definition model_is (st : App) (hp : list Shape) (hs fs : list nat)
    (sel : option nat) (hist rs : list Entry) : Prop :=
  heap st = hp /\ house st = hs /\ furnishings st = fs
  /\ selected_item st = sel /\ history st = hist /\ redo_stack st = rs.

(** Same observable state: the state of every shape, the members of
    [house] and [furnishings] (with multiplicity, in any order), both
    stacks and the selection. *)
Definition obs_eq (st st' : App) : Prop :=
  heap st' = heap st
  /\ house st' ≡ₚ house st
  /\ furnishings st' ≡ₚ furnishings st
  /\ history st' = history st
  /\ redo_stack st' = redo_stack st
  /\ selected_item st' = selected_item st.

Definition undo_redo_restores (st : App) : Prop :=
  exists st1 st2, undo st = Ok st1 /\ redo st1 = Ok st2 /\ obs_eq st st2.

Definition redo_undo_restores (st : App) : Prop :=
  exists st1 st2, redo st = Ok st1 /\ undo st1 = Ok st2 /\ obs_eq st st2.

(** Scenario: room "A" is moved right by 0.25 (an [edit_room] entry), then
    grabbed at its centre [(5.25, 5)], the one point of a 10 by 10 room
    that is 5 away from all four edges and so in reach of no handle,
    dragged to [(8.25, 5)], and the drag is abandoned with Escape before
    the button is released.  All the numbers are binary fractions, which
    floats hold exactly. *)
Definition room_A_nudged : App := move_selected 0.25 0 room_A_selected.

Definition drag_started : App :=
  state_of (run (submits room_A) (on_press (pointer 5.25 5) room_A_nudged)).

Definition drag_moved : App :=
  state_of (on_motion (pointer 8.25 5) drag_started).

Definition drag_abandoned : App :=
  state_of
    (run (submits room_A)
       (on_release (pointer 8.25 5) (cancel_action true drag_moved))).

(** Scenario: after the sofa, a chair is placed at the same point. *)
Definition two_objects : App :=
  state_of
    (run (submits room_A)
       (on_press (pointer 10 10) (enter_add_object_mode "Chair" sofa_placed))).

(** A user who answers yes. *)
Definition confirms : User := mkUser true None Cancelled 0.

(** Scenario: the selected room "A" is deleted with the Delete key. *)
Definition room_A_deleted : App :=
  state_of (run confirms (delete_selected_item room_A_selected)).

(** Scenario: room "A" is added and, with nothing selected, the layout is
    cleared and the question answered yes. *)
Definition cleared_unselected : App :=
  run confirms (clear_blueprint true room_A_added).

(** Scenario: after the edit of the kitchen is undone, so that the redo
    stack holds one entry, room "A" is added. *)
Definition room_added_after_undo : App :=
  run (submits room_A) (prompt_add_room_precise (state_of kitchen_undone)).

(** Scenario: rooms "A" and "B" overlap at [(7, 7)]; "B" was added last
    and "A" is selected by a click at [(0.5, 5)]. *)
Definition room_B : State := ("B", 5, 5, 10, 10).

Definition two_rooms : App :=
  run (submits room_B) (prompt_add_room_precise room_A_added).

Definition two_rooms_A_selected : App :=
  let st :=
    state_of (run (submits room_A) (on_press (pointer 0.5 5) two_rooms)) in
  state_of (run (submits room_A) (on_release (pointer 0.5 5) st)).

(** A conversion that knows a few strings, to run [on_ok]. *)
Definition float_of_sample (s : string) : option PyFloat :=
  if String.eqb s "0" then Some (Finite 0)
  else if String.eqb s "10" then Some (Finite 10)
  else if String.eqb s "-3" then Some (Finite (-3))
  else if String.eqb s "2.5" then Some (Finite 2.5)
  else if String.eqb s "inf" then Some PosInf
  else if String.eqb s "-inf" then Some NegInf
  else if String.eqb s "nan" then Some NaN
  else None.

(** The Copy and Paste buttons follow the selection and the clipboard. *)
Definition buttons_ok (st : App) : Prop :=
  copy_button st = is_room st (selected_item st)
  /\ paste_button st = bool_decide (is_Some (clipboard st)).

(** Free-draw mode and object placement exclude each other, and a pending
    object type is a key of the template table. *)
Definition modes_ok (st : App) : Prop :=
  (draw_mode_active st = true -> object_to_add st = None)
  /\ (forall n, object_to_add st = Some n ->
        is_Some (dict_get object_templates n)).

(** An action in progress has what the pointer handlers read: the point
    where it started, the snapshot for a move or a resize, the handle for a
    resize. *)
Definition action_ok (st : App) : Prop :=
  (is_Some (current_action st) -> is_Some (action_start_xy st))
  /\ (current_action st = Some moving
      \/ current_action st = Some resizing_room ->
      is_Some (original_state st))
  /\ (current_action st = Some resizing_room -> is_Some (resize_handle st)).

Definition consistent (st : App) : Prop :=
  buttons_ok st /\ modes_ok st /\ action_ok st.

(** [st'] has the modes and the action in progress of [st]. *)
Definition same_interaction (st st' : App) : Prop :=
  draw_mode_active st' = draw_mode_active st
  /\ object_to_add st' = object_to_add st
  /\ current_action st' = current_action st
  /\ action_start_xy st' = action_start_xy st
  /\ original_state st' = original_state st
  /\ resize_handle st' = resize_handle st.

(** Scenario: the selected room "A" is copied and pasted; the copy is the
    selection. *)
Definition room_A_pasted : App := paste_room (copy_room room_A_selected).

(** The collection a shape of class [c] lives in, and the kind of the entry
    that records its deletion. *)
Definition members (c : Class) (st : App) : list nat :=
  match c with
  | Room => house st
  | BlueprintObject => furnishings st
  end.

Definition delete_kind (c : Class) : ActionKind :=
  match c with
  | Room => delete_room
  | BlueprintObject => delete_obj
  end.

(** A double click inside the axes. *)
Definition double_click (px py : Q) : MouseEvent := mkEvent true px py true.

(** The class of the shapes that an entry of kind [k] is about. *)
Definition kind_class (k : ActionKind) : Class :=
  match k with
  | add_room | delete_room | edit_room => Room
  | add_obj | delete_obj | edit_obj => BlueprintObject
  end.

(** [i] refers to an object of class [c] in the store [hp]. *)
Definition item_ok (hp : list Shape) (c : Class) (i : nat) : Prop :=
  (i < length hp)%nat /\ cls (hp !!! i) = c.

(** An entry is about an object of the class its kind names, holds the
    state to go back to, and for an edit the state to go forward to. *)
Definition entry_ok (hp : list Shape) (e : Entry) : Prop :=
  let '(k, item, s1, s2) := e in
  item_ok hp (kind_class k) item /\ is_Some s1
  /\ (k = edit_room \/ k = edit_obj -> is_Some s2).

(** [house] holds rooms, [furnishings] holds objects, the entries of both
    stacks are right, and the selection is an object of the store. *)
Definition typed (st : App) : Prop :=
  Forall (item_ok (heap st) Room) (house st)
  /\ Forall (item_ok (heap st) BlueprintObject) (furnishings st)
  /\ Forall (entry_ok (heap st)) (history st)
  /\ Forall (entry_ok (heap st)) (redo_stack st)
  /\ (forall i, selected_item st = Some i -> (i < length (heap st))%nat).

(** Scenario: the selected room "A" is pressed at [(9.5, 5)], in reach of
    its right edge only: a resize by the right handle begins. *)
Definition room_A_right_grabbed : App :=
  state_of (run (submits room_A) (on_press (pointer 9.5 5) room_A_selected)).

(** * Verification *)

(** ** Field projections *)

(** Reading a field after writing one. *)

Lemma heap_set_heap v st : heap (set_heap v st) = v.
Proof. reflexivity. Qed.
Lemma heap_set_house v st : heap (set_house v st) = heap st.
Proof. reflexivity. Qed.
Lemma heap_set_furnishings v st : heap (set_furnishings v st) = heap st.
Proof. reflexivity. Qed.
Lemma heap_set_selected_item v st : heap (set_selected_item v st) = heap st.
Proof. reflexivity. Qed.
Lemma heap_set_history v st : heap (set_history v st) = heap st.
Proof. reflexivity. Qed.
Lemma heap_set_redo_stack v st : heap (set_redo_stack v st) = heap st.
Proof. reflexivity. Qed.
Lemma heap_set_clipboard v st : heap (set_clipboard v st) = heap st.
Proof. reflexivity. Qed.
Lemma heap_set_current_action v st : heap (set_current_action v st) = heap st.
Proof. reflexivity. Qed.
Lemma heap_set_action_start_xy v st : heap (set_action_start_xy v st) = heap st.
Proof. reflexivity. Qed.
Lemma heap_set_ghost_rect v st : heap (set_ghost_rect v st) = heap st.
Proof. reflexivity. Qed.
Lemma heap_set_object_to_add v st : heap (set_object_to_add v st) = heap st.
Proof. reflexivity. Qed.
Lemma heap_set_draw_mode_active v st : heap (set_draw_mode_active v st) = heap st.
Proof. reflexivity. Qed.
Lemma heap_set_original_state v st : heap (set_original_state v st) = heap st.
Proof. reflexivity. Qed.
Lemma heap_set_resize_handle v st : heap (set_resize_handle v st) = heap st.
Proof. reflexivity. Qed.
Lemma heap_set_toolbar_mode v st : heap (set_toolbar_mode v st) = heap st.
Proof. reflexivity. Qed.
Lemma heap_set_xlim v st : heap (set_xlim v st) = heap st.
Proof. reflexivity. Qed.
Lemma heap_set_ylim v st : heap (set_ylim v st) = heap st.
Proof. reflexivity. Qed.
Lemma heap_set_total_sqft_label v st : heap (set_total_sqft_label v st) = heap st.
Proof. reflexivity. Qed.
Lemma heap_set_cursor v st : heap (set_cursor v st) = heap st.
Proof. reflexivity. Qed.
Lemma heap_set_copy_button v st : heap (set_copy_button v st) = heap st.
Proof. reflexivity. Qed.
Lemma heap_set_paste_button v st : heap (set_paste_button v st) = heap st.
Proof. reflexivity. Qed.
Lemma house_set_heap v st : house (set_heap v st) = house st.
Proof. reflexivity. Qed.
Lemma house_set_house v st : house (set_house v st) = v.
Proof. reflexivity. Qed.
Lemma house_set_furnishings v st : house (set_furnishings v st) = house st.
Proof. reflexivity. Qed.
Lemma house_set_selected_item v st : house (set_selected_item v st) = house st.
Proof. reflexivity. Qed.
Lemma house_set_history v st : house (set_history v st) = house st.
Proof. reflexivity. Qed.
Lemma house_set_redo_stack v st : house (set_redo_stack v st) = house st.
Proof. reflexivity. Qed.
Lemma house_set_clipboard v st : house (set_clipboard v st) = house st.
Proof. reflexivity. Qed.
Lemma house_set_current_action v st : house (set_current_action v st) = house st.
Proof. reflexivity. Qed.
Lemma house_set_action_start_xy v st : house (set_action_start_xy v st) = house st.
Proof. reflexivity. Qed.
Lemma house_set_ghost_rect v st : house (set_ghost_rect v st) = house st.
Proof. reflexivity. Qed.
Lemma house_set_object_to_add v st : house (set_object_to_add v st) = house st.
Proof. reflexivity. Qed.
Lemma house_set_draw_mode_active v st : house (set_draw_mode_active v st) = house st.
Proof. reflexivity. Qed.
Lemma house_set_original_state v st : house (set_original_state v st) = house st.
Proof. reflexivity. Qed.
Lemma house_set_resize_handle v st : house (set_resize_handle v st) = house st.
Proof. reflexivity. Qed.
Lemma house_set_toolbar_mode v st : house (set_toolbar_mode v st) = house st.
Proof. reflexivity. Qed.
Lemma house_set_xlim v st : house (set_xlim v st) = house st.
Proof. reflexivity. Qed.
Lemma house_set_ylim v st : house (set_ylim v st) = house st.
Proof. reflexivity. Qed.
Lemma house_set_total_sqft_label v st : house (set_total_sqft_label v st) = house st.
Proof. reflexivity. Qed.
Lemma house_set_cursor v st : house (set_cursor v st) = house st.
Proof. reflexivity. Qed.
Lemma house_set_copy_button v st : house (set_copy_button v st) = house st.
Proof. reflexivity. Qed.
Lemma house_set_paste_button v st : house (set_paste_button v st) = house st.
Proof. reflexivity. Qed.
Lemma furnishings_set_heap v st : furnishings (set_heap v st) = furnishings st.
Proof. reflexivity. Qed.
Lemma furnishings_set_house v st : furnishings (set_house v st) = furnishings st.
Proof. reflexivity. Qed.
Lemma furnishings_set_furnishings v st : furnishings (set_furnishings v st) = v.
Proof. reflexivity. Qed.
Lemma furnishings_set_selected_item v st : furnishings (set_selected_item v st) = furnishings st.
Proof. reflexivity. Qed.
Lemma furnishings_set_history v st : furnishings (set_history v st) = furnishings st.
Proof. reflexivity. Qed.
Lemma furnishings_set_redo_stack v st : furnishings (set_redo_stack v st) = furnishings st.
Proof. reflexivity. Qed.
Lemma furnishings_set_clipboard v st : furnishings (set_clipboard v st) = furnishings st.
Proof. reflexivity. Qed.
Lemma furnishings_set_current_action v st : furnishings (set_current_action v st) = furnishings st.
Proof. reflexivity. Qed.
Lemma furnishings_set_action_start_xy v st : furnishings (set_action_start_xy v st) = furnishings st.
Proof. reflexivity. Qed.
Lemma furnishings_set_ghost_rect v st : furnishings (set_ghost_rect v st) = furnishings st.
Proof. reflexivity. Qed.
Lemma furnishings_set_object_to_add v st : furnishings (set_object_to_add v st) = furnishings st.
Proof. reflexivity. Qed.
Lemma furnishings_set_draw_mode_active v st : furnishings (set_draw_mode_active v st) = furnishings st.
Proof. reflexivity. Qed.
Lemma furnishings_set_original_state v st : furnishings (set_original_state v st) = furnishings st.
Proof. reflexivity. Qed.
Lemma furnishings_set_resize_handle v st : furnishings (set_resize_handle v st) = furnishings st.
Proof. reflexivity. Qed.
Lemma furnishings_set_toolbar_mode v st : furnishings (set_toolbar_mode v st) = furnishings st.
Proof. reflexivity. Qed.
Lemma furnishings_set_xlim v st : furnishings (set_xlim v st) = furnishings st.
Proof. reflexivity. Qed.
Lemma furnishings_set_ylim v st : furnishings (set_ylim v st) = furnishings st.
Proof. reflexivity. Qed.
Lemma furnishings_set_total_sqft_label v st : furnishings (set_total_sqft_label v st) = furnishings st.
Proof. reflexivity. Qed.
Lemma furnishings_set_cursor v st : furnishings (set_cursor v st) = furnishings st.
Proof. reflexivity. Qed.
Lemma furnishings_set_copy_button v st : furnishings (set_copy_button v st) = furnishings st.
Proof. reflexivity. Qed.
Lemma furnishings_set_paste_button v st : furnishings (set_paste_button v st) = furnishings st.
Proof. reflexivity. Qed.
Lemma selected_item_set_heap v st : selected_item (set_heap v st) = selected_item st.
Proof. reflexivity. Qed.
Lemma selected_item_set_house v st : selected_item (set_house v st) = selected_item st.
Proof. reflexivity. Qed.
Lemma selected_item_set_furnishings v st : selected_item (set_furnishings v st) = selected_item st.
Proof. reflexivity. Qed.
Lemma selected_item_set_selected_item v st : selected_item (set_selected_item v st) = v.
Proof. reflexivity. Qed.
Lemma selected_item_set_history v st : selected_item (set_history v st) = selected_item st.
Proof. reflexivity. Qed.
Lemma selected_item_set_redo_stack v st : selected_item (set_redo_stack v st) = selected_item st.
Proof. reflexivity. Qed.
Lemma selected_item_set_clipboard v st : selected_item (set_clipboard v st) = selected_item st.
Proof. reflexivity. Qed.
Lemma selected_item_set_current_action v st : selected_item (set_current_action v st) = selected_item st.
Proof. reflexivity. Qed.
Lemma selected_item_set_action_start_xy v st : selected_item (set_action_start_xy v st) = selected_item st.
Proof. reflexivity. Qed.
Lemma selected_item_set_ghost_rect v st : selected_item (set_ghost_rect v st) = selected_item st.
Proof. reflexivity. Qed.
Lemma selected_item_set_object_to_add v st : selected_item (set_object_to_add v st) = selected_item st.
Proof. reflexivity. Qed.
Lemma selected_item_set_draw_mode_active v st : selected_item (set_draw_mode_active v st) = selected_item st.
Proof. reflexivity. Qed.
Lemma selected_item_set_original_state v st : selected_item (set_original_state v st) = selected_item st.
Proof. reflexivity. Qed.
Lemma selected_item_set_resize_handle v st : selected_item (set_resize_handle v st) = selected_item st.
Proof. reflexivity. Qed.
Lemma selected_item_set_toolbar_mode v st : selected_item (set_toolbar_mode v st) = selected_item st.
Proof. reflexivity. Qed.
Lemma selected_item_set_xlim v st : selected_item (set_xlim v st) = selected_item st.
Proof. reflexivity. Qed.
Lemma selected_item_set_ylim v st : selected_item (set_ylim v st) = selected_item st.
Proof. reflexivity. Qed.
Lemma selected_item_set_total_sqft_label v st : selected_item (set_total_sqft_label v st) = selected_item st.
Proof. reflexivity. Qed.
Lemma selected_item_set_cursor v st : selected_item (set_cursor v st) = selected_item st.
Proof. reflexivity. Qed.
Lemma selected_item_set_copy_button v st : selected_item (set_copy_button v st) = selected_item st.
Proof. reflexivity. Qed.
Lemma selected_item_set_paste_button v st : selected_item (set_paste_button v st) = selected_item st.
Proof. reflexivity. Qed.
Lemma history_set_heap v st : history (set_heap v st) = history st.
Proof. reflexivity. Qed.
Lemma history_set_house v st : history (set_house v st) = history st.
Proof. reflexivity. Qed.
Lemma history_set_furnishings v st : history (set_furnishings v st) = history st.
Proof. reflexivity. Qed.
Lemma history_set_selected_item v st : history (set_selected_item v st) = history st.
Proof. reflexivity. Qed.
Lemma history_set_history v st : history (set_history v st) = v.
Proof. reflexivity. Qed.
Lemma history_set_redo_stack v st : history (set_redo_stack v st) = history st.
Proof. reflexivity. Qed.
Lemma history_set_clipboard v st : history (set_clipboard v st) = history st.
Proof. reflexivity. Qed.
Lemma history_set_current_action v st : history (set_current_action v st) = history st.
Proof. reflexivity. Qed.
Lemma history_set_action_start_xy v st : history (set_action_start_xy v st) = history st.
Proof. reflexivity. Qed.
Lemma history_set_ghost_rect v st : history (set_ghost_rect v st) = history st.
Proof. reflexivity. Qed.
Lemma history_set_object_to_add v st : history (set_object_to_add v st) = history st.
Proof. reflexivity. Qed.
Lemma history_set_draw_mode_active v st : history (set_draw_mode_active v st) = history st.
Proof. reflexivity. Qed.
Lemma history_set_original_state v st : history (set_original_state v st) = history st.
Proof. reflexivity. Qed.
Lemma history_set_resize_handle v st : history (set_resize_handle v st) = history st.
Proof. reflexivity. Qed.
Lemma history_set_toolbar_mode v st : history (set_toolbar_mode v st) = history st.
Proof. reflexivity. Qed.
Lemma history_set_xlim v st : history (set_xlim v st) = history st.
Proof. reflexivity. Qed.
Lemma history_set_ylim v st : history (set_ylim v st) = history st.
Proof. reflexivity. Qed.
Lemma history_set_total_sqft_label v st : history (set_total_sqft_label v st) = history st.
Proof. reflexivity. Qed.
Lemma history_set_cursor v st : history (set_cursor v st) = history st.
Proof. reflexivity. Qed.
Lemma history_set_copy_button v st : history (set_copy_button v st) = history st.
Proof. reflexivity. Qed.
Lemma history_set_paste_button v st : history (set_paste_button v st) = history st.
Proof. reflexivity. Qed.
Lemma redo_stack_set_heap v st : redo_stack (set_heap v st) = redo_stack st.
Proof. reflexivity. Qed.
Lemma redo_stack_set_house v st : redo_stack (set_house v st) = redo_stack st.
Proof. reflexivity. Qed.
Lemma redo_stack_set_furnishings v st : redo_stack (set_furnishings v st) = redo_stack st.
Proof. reflexivity. Qed.
Lemma redo_stack_set_selected_item v st : redo_stack (set_selected_item v st) = redo_stack st.
Proof. reflexivity. Qed.
Lemma redo_stack_set_history v st : redo_stack (set_history v st) = redo_stack st.
Proof. reflexivity. Qed.
Lemma redo_stack_set_redo_stack v st : redo_stack (set_redo_stack v st) = v.
Proof. reflexivity. Qed.
Lemma redo_stack_set_clipboard v st : redo_stack (set_clipboard v st) = redo_stack st.
Proof. reflexivity. Qed.
Lemma redo_stack_set_current_action v st : redo_stack (set_current_action v st) = redo_stack st.
Proof. reflexivity. Qed.
Lemma redo_stack_set_action_start_xy v st : redo_stack (set_action_start_xy v st) = redo_stack st.
Proof. reflexivity. Qed.
Lemma redo_stack_set_ghost_rect v st : redo_stack (set_ghost_rect v st) = redo_stack st.
Proof. reflexivity. Qed.
Lemma redo_stack_set_object_to_add v st : redo_stack (set_object_to_add v st) = redo_stack st.
Proof. reflexivity. Qed.
Lemma redo_stack_set_draw_mode_active v st : redo_stack (set_draw_mode_active v st) = redo_stack st.
Proof. reflexivity. Qed.
Lemma redo_stack_set_original_state v st : redo_stack (set_original_state v st) = redo_stack st.
Proof. reflexivity. Qed.
Lemma redo_stack_set_resize_handle v st : redo_stack (set_resize_handle v st) = redo_stack st.
Proof. reflexivity. Qed.
Lemma redo_stack_set_toolbar_mode v st : redo_stack (set_toolbar_mode v st) = redo_stack st.
Proof. reflexivity. Qed.
Lemma redo_stack_set_xlim v st : redo_stack (set_xlim v st) = redo_stack st.
Proof. reflexivity. Qed.
Lemma redo_stack_set_ylim v st : redo_stack (set_ylim v st) = redo_stack st.
Proof. reflexivity. Qed.
Lemma redo_stack_set_total_sqft_label v st : redo_stack (set_total_sqft_label v st) = redo_stack st.
Proof. reflexivity. Qed.
Lemma redo_stack_set_cursor v st : redo_stack (set_cursor v st) = redo_stack st.
Proof. reflexivity. Qed.
Lemma redo_stack_set_copy_button v st : redo_stack (set_copy_button v st) = redo_stack st.
Proof. reflexivity. Qed.
Lemma redo_stack_set_paste_button v st : redo_stack (set_paste_button v st) = redo_stack st.
Proof. reflexivity. Qed.
Lemma clipboard_set_heap v st : clipboard (set_heap v st) = clipboard st.
Proof. reflexivity. Qed.
Lemma clipboard_set_house v st : clipboard (set_house v st) = clipboard st.
Proof. reflexivity. Qed.
Lemma clipboard_set_furnishings v st : clipboard (set_furnishings v st) = clipboard st.
Proof. reflexivity. Qed.
Lemma clipboard_set_selected_item v st : clipboard (set_selected_item v st) = clipboard st.
Proof. reflexivity. Qed.
Lemma clipboard_set_history v st : clipboard (set_history v st) = clipboard st.
Proof. reflexivity. Qed.
Lemma clipboard_set_redo_stack v st : clipboard (set_redo_stack v st) = clipboard st.
Proof. reflexivity. Qed.
Lemma clipboard_set_clipboard v st : clipboard (set_clipboard v st) = v.
Proof. reflexivity. Qed.
Lemma clipboard_set_current_action v st : clipboard (set_current_action v st) = clipboard st.
Proof. reflexivity. Qed.
Lemma clipboard_set_action_start_xy v st : clipboard (set_action_start_xy v st) = clipboard st.
Proof. reflexivity. Qed.
Lemma clipboard_set_ghost_rect v st : clipboard (set_ghost_rect v st) = clipboard st.
Proof. reflexivity. Qed.
Lemma clipboard_set_object_to_add v st : clipboard (set_object_to_add v st) = clipboard st.
Proof. reflexivity. Qed.
Lemma clipboard_set_draw_mode_active v st : clipboard (set_draw_mode_active v st) = clipboard st.
Proof. reflexivity. Qed.
Lemma clipboard_set_original_state v st : clipboard (set_original_state v st) = clipboard st.
Proof. reflexivity. Qed.
Lemma clipboard_set_resize_handle v st : clipboard (set_resize_handle v st) = clipboard st.
Proof. reflexivity. Qed.
Lemma clipboard_set_toolbar_mode v st : clipboard (set_toolbar_mode v st) = clipboard st.
Proof. reflexivity. Qed.
Lemma clipboard_set_xlim v st : clipboard (set_xlim v st) = clipboard st.
Proof. reflexivity. Qed.
Lemma clipboard_set_ylim v st : clipboard (set_ylim v st) = clipboard st.
Proof. reflexivity. Qed.
Lemma clipboard_set_total_sqft_label v st : clipboard (set_total_sqft_label v st) = clipboard st.
Proof. reflexivity. Qed.
Lemma clipboard_set_cursor v st : clipboard (set_cursor v st) = clipboard st.
Proof. reflexivity. Qed.
Lemma clipboard_set_copy_button v st : clipboard (set_copy_button v st) = clipboard st.
Proof. reflexivity. Qed.
Lemma clipboard_set_paste_button v st : clipboard (set_paste_button v st) = clipboard st.
Proof. reflexivity. Qed.
Lemma current_action_set_heap v st : current_action (set_heap v st) = current_action st.
Proof. reflexivity. Qed.
Lemma current_action_set_house v st : current_action (set_house v st) = current_action st.
Proof. reflexivity. Qed.
Lemma current_action_set_furnishings v st : current_action (set_furnishings v st) = current_action st.
Proof. reflexivity. Qed.
Lemma current_action_set_selected_item v st : current_action (set_selected_item v st) = current_action st.
Proof. reflexivity. Qed.
Lemma current_action_set_history v st : current_action (set_history v st) = current_action st.
Proof. reflexivity. Qed.
Lemma current_action_set_redo_stack v st : current_action (set_redo_stack v st) = current_action st.
Proof. reflexivity. Qed.
Lemma current_action_set_clipboard v st : current_action (set_clipboard v st) = current_action st.
Proof. reflexivity. Qed.
Lemma current_action_set_current_action v st : current_action (set_current_action v st) = v.
Proof. reflexivity. Qed.
Lemma current_action_set_action_start_xy v st : current_action (set_action_start_xy v st) = current_action st.
Proof. reflexivity. Qed.
Lemma current_action_set_ghost_rect v st : current_action (set_ghost_rect v st) = current_action st.
Proof. reflexivity. Qed.
Lemma current_action_set_object_to_add v st : current_action (set_object_to_add v st) = current_action st.
Proof. reflexivity. Qed.
Lemma current_action_set_draw_mode_active v st : current_action (set_draw_mode_active v st) = current_action st.
Proof. reflexivity. Qed.
Lemma current_action_set_original_state v st : current_action (set_original_state v st) = current_action st.
Proof. reflexivity. Qed.
Lemma current_action_set_resize_handle v st : current_action (set_resize_handle v st) = current_action st.
Proof. reflexivity. Qed.
Lemma current_action_set_toolbar_mode v st : current_action (set_toolbar_mode v st) = current_action st.
Proof. reflexivity. Qed.
Lemma current_action_set_xlim v st : current_action (set_xlim v st) = current_action st.
Proof. reflexivity. Qed.
Lemma current_action_set_ylim v st : current_action (set_ylim v st) = current_action st.
Proof. reflexivity. Qed.
Lemma current_action_set_total_sqft_label v st : current_action (set_total_sqft_label v st) = current_action st.
Proof. reflexivity. Qed.
Lemma current_action_set_cursor v st : current_action (set_cursor v st) = current_action st.
Proof. reflexivity. Qed.
Lemma current_action_set_copy_button v st : current_action (set_copy_button v st) = current_action st.
Proof. reflexivity. Qed.
Lemma current_action_set_paste_button v st : current_action (set_paste_button v st) = current_action st.
Proof. reflexivity. Qed.
Lemma action_start_xy_set_heap v st : action_start_xy (set_heap v st) = action_start_xy st.
Proof. reflexivity. Qed.
Lemma action_start_xy_set_house v st : action_start_xy (set_house v st) = action_start_xy st.
Proof. reflexivity. Qed.
Lemma action_start_xy_set_furnishings v st : action_start_xy (set_furnishings v st) = action_start_xy st.
Proof. reflexivity. Qed.
Lemma action_start_xy_set_selected_item v st : action_start_xy (set_selected_item v st) = action_start_xy st.
Proof. reflexivity. Qed.
Lemma action_start_xy_set_history v st : action_start_xy (set_history v st) = action_start_xy st.
Proof. reflexivity. Qed.
Lemma action_start_xy_set_redo_stack v st : action_start_xy (set_redo_stack v st) = action_start_xy st.
Proof. reflexivity. Qed.
Lemma action_start_xy_set_clipboard v st : action_start_xy (set_clipboard v st) = action_start_xy st.
Proof. reflexivity. Qed.
Lemma action_start_xy_set_current_action v st : action_start_xy (set_current_action v st) = action_start_xy st.
Proof. reflexivity. Qed.
Lemma action_start_xy_set_action_start_xy v st : action_start_xy (set_action_start_xy v st) = v.
Proof. reflexivity. Qed.
Lemma action_start_xy_set_ghost_rect v st : action_start_xy (set_ghost_rect v st) = action_start_xy st.
Proof. reflexivity. Qed.
Lemma action_start_xy_set_object_to_add v st : action_start_xy (set_object_to_add v st) = action_start_xy st.
Proof. reflexivity. Qed.
Lemma action_start_xy_set_draw_mode_active v st : action_start_xy (set_draw_mode_active v st) = action_start_xy st.
Proof. reflexivity. Qed.
Lemma action_start_xy_set_original_state v st : action_start_xy (set_original_state v st) = action_start_xy st.
Proof. reflexivity. Qed.
Lemma action_start_xy_set_resize_handle v st : action_start_xy (set_resize_handle v st) = action_start_xy st.
Proof. reflexivity. Qed.
Lemma action_start_xy_set_toolbar_mode v st : action_start_xy (set_toolbar_mode v st) = action_start_xy st.
Proof. reflexivity. Qed.
Lemma action_start_xy_set_xlim v st : action_start_xy (set_xlim v st) = action_start_xy st.
Proof. reflexivity. Qed.
Lemma action_start_xy_set_ylim v st : action_start_xy (set_ylim v st) = action_start_xy st.
Proof. reflexivity. Qed.
Lemma action_start_xy_set_total_sqft_label v st : action_start_xy (set_total_sqft_label v st) = action_start_xy st.
Proof. reflexivity. Qed.
Lemma action_start_xy_set_cursor v st : action_start_xy (set_cursor v st) = action_start_xy st.
Proof. reflexivity. Qed.
Lemma action_start_xy_set_copy_button v st : action_start_xy (set_copy_button v st) = action_start_xy st.
Proof. reflexivity. Qed.
Lemma action_start_xy_set_paste_button v st : action_start_xy (set_paste_button v st) = action_start_xy st.
Proof. reflexivity. Qed.
Lemma ghost_rect_set_heap v st : ghost_rect (set_heap v st) = ghost_rect st.
Proof. reflexivity. Qed.
Lemma ghost_rect_set_house v st : ghost_rect (set_house v st) = ghost_rect st.
Proof. reflexivity. Qed.
Lemma ghost_rect_set_furnishings v st : ghost_rect (set_furnishings v st) = ghost_rect st.
Proof. reflexivity. Qed.
Lemma ghost_rect_set_selected_item v st : ghost_rect (set_selected_item v st) = ghost_rect st.
Proof. reflexivity. Qed.
Lemma ghost_rect_set_history v st : ghost_rect (set_history v st) = ghost_rect st.
Proof. reflexivity. Qed.
Lemma ghost_rect_set_redo_stack v st : ghost_rect (set_redo_stack v st) = ghost_rect st.
Proof. reflexivity. Qed.
Lemma ghost_rect_set_clipboard v st : ghost_rect (set_clipboard v st) = ghost_rect st.
Proof. reflexivity. Qed.
Lemma ghost_rect_set_current_action v st : ghost_rect (set_current_action v st) = ghost_rect st.
Proof. reflexivity. Qed.
Lemma ghost_rect_set_action_start_xy v st : ghost_rect (set_action_start_xy v st) = ghost_rect st.
Proof. reflexivity. Qed.
Lemma ghost_rect_set_ghost_rect v st : ghost_rect (set_ghost_rect v st) = v.
Proof. reflexivity. Qed.
Lemma ghost_rect_set_object_to_add v st : ghost_rect (set_object_to_add v st) = ghost_rect st.
Proof. reflexivity. Qed.
Lemma ghost_rect_set_draw_mode_active v st : ghost_rect (set_draw_mode_active v st) = ghost_rect st.
Proof. reflexivity. Qed.
Lemma ghost_rect_set_original_state v st : ghost_rect (set_original_state v st) = ghost_rect st.
Proof. reflexivity. Qed.
Lemma ghost_rect_set_resize_handle v st : ghost_rect (set_resize_handle v st) = ghost_rect st.
Proof. reflexivity. Qed.
Lemma ghost_rect_set_toolbar_mode v st : ghost_rect (set_toolbar_mode v st) = ghost_rect st.
Proof. reflexivity. Qed.
Lemma ghost_rect_set_xlim v st : ghost_rect (set_xlim v st) = ghost_rect st.
Proof. reflexivity. Qed.
Lemma ghost_rect_set_ylim v st : ghost_rect (set_ylim v st) = ghost_rect st.
Proof. reflexivity. Qed.
Lemma ghost_rect_set_total_sqft_label v st : ghost_rect (set_total_sqft_label v st) = ghost_rect st.
Proof. reflexivity. Qed.
Lemma ghost_rect_set_cursor v st : ghost_rect (set_cursor v st) = ghost_rect st.
Proof. reflexivity. Qed.
Lemma ghost_rect_set_copy_button v st : ghost_rect (set_copy_button v st) = ghost_rect st.
Proof. reflexivity. Qed.
Lemma ghost_rect_set_paste_button v st : ghost_rect (set_paste_button v st) = ghost_rect st.
Proof. reflexivity. Qed.
Lemma object_to_add_set_heap v st : object_to_add (set_heap v st) = object_to_add st.
Proof. reflexivity. Qed.
Lemma object_to_add_set_house v st : object_to_add (set_house v st) = object_to_add st.
Proof. reflexivity. Qed.
Lemma object_to_add_set_furnishings v st : object_to_add (set_furnishings v st) = object_to_add st.
Proof. reflexivity. Qed.
Lemma object_to_add_set_selected_item v st : object_to_add (set_selected_item v st) = object_to_add st.
Proof. reflexivity. Qed.
Lemma object_to_add_set_history v st : object_to_add (set_history v st) = object_to_add st.
Proof. reflexivity. Qed.
Lemma object_to_add_set_redo_stack v st : object_to_add (set_redo_stack v st) = object_to_add st.
Proof. reflexivity. Qed.
Lemma object_to_add_set_clipboard v st : object_to_add (set_clipboard v st) = object_to_add st.
Proof. reflexivity. Qed.
Lemma object_to_add_set_current_action v st : object_to_add (set_current_action v st) = object_to_add st.
Proof. reflexivity. Qed.
Lemma object_to_add_set_action_start_xy v st : object_to_add (set_action_start_xy v st) = object_to_add st.
Proof. reflexivity. Qed.
Lemma object_to_add_set_ghost_rect v st : object_to_add (set_ghost_rect v st) = object_to_add st.
Proof. reflexivity. Qed.
Lemma object_to_add_set_object_to_add v st : object_to_add (set_object_to_add v st) = v.
Proof. reflexivity. Qed.
Lemma object_to_add_set_draw_mode_active v st : object_to_add (set_draw_mode_active v st) = object_to_add st.
Proof. reflexivity. Qed.
Lemma object_to_add_set_original_state v st : object_to_add (set_original_state v st) = object_to_add st.
Proof. reflexivity. Qed.
Lemma object_to_add_set_resize_handle v st : object_to_add (set_resize_handle v st) = object_to_add st.
Proof. reflexivity. Qed.
Lemma object_to_add_set_toolbar_mode v st : object_to_add (set_toolbar_mode v st) = object_to_add st.
Proof. reflexivity. Qed.
Lemma object_to_add_set_xlim v st : object_to_add (set_xlim v st) = object_to_add st.
Proof. reflexivity. Qed.
Lemma object_to_add_set_ylim v st : object_to_add (set_ylim v st) = object_to_add st.
Proof. reflexivity. Qed.
Lemma object_to_add_set_total_sqft_label v st : object_to_add (set_total_sqft_label v st) = object_to_add st.
Proof. reflexivity. Qed.
Lemma object_to_add_set_cursor v st : object_to_add (set_cursor v st) = object_to_add st.
Proof. reflexivity. Qed.
Lemma object_to_add_set_copy_button v st : object_to_add (set_copy_button v st) = object_to_add st.
Proof. reflexivity. Qed.
Lemma object_to_add_set_paste_button v st : object_to_add (set_paste_button v st) = object_to_add st.
Proof. reflexivity. Qed.
Lemma draw_mode_active_set_heap v st : draw_mode_active (set_heap v st) = draw_mode_active st.
Proof. reflexivity. Qed.
Lemma draw_mode_active_set_house v st : draw_mode_active (set_house v st) = draw_mode_active st.
Proof. reflexivity. Qed.
Lemma draw_mode_active_set_furnishings v st : draw_mode_active (set_furnishings v st) = draw_mode_active st.
Proof. reflexivity. Qed.
Lemma draw_mode_active_set_selected_item v st : draw_mode_active (set_selected_item v st) = draw_mode_active st.
Proof. reflexivity. Qed.
Lemma draw_mode_active_set_history v st : draw_mode_active (set_history v st) = draw_mode_active st.
Proof. reflexivity. Qed.
Lemma draw_mode_active_set_redo_stack v st : draw_mode_active (set_redo_stack v st) = draw_mode_active st.
Proof. reflexivity. Qed.
Lemma draw_mode_active_set_clipboard v st : draw_mode_active (set_clipboard v st) = draw_mode_active st.
Proof. reflexivity. Qed.
Lemma draw_mode_active_set_current_action v st : draw_mode_active (set_current_action v st) = draw_mode_active st.
Proof. reflexivity. Qed.
Lemma draw_mode_active_set_action_start_xy v st : draw_mode_active (set_action_start_xy v st) = draw_mode_active st.
Proof. reflexivity. Qed.
Lemma draw_mode_active_set_ghost_rect v st : draw_mode_active (set_ghost_rect v st) = draw_mode_active st.
Proof. reflexivity. Qed.
Lemma draw_mode_active_set_object_to_add v st : draw_mode_active (set_object_to_add v st) = draw_mode_active st.
Proof. reflexivity. Qed.
Lemma draw_mode_active_set_draw_mode_active v st : draw_mode_active (set_draw_mode_active v st) = v.
Proof. reflexivity. Qed.
Lemma draw_mode_active_set_original_state v st : draw_mode_active (set_original_state v st) = draw_mode_active st.
Proof. reflexivity. Qed.
Lemma draw_mode_active_set_resize_handle v st : draw_mode_active (set_resize_handle v st) = draw_mode_active st.
Proof. reflexivity. Qed.
Lemma draw_mode_active_set_toolbar_mode v st : draw_mode_active (set_toolbar_mode v st) = draw_mode_active st.
Proof. reflexivity. Qed.
Lemma draw_mode_active_set_xlim v st : draw_mode_active (set_xlim v st) = draw_mode_active st.
Proof. reflexivity. Qed.
Lemma draw_mode_active_set_ylim v st : draw_mode_active (set_ylim v st) = draw_mode_active st.
Proof. reflexivity. Qed.
Lemma draw_mode_active_set_total_sqft_label v st : draw_mode_active (set_total_sqft_label v st) = draw_mode_active st.
Proof. reflexivity. Qed.
Lemma draw_mode_active_set_cursor v st : draw_mode_active (set_cursor v st) = draw_mode_active st.
Proof. reflexivity. Qed.
Lemma draw_mode_active_set_copy_button v st : draw_mode_active (set_copy_button v st) = draw_mode_active st.
Proof. reflexivity. Qed.
Lemma draw_mode_active_set_paste_button v st : draw_mode_active (set_paste_button v st) = draw_mode_active st.
Proof. reflexivity. Qed.
Lemma original_state_set_heap v st : original_state (set_heap v st) = original_state st.
Proof. reflexivity. Qed.
Lemma original_state_set_house v st : original_state (set_house v st) = original_state st.
Proof. reflexivity. Qed.
Lemma original_state_set_furnishings v st : original_state (set_furnishings v st) = original_state st.
Proof. reflexivity. Qed.
Lemma original_state_set_selected_item v st : original_state (set_selected_item v st) = original_state st.
Proof. reflexivity. Qed.
Lemma original_state_set_history v st : original_state (set_history v st) = original_state st.
Proof. reflexivity. Qed.
Lemma original_state_set_redo_stack v st : original_state (set_redo_stack v st) = original_state st.
Proof. reflexivity. Qed.
Lemma original_state_set_clipboard v st : original_state (set_clipboard v st) = original_state st.
Proof. reflexivity. Qed.
Lemma original_state_set_current_action v st : original_state (set_current_action v st) = original_state st.
Proof. reflexivity. Qed.
Lemma original_state_set_action_start_xy v st : original_state (set_action_start_xy v st) = original_state st.
Proof. reflexivity. Qed.
Lemma original_state_set_ghost_rect v st : original_state (set_ghost_rect v st) = original_state st.
Proof. reflexivity. Qed.
Lemma original_state_set_object_to_add v st : original_state (set_object_to_add v st) = original_state st.
Proof. reflexivity. Qed.
Lemma original_state_set_draw_mode_active v st : original_state (set_draw_mode_active v st) = original_state st.
Proof. reflexivity. Qed.
Lemma original_state_set_original_state v st : original_state (set_original_state v st) = v.
Proof. reflexivity. Qed.
Lemma original_state_set_resize_handle v st : original_state (set_resize_handle v st) = original_state st.
Proof. reflexivity. Qed.
Lemma original_state_set_toolbar_mode v st : original_state (set_toolbar_mode v st) = original_state st.
Proof. reflexivity. Qed.
Lemma original_state_set_xlim v st : original_state (set_xlim v st) = original_state st.
Proof. reflexivity. Qed.
Lemma original_state_set_ylim v st : original_state (set_ylim v st) = original_state st.
Proof. reflexivity. Qed.
Lemma original_state_set_total_sqft_label v st : original_state (set_total_sqft_label v st) = original_state st.
Proof. reflexivity. Qed.
Lemma original_state_set_cursor v st : original_state (set_cursor v st) = original_state st.
Proof. reflexivity. Qed.
Lemma original_state_set_copy_button v st : original_state (set_copy_button v st) = original_state st.
Proof. reflexivity. Qed.
Lemma original_state_set_paste_button v st : original_state (set_paste_button v st) = original_state st.
Proof. reflexivity. Qed.
Lemma resize_handle_set_heap v st : resize_handle (set_heap v st) = resize_handle st.
Proof. reflexivity. Qed.
Lemma resize_handle_set_house v st : resize_handle (set_house v st) = resize_handle st.
Proof. reflexivity. Qed.
Lemma resize_handle_set_furnishings v st : resize_handle (set_furnishings v st) = resize_handle st.
Proof. reflexivity. Qed.
Lemma resize_handle_set_selected_item v st : resize_handle (set_selected_item v st) = resize_handle st.
Proof. reflexivity. Qed.
Lemma resize_handle_set_history v st : resize_handle (set_history v st) = resize_handle st.
Proof. reflexivity. Qed.
Lemma resize_handle_set_redo_stack v st : resize_handle (set_redo_stack v st) = resize_handle st.
Proof. reflexivity. Qed.
Lemma resize_handle_set_clipboard v st : resize_handle (set_clipboard v st) = resize_handle st.
Proof. reflexivity. Qed.
Lemma resize_handle_set_current_action v st : resize_handle (set_current_action v st) = resize_handle st.
Proof. reflexivity. Qed.
Lemma resize_handle_set_action_start_xy v st : resize_handle (set_action_start_xy v st) = resize_handle st.
Proof. reflexivity. Qed.
Lemma resize_handle_set_ghost_rect v st : resize_handle (set_ghost_rect v st) = resize_handle st.
Proof. reflexivity. Qed.
Lemma resize_handle_set_object_to_add v st : resize_handle (set_object_to_add v st) = resize_handle st.
Proof. reflexivity. Qed.
Lemma resize_handle_set_draw_mode_active v st : resize_handle (set_draw_mode_active v st) = resize_handle st.
Proof. reflexivity. Qed.
Lemma resize_handle_set_original_state v st : resize_handle (set_original_state v st) = resize_handle st.
Proof. reflexivity. Qed.
Lemma resize_handle_set_resize_handle v st : resize_handle (set_resize_handle v st) = v.
Proof. reflexivity. Qed.
Lemma resize_handle_set_toolbar_mode v st : resize_handle (set_toolbar_mode v st) = resize_handle st.
Proof. reflexivity. Qed.
Lemma resize_handle_set_xlim v st : resize_handle (set_xlim v st) = resize_handle st.
Proof. reflexivity. Qed.
Lemma resize_handle_set_ylim v st : resize_handle (set_ylim v st) = resize_handle st.
Proof. reflexivity. Qed.
Lemma resize_handle_set_total_sqft_label v st : resize_handle (set_total_sqft_label v st) = resize_handle st.
Proof. reflexivity. Qed.
Lemma resize_handle_set_cursor v st : resize_handle (set_cursor v st) = resize_handle st.
Proof. reflexivity. Qed.
Lemma resize_handle_set_copy_button v st : resize_handle (set_copy_button v st) = resize_handle st.
Proof. reflexivity. Qed.
Lemma resize_handle_set_paste_button v st : resize_handle (set_paste_button v st) = resize_handle st.
Proof. reflexivity. Qed.
Lemma toolbar_mode_set_heap v st : toolbar_mode (set_heap v st) = toolbar_mode st.
Proof. reflexivity. Qed.
Lemma toolbar_mode_set_house v st : toolbar_mode (set_house v st) = toolbar_mode st.
Proof. reflexivity. Qed.
Lemma toolbar_mode_set_furnishings v st : toolbar_mode (set_furnishings v st) = toolbar_mode st.
Proof. reflexivity. Qed.
Lemma toolbar_mode_set_selected_item v st : toolbar_mode (set_selected_item v st) = toolbar_mode st.
Proof. reflexivity. Qed.
Lemma toolbar_mode_set_history v st : toolbar_mode (set_history v st) = toolbar_mode st.
Proof. reflexivity. Qed.
Lemma toolbar_mode_set_redo_stack v st : toolbar_mode (set_redo_stack v st) = toolbar_mode st.
Proof. reflexivity. Qed.
Lemma toolbar_mode_set_clipboard v st : toolbar_mode (set_clipboard v st) = toolbar_mode st.
Proof. reflexivity. Qed.
Lemma toolbar_mode_set_current_action v st : toolbar_mode (set_current_action v st) = toolbar_mode st.
Proof. reflexivity. Qed.
Lemma toolbar_mode_set_action_start_xy v st : toolbar_mode (set_action_start_xy v st) = toolbar_mode st.
Proof. reflexivity. Qed.
Lemma toolbar_mode_set_ghost_rect v st : toolbar_mode (set_ghost_rect v st) = toolbar_mode st.
Proof. reflexivity. Qed.
Lemma toolbar_mode_set_object_to_add v st : toolbar_mode (set_object_to_add v st) = toolbar_mode st.
Proof. reflexivity. Qed.
Lemma toolbar_mode_set_draw_mode_active v st : toolbar_mode (set_draw_mode_active v st) = toolbar_mode st.
Proof. reflexivity. Qed.
Lemma toolbar_mode_set_original_state v st : toolbar_mode (set_original_state v st) = toolbar_mode st.
Proof. reflexivity. Qed.
Lemma toolbar_mode_set_resize_handle v st : toolbar_mode (set_resize_handle v st) = toolbar_mode st.
Proof. reflexivity. Qed.
Lemma toolbar_mode_set_toolbar_mode v st : toolbar_mode (set_toolbar_mode v st) = v.
Proof. reflexivity. Qed.
Lemma toolbar_mode_set_xlim v st : toolbar_mode (set_xlim v st) = toolbar_mode st.
Proof. reflexivity. Qed.
Lemma toolbar_mode_set_ylim v st : toolbar_mode (set_ylim v st) = toolbar_mode st.
Proof. reflexivity. Qed.
Lemma toolbar_mode_set_total_sqft_label v st : toolbar_mode (set_total_sqft_label v st) = toolbar_mode st.
Proof. reflexivity. Qed.
Lemma toolbar_mode_set_cursor v st : toolbar_mode (set_cursor v st) = toolbar_mode st.
Proof. reflexivity. Qed.
Lemma toolbar_mode_set_copy_button v st : toolbar_mode (set_copy_button v st) = toolbar_mode st.
Proof. reflexivity. Qed.
Lemma toolbar_mode_set_paste_button v st : toolbar_mode (set_paste_button v st) = toolbar_mode st.
Proof. reflexivity. Qed.
Lemma xlim_set_heap v st : xlim (set_heap v st) = xlim st.
Proof. reflexivity. Qed.
Lemma xlim_set_house v st : xlim (set_house v st) = xlim st.
Proof. reflexivity. Qed.
Lemma xlim_set_furnishings v st : xlim (set_furnishings v st) = xlim st.
Proof. reflexivity. Qed.
Lemma xlim_set_selected_item v st : xlim (set_selected_item v st) = xlim st.
Proof. reflexivity. Qed.
Lemma xlim_set_history v st : xlim (set_history v st) = xlim st.
Proof. reflexivity. Qed.
Lemma xlim_set_redo_stack v st : xlim (set_redo_stack v st) = xlim st.
Proof. reflexivity. Qed.
Lemma xlim_set_clipboard v st : xlim (set_clipboard v st) = xlim st.
Proof. reflexivity. Qed.
Lemma xlim_set_current_action v st : xlim (set_current_action v st) = xlim st.
Proof. reflexivity. Qed.
Lemma xlim_set_action_start_xy v st : xlim (set_action_start_xy v st) = xlim st.
Proof. reflexivity. Qed.
Lemma xlim_set_ghost_rect v st : xlim (set_ghost_rect v st) = xlim st.
Proof. reflexivity. Qed.
Lemma xlim_set_object_to_add v st : xlim (set_object_to_add v st) = xlim st.
Proof. reflexivity. Qed.
Lemma xlim_set_draw_mode_active v st : xlim (set_draw_mode_active v st) = xlim st.
Proof. reflexivity. Qed.
Lemma xlim_set_original_state v st : xlim (set_original_state v st) = xlim st.
Proof. reflexivity. Qed.
Lemma xlim_set_resize_handle v st : xlim (set_resize_handle v st) = xlim st.
Proof. reflexivity. Qed.
Lemma xlim_set_toolbar_mode v st : xlim (set_toolbar_mode v st) = xlim st.
Proof. reflexivity. Qed.
Lemma xlim_set_xlim v st : xlim (set_xlim v st) = v.
Proof. reflexivity. Qed.
Lemma xlim_set_ylim v st : xlim (set_ylim v st) = xlim st.
Proof. reflexivity. Qed.
Lemma xlim_set_total_sqft_label v st : xlim (set_total_sqft_label v st) = xlim st.
Proof. reflexivity. Qed.
Lemma xlim_set_cursor v st : xlim (set_cursor v st) = xlim st.
Proof. reflexivity. Qed.
Lemma xlim_set_copy_button v st : xlim (set_copy_button v st) = xlim st.
Proof. reflexivity. Qed.
Lemma xlim_set_paste_button v st : xlim (set_paste_button v st) = xlim st.
Proof. reflexivity. Qed.
Lemma ylim_set_heap v st : ylim (set_heap v st) = ylim st.
Proof. reflexivity. Qed.
Lemma ylim_set_house v st : ylim (set_house v st) = ylim st.
Proof. reflexivity. Qed.
Lemma ylim_set_furnishings v st : ylim (set_furnishings v st) = ylim st.
Proof. reflexivity. Qed.
Lemma ylim_set_selected_item v st : ylim (set_selected_item v st) = ylim st.
Proof. reflexivity. Qed.
Lemma ylim_set_history v st : ylim (set_history v st) = ylim st.
Proof. reflexivity. Qed.
Lemma ylim_set_redo_stack v st : ylim (set_redo_stack v st) = ylim st.
Proof. reflexivity. Qed.
Lemma ylim_set_clipboard v st : ylim (set_clipboard v st) = ylim st.
Proof. reflexivity. Qed.
Lemma ylim_set_current_action v st : ylim (set_current_action v st) = ylim st.
Proof. reflexivity. Qed.
Lemma ylim_set_action_start_xy v st : ylim (set_action_start_xy v st) = ylim st.
Proof. reflexivity. Qed.
Lemma ylim_set_ghost_rect v st : ylim (set_ghost_rect v st) = ylim st.
Proof. reflexivity. Qed.
Lemma ylim_set_object_to_add v st : ylim (set_object_to_add v st) = ylim st.
Proof. reflexivity. Qed.
Lemma ylim_set_draw_mode_active v st : ylim (set_draw_mode_active v st) = ylim st.
Proof. reflexivity. Qed.
Lemma ylim_set_original_state v st : ylim (set_original_state v st) = ylim st.
Proof. reflexivity. Qed.
Lemma ylim_set_resize_handle v st : ylim (set_resize_handle v st) = ylim st.
Proof. reflexivity. Qed.
Lemma ylim_set_toolbar_mode v st : ylim (set_toolbar_mode v st) = ylim st.
Proof. reflexivity. Qed.
Lemma ylim_set_xlim v st : ylim (set_xlim v st) = ylim st.
Proof. reflexivity. Qed.
Lemma ylim_set_ylim v st : ylim (set_ylim v st) = v.
Proof. reflexivity. Qed.
Lemma ylim_set_total_sqft_label v st : ylim (set_total_sqft_label v st) = ylim st.
Proof. reflexivity. Qed.
Lemma ylim_set_cursor v st : ylim (set_cursor v st) = ylim st.
Proof. reflexivity. Qed.
Lemma ylim_set_copy_button v st : ylim (set_copy_button v st) = ylim st.
Proof. reflexivity. Qed.
Lemma ylim_set_paste_button v st : ylim (set_paste_button v st) = ylim st.
Proof. reflexivity. Qed.
Lemma total_sqft_label_set_heap v st : total_sqft_label (set_heap v st) = total_sqft_label st.
Proof. reflexivity. Qed.
Lemma total_sqft_label_set_house v st : total_sqft_label (set_house v st) = total_sqft_label st.
Proof. reflexivity. Qed.
Lemma total_sqft_label_set_furnishings v st : total_sqft_label (set_furnishings v st) = total_sqft_label st.
Proof. reflexivity. Qed.
Lemma total_sqft_label_set_selected_item v st : total_sqft_label (set_selected_item v st) = total_sqft_label st.
Proof. reflexivity. Qed.
Lemma total_sqft_label_set_history v st : total_sqft_label (set_history v st) = total_sqft_label st.
Proof. reflexivity. Qed.
Lemma total_sqft_label_set_redo_stack v st : total_sqft_label (set_redo_stack v st) = total_sqft_label st.
Proof. reflexivity. Qed.
Lemma total_sqft_label_set_clipboard v st : total_sqft_label (set_clipboard v st) = total_sqft_label st.
Proof. reflexivity. Qed.
Lemma total_sqft_label_set_current_action v st : total_sqft_label (set_current_action v st) = total_sqft_label st.
Proof. reflexivity. Qed.
Lemma total_sqft_label_set_action_start_xy v st : total_sqft_label (set_action_start_xy v st) = total_sqft_label st.
Proof. reflexivity. Qed.
Lemma total_sqft_label_set_ghost_rect v st : total_sqft_label (set_ghost_rect v st) = total_sqft_label st.
Proof. reflexivity. Qed.
Lemma total_sqft_label_set_object_to_add v st : total_sqft_label (set_object_to_add v st) = total_sqft_label st.
Proof. reflexivity. Qed.
Lemma total_sqft_label_set_draw_mode_active v st : total_sqft_label (set_draw_mode_active v st) = total_sqft_label st.
Proof. reflexivity. Qed.
Lemma total_sqft_label_set_original_state v st : total_sqft_label (set_original_state v st) = total_sqft_label st.
Proof. reflexivity. Qed.
Lemma total_sqft_label_set_resize_handle v st : total_sqft_label (set_resize_handle v st) = total_sqft_label st.
Proof. reflexivity. Qed.
Lemma total_sqft_label_set_toolbar_mode v st : total_sqft_label (set_toolbar_mode v st) = total_sqft_label st.
Proof. reflexivity. Qed.
Lemma total_sqft_label_set_xlim v st : total_sqft_label (set_xlim v st) = total_sqft_label st.
Proof. reflexivity. Qed.
Lemma total_sqft_label_set_ylim v st : total_sqft_label (set_ylim v st) = total_sqft_label st.
Proof. reflexivity. Qed.
Lemma total_sqft_label_set_total_sqft_label v st : total_sqft_label (set_total_sqft_label v st) = v.
Proof. reflexivity. Qed.
Lemma total_sqft_label_set_cursor v st : total_sqft_label (set_cursor v st) = total_sqft_label st.
Proof. reflexivity. Qed.
Lemma total_sqft_label_set_copy_button v st : total_sqft_label (set_copy_button v st) = total_sqft_label st.
Proof. reflexivity. Qed.
Lemma total_sqft_label_set_paste_button v st : total_sqft_label (set_paste_button v st) = total_sqft_label st.
Proof. reflexivity. Qed.
Lemma cursor_set_heap v st : cursor (set_heap v st) = cursor st.
Proof. reflexivity. Qed.
Lemma cursor_set_house v st : cursor (set_house v st) = cursor st.
Proof. reflexivity. Qed.
Lemma cursor_set_furnishings v st : cursor (set_furnishings v st) = cursor st.
Proof. reflexivity. Qed.
Lemma cursor_set_selected_item v st : cursor (set_selected_item v st) = cursor st.
Proof. reflexivity. Qed.
Lemma cursor_set_history v st : cursor (set_history v st) = cursor st.
Proof. reflexivity. Qed.
Lemma cursor_set_redo_stack v st : cursor (set_redo_stack v st) = cursor st.
Proof. reflexivity. Qed.
Lemma cursor_set_clipboard v st : cursor (set_clipboard v st) = cursor st.
Proof. reflexivity. Qed.
Lemma cursor_set_current_action v st : cursor (set_current_action v st) = cursor st.
Proof. reflexivity. Qed.
Lemma cursor_set_action_start_xy v st : cursor (set_action_start_xy v st) = cursor st.
Proof. reflexivity. Qed.
Lemma cursor_set_ghost_rect v st : cursor (set_ghost_rect v st) = cursor st.
Proof. reflexivity. Qed.
Lemma cursor_set_object_to_add v st : cursor (set_object_to_add v st) = cursor st.
Proof. reflexivity. Qed.
Lemma cursor_set_draw_mode_active v st : cursor (set_draw_mode_active v st) = cursor st.
Proof. reflexivity. Qed.
Lemma cursor_set_original_state v st : cursor (set_original_state v st) = cursor st.
Proof. reflexivity. Qed.
Lemma cursor_set_resize_handle v st : cursor (set_resize_handle v st) = cursor st.
Proof. reflexivity. Qed.
Lemma cursor_set_toolbar_mode v st : cursor (set_toolbar_mode v st) = cursor st.
Proof. reflexivity. Qed.
Lemma cursor_set_xlim v st : cursor (set_xlim v st) = cursor st.
Proof. reflexivity. Qed.
Lemma cursor_set_ylim v st : cursor (set_ylim v st) = cursor st.
Proof. reflexivity. Qed.
Lemma cursor_set_total_sqft_label v st : cursor (set_total_sqft_label v st) = cursor st.
Proof. reflexivity. Qed.
Lemma cursor_set_cursor v st : cursor (set_cursor v st) = v.
Proof. reflexivity. Qed.
Lemma cursor_set_copy_button v st : cursor (set_copy_button v st) = cursor st.
Proof. reflexivity. Qed.
Lemma cursor_set_paste_button v st : cursor (set_paste_button v st) = cursor st.
Proof. reflexivity. Qed.
Lemma copy_button_set_heap v st : copy_button (set_heap v st) = copy_button st.
Proof. reflexivity. Qed.
Lemma copy_button_set_house v st : copy_button (set_house v st) = copy_button st.
Proof. reflexivity. Qed.
Lemma copy_button_set_furnishings v st : copy_button (set_furnishings v st) = copy_button st.
Proof. reflexivity. Qed.
Lemma copy_button_set_selected_item v st : copy_button (set_selected_item v st) = copy_button st.
Proof. reflexivity. Qed.
Lemma copy_button_set_history v st : copy_button (set_history v st) = copy_button st.
Proof. reflexivity. Qed.
Lemma copy_button_set_redo_stack v st : copy_button (set_redo_stack v st) = copy_button st.
Proof. reflexivity. Qed.
Lemma copy_button_set_clipboard v st : copy_button (set_clipboard v st) = copy_button st.
Proof. reflexivity. Qed.
Lemma copy_button_set_current_action v st : copy_button (set_current_action v st) = copy_button st.
Proof. reflexivity. Qed.
Lemma copy_button_set_action_start_xy v st : copy_button (set_action_start_xy v st) = copy_button st.
Proof. reflexivity. Qed.
Lemma copy_button_set_ghost_rect v st : copy_button (set_ghost_rect v st) = copy_button st.
Proof. reflexivity. Qed.
Lemma copy_button_set_object_to_add v st : copy_button (set_object_to_add v st) = copy_button st.
Proof. reflexivity. Qed.
Lemma copy_button_set_draw_mode_active v st : copy_button (set_draw_mode_active v st) = copy_button st.
Proof. reflexivity. Qed.
Lemma copy_button_set_original_state v st : copy_button (set_original_state v st) = copy_button st.
Proof. reflexivity. Qed.
Lemma copy_button_set_resize_handle v st : copy_button (set_resize_handle v st) = copy_button st.
Proof. reflexivity. Qed.
Lemma copy_button_set_toolbar_mode v st : copy_button (set_toolbar_mode v st) = copy_button st.
Proof. reflexivity. Qed.
Lemma copy_button_set_xlim v st : copy_button (set_xlim v st) = copy_button st.
Proof. reflexivity. Qed.
Lemma copy_button_set_ylim v st : copy_button (set_ylim v st) = copy_button st.
Proof. reflexivity. Qed.
Lemma copy_button_set_total_sqft_label v st : copy_button (set_total_sqft_label v st) = copy_button st.
Proof. reflexivity. Qed.
Lemma copy_button_set_cursor v st : copy_button (set_cursor v st) = copy_button st.
Proof. reflexivity. Qed.
Lemma copy_button_set_copy_button v st : copy_button (set_copy_button v st) = v.
Proof. reflexivity. Qed.
Lemma copy_button_set_paste_button v st : copy_button (set_paste_button v st) = copy_button st.
Proof. reflexivity. Qed.
Lemma paste_button_set_heap v st : paste_button (set_heap v st) = paste_button st.
Proof. reflexivity. Qed.
Lemma paste_button_set_house v st : paste_button (set_house v st) = paste_button st.
Proof. reflexivity. Qed.
Lemma paste_button_set_furnishings v st : paste_button (set_furnishings v st) = paste_button st.
Proof. reflexivity. Qed.
Lemma paste_button_set_selected_item v st : paste_button (set_selected_item v st) = paste_button st.
Proof. reflexivity. Qed.
Lemma paste_button_set_history v st : paste_button (set_history v st) = paste_button st.
Proof. reflexivity. Qed.
Lemma paste_button_set_redo_stack v st : paste_button (set_redo_stack v st) = paste_button st.
Proof. reflexivity. Qed.
Lemma paste_button_set_clipboard v st : paste_button (set_clipboard v st) = paste_button st.
Proof. reflexivity. Qed.
Lemma paste_button_set_current_action v st : paste_button (set_current_action v st) = paste_button st.
Proof. reflexivity. Qed.
Lemma paste_button_set_action_start_xy v st : paste_button (set_action_start_xy v st) = paste_button st.
Proof. reflexivity. Qed.
Lemma paste_button_set_ghost_rect v st : paste_button (set_ghost_rect v st) = paste_button st.
Proof. reflexivity. Qed.
Lemma paste_button_set_object_to_add v st : paste_button (set_object_to_add v st) = paste_button st.
Proof. reflexivity. Qed.
Lemma paste_button_set_draw_mode_active v st : paste_button (set_draw_mode_active v st) = paste_button st.
Proof. reflexivity. Qed.
Lemma paste_button_set_original_state v st : paste_button (set_original_state v st) = paste_button st.
Proof. reflexivity. Qed.
Lemma paste_button_set_resize_handle v st : paste_button (set_resize_handle v st) = paste_button st.
Proof. reflexivity. Qed.
Lemma paste_button_set_toolbar_mode v st : paste_button (set_toolbar_mode v st) = paste_button st.
Proof. reflexivity. Qed.
Lemma paste_button_set_xlim v st : paste_button (set_xlim v st) = paste_button st.
Proof. reflexivity. Qed.
Lemma paste_button_set_ylim v st : paste_button (set_ylim v st) = paste_button st.
Proof. reflexivity. Qed.
Lemma paste_button_set_total_sqft_label v st : paste_button (set_total_sqft_label v st) = paste_button st.
Proof. reflexivity. Qed.
Lemma paste_button_set_cursor v st : paste_button (set_cursor v st) = paste_button st.
Proof. reflexivity. Qed.
Lemma paste_button_set_copy_button v st : paste_button (set_copy_button v st) = paste_button st.
Proof. reflexivity. Qed.
Lemma paste_button_set_paste_button v st : paste_button (set_paste_button v st) = v.
Proof. reflexivity. Qed.

Lemma draw_blueprint_unfold st :
  exists xl yl,
    draw_blueprint st =
    set_ylim yl (set_xlim xl
      (set_total_sqft_label (area_text (total_sqft st)) st)).
Proof.
  unfold draw_blueprint.
  destruct (map _ _) as [|i0 items] eqn:Hit; simpl.
  - destruct (_ && _); eauto.
  - destruct (_ && _); eauto.
Qed.

Lemma heap_draw_blueprint st : heap (draw_blueprint st) = heap st.
Proof. destruct (draw_blueprint_unfold st) as (xl & yl & ->); reflexivity. Qed.
Lemma house_draw_blueprint st : house (draw_blueprint st) = house st.
Proof. destruct (draw_blueprint_unfold st) as (xl & yl & ->); reflexivity. Qed.
Lemma furnishings_draw_blueprint st : furnishings (draw_blueprint st) = furnishings st.
Proof. destruct (draw_blueprint_unfold st) as (xl & yl & ->); reflexivity. Qed.
Lemma selected_item_draw_blueprint st : selected_item (draw_blueprint st) = selected_item st.
Proof. destruct (draw_blueprint_unfold st) as (xl & yl & ->); reflexivity. Qed.
Lemma history_draw_blueprint st : history (draw_blueprint st) = history st.
Proof. destruct (draw_blueprint_unfold st) as (xl & yl & ->); reflexivity. Qed.
Lemma redo_stack_draw_blueprint st : redo_stack (draw_blueprint st) = redo_stack st.
Proof. destruct (draw_blueprint_unfold st) as (xl & yl & ->); reflexivity. Qed.
Lemma clipboard_draw_blueprint st : clipboard (draw_blueprint st) = clipboard st.
Proof. destruct (draw_blueprint_unfold st) as (xl & yl & ->); reflexivity. Qed.
Lemma current_action_draw_blueprint st : current_action (draw_blueprint st) = current_action st.
Proof. destruct (draw_blueprint_unfold st) as (xl & yl & ->); reflexivity. Qed.
Lemma action_start_xy_draw_blueprint st : action_start_xy (draw_blueprint st) = action_start_xy st.
Proof. destruct (draw_blueprint_unfold st) as (xl & yl & ->); reflexivity. Qed.
Lemma ghost_rect_draw_blueprint st : ghost_rect (draw_blueprint st) = ghost_rect st.
Proof. destruct (draw_blueprint_unfold st) as (xl & yl & ->); reflexivity. Qed.
Lemma object_to_add_draw_blueprint st : object_to_add (draw_blueprint st) = object_to_add st.
Proof. destruct (draw_blueprint_unfold st) as (xl & yl & ->); reflexivity. Qed.
Lemma draw_mode_active_draw_blueprint st : draw_mode_active (draw_blueprint st) = draw_mode_active st.
Proof. destruct (draw_blueprint_unfold st) as (xl & yl & ->); reflexivity. Qed.
Lemma original_state_draw_blueprint st : original_state (draw_blueprint st) = original_state st.
Proof. destruct (draw_blueprint_unfold st) as (xl & yl & ->); reflexivity. Qed.
Lemma resize_handle_draw_blueprint st : resize_handle (draw_blueprint st) = resize_handle st.
Proof. destruct (draw_blueprint_unfold st) as (xl & yl & ->); reflexivity. Qed.
Lemma toolbar_mode_draw_blueprint st : toolbar_mode (draw_blueprint st) = toolbar_mode st.
Proof. destruct (draw_blueprint_unfold st) as (xl & yl & ->); reflexivity. Qed.
Lemma heap_update_buttons st : heap (update_buttons st) = heap st.
Proof. reflexivity. Qed.
Lemma house_update_buttons st : house (update_buttons st) = house st.
Proof. reflexivity. Qed.
Lemma furnishings_update_buttons st : furnishings (update_buttons st) = furnishings st.
Proof. reflexivity. Qed.
Lemma selected_item_update_buttons st : selected_item (update_buttons st) = selected_item st.
Proof. reflexivity. Qed.
Lemma history_update_buttons st : history (update_buttons st) = history st.
Proof. reflexivity. Qed.
Lemma redo_stack_update_buttons st : redo_stack (update_buttons st) = redo_stack st.
Proof. reflexivity. Qed.
Lemma clipboard_update_buttons st : clipboard (update_buttons st) = clipboard st.
Proof. reflexivity. Qed.
Lemma current_action_update_buttons st : current_action (update_buttons st) = current_action st.
Proof. reflexivity. Qed.
Lemma action_start_xy_update_buttons st : action_start_xy (update_buttons st) = action_start_xy st.
Proof. reflexivity. Qed.
Lemma ghost_rect_update_buttons st : ghost_rect (update_buttons st) = ghost_rect st.
Proof. reflexivity. Qed.
Lemma object_to_add_update_buttons st : object_to_add (update_buttons st) = object_to_add st.
Proof. reflexivity. Qed.
Lemma draw_mode_active_update_buttons st : draw_mode_active (update_buttons st) = draw_mode_active st.
Proof. reflexivity. Qed.
Lemma original_state_update_buttons st : original_state (update_buttons st) = original_state st.
Proof. reflexivity. Qed.
Lemma resize_handle_update_buttons st : resize_handle (update_buttons st) = resize_handle st.
Proof. reflexivity. Qed.
Lemma toolbar_mode_update_buttons st : toolbar_mode (update_buttons st) = toolbar_mode st.
Proof. reflexivity. Qed.
Lemma heap_select_item item st : heap (select_item item st) = heap st.
Proof. unfold select_item; case_decide; [reflexivity|]. now rewrite heap_draw_blueprint. Qed.
Lemma house_select_item item st : house (select_item item st) = house st.
Proof. unfold select_item; case_decide; [reflexivity|]. now rewrite house_draw_blueprint. Qed.
Lemma furnishings_select_item item st : furnishings (select_item item st) = furnishings st.
Proof. unfold select_item; case_decide; [reflexivity|]. now rewrite furnishings_draw_blueprint. Qed.
Lemma history_select_item item st : history (select_item item st) = history st.
Proof. unfold select_item; case_decide; [reflexivity|]. now rewrite history_draw_blueprint. Qed.
Lemma redo_stack_select_item item st : redo_stack (select_item item st) = redo_stack st.
Proof. unfold select_item; case_decide; [reflexivity|]. now rewrite redo_stack_draw_blueprint. Qed.
Lemma clipboard_select_item item st : clipboard (select_item item st) = clipboard st.
Proof. unfold select_item; case_decide; [reflexivity|]. now rewrite clipboard_draw_blueprint. Qed.
Lemma current_action_select_item item st : current_action (select_item item st) = current_action st.
Proof. unfold select_item; case_decide; [reflexivity|]. now rewrite current_action_draw_blueprint. Qed.
Lemma action_start_xy_select_item item st : action_start_xy (select_item item st) = action_start_xy st.
Proof. unfold select_item; case_decide; [reflexivity|]. now rewrite action_start_xy_draw_blueprint. Qed.
Lemma ghost_rect_select_item item st : ghost_rect (select_item item st) = ghost_rect st.
Proof. unfold select_item; case_decide; [reflexivity|]. now rewrite ghost_rect_draw_blueprint. Qed.
Lemma object_to_add_select_item item st : object_to_add (select_item item st) = object_to_add st.
Proof. unfold select_item; case_decide; [reflexivity|]. now rewrite object_to_add_draw_blueprint. Qed.
Lemma draw_mode_active_select_item item st : draw_mode_active (select_item item st) = draw_mode_active st.
Proof. unfold select_item; case_decide; [reflexivity|]. now rewrite draw_mode_active_draw_blueprint. Qed.
Lemma original_state_select_item item st : original_state (select_item item st) = original_state st.
Proof. unfold select_item; case_decide; [reflexivity|]. now rewrite original_state_draw_blueprint. Qed.
Lemma resize_handle_select_item item st : resize_handle (select_item item st) = resize_handle st.
Proof. unfold select_item; case_decide; [reflexivity|]. now rewrite resize_handle_draw_blueprint. Qed.
Lemma toolbar_mode_select_item item st : toolbar_mode (select_item item st) = toolbar_mode st.
Proof. unfold select_item; case_decide; [reflexivity|]. now rewrite toolbar_mode_draw_blueprint. Qed.
Lemma heap_log_action e st : heap (log_action e st) = heap st.
Proof. reflexivity. Qed.
Lemma house_log_action e st : house (log_action e st) = house st.
Proof. reflexivity. Qed.
Lemma furnishings_log_action e st : furnishings (log_action e st) = furnishings st.
Proof. reflexivity. Qed.
Lemma selected_item_log_action e st : selected_item (log_action e st) = selected_item st.
Proof. reflexivity. Qed.
Lemma clipboard_log_action e st : clipboard (log_action e st) = clipboard st.
Proof. reflexivity. Qed.
Lemma current_action_log_action e st : current_action (log_action e st) = current_action st.
Proof. reflexivity. Qed.
Lemma action_start_xy_log_action e st : action_start_xy (log_action e st) = action_start_xy st.
Proof. reflexivity. Qed.
Lemma ghost_rect_log_action e st : ghost_rect (log_action e st) = ghost_rect st.
Proof. reflexivity. Qed.
Lemma object_to_add_log_action e st : object_to_add (log_action e st) = object_to_add st.
Proof. reflexivity. Qed.
Lemma draw_mode_active_log_action e st : draw_mode_active (log_action e st) = draw_mode_active st.
Proof. reflexivity. Qed.
Lemma original_state_log_action e st : original_state (log_action e st) = original_state st.
Proof. reflexivity. Qed.
Lemma resize_handle_log_action e st : resize_handle (log_action e st) = resize_handle st.
Proof. reflexivity. Qed.
Lemma toolbar_mode_log_action e st : toolbar_mode (log_action e st) = toolbar_mode st.
Proof. reflexivity. Qed.
Lemma heap_cancel_action c st : heap (cancel_action c st) = heap st.
Proof. unfold cancel_action. rewrite heap_draw_blueprint. destruct (ghost_rect st), c; reflexivity. Qed.
Lemma house_cancel_action c st : house (cancel_action c st) = house st.
Proof. unfold cancel_action. rewrite house_draw_blueprint. destruct (ghost_rect st), c; reflexivity. Qed.
Lemma furnishings_cancel_action c st : furnishings (cancel_action c st) = furnishings st.
Proof. unfold cancel_action. rewrite furnishings_draw_blueprint. destruct (ghost_rect st), c; reflexivity. Qed.
Lemma selected_item_cancel_action c st : selected_item (cancel_action c st) = selected_item st.
Proof. unfold cancel_action. rewrite selected_item_draw_blueprint. destruct (ghost_rect st), c; reflexivity. Qed.
Lemma history_cancel_action c st : history (cancel_action c st) = history st.
Proof. unfold cancel_action. rewrite history_draw_blueprint. destruct (ghost_rect st), c; reflexivity. Qed.
Lemma redo_stack_cancel_action c st : redo_stack (cancel_action c st) = redo_stack st.
Proof. unfold cancel_action. rewrite redo_stack_draw_blueprint. destruct (ghost_rect st), c; reflexivity. Qed.
Lemma clipboard_cancel_action c st : clipboard (cancel_action c st) = clipboard st.
Proof. unfold cancel_action. rewrite clipboard_draw_blueprint. destruct (ghost_rect st), c; reflexivity. Qed.
Lemma action_start_xy_cancel_action c st : action_start_xy (cancel_action c st) = action_start_xy st.
Proof. unfold cancel_action. rewrite action_start_xy_draw_blueprint. destruct (ghost_rect st), c; reflexivity. Qed.
Lemma original_state_cancel_action c st : original_state (cancel_action c st) = original_state st.
Proof. unfold cancel_action. rewrite original_state_draw_blueprint. destruct (ghost_rect st), c; reflexivity. Qed.
Lemma resize_handle_cancel_action c st : resize_handle (cancel_action c st) = resize_handle st.
Proof. unfold cancel_action. rewrite resize_handle_draw_blueprint. destruct (ghost_rect st), c; reflexivity. Qed.
Lemma toolbar_mode_cancel_action c st : toolbar_mode (cancel_action c st) = toolbar_mode st.
Proof. unfold cancel_action. rewrite toolbar_mode_draw_blueprint. destruct (ghost_rect st), c; reflexivity. Qed.
Lemma house_store sh st : house (store sh st) = house st.
Proof. reflexivity. Qed.
Lemma house_set_obj_state i s st : house (set_obj_state i s st) = house st.
Proof. reflexivity. Qed.
Lemma furnishings_store sh st : furnishings (store sh st) = furnishings st.
Proof. reflexivity. Qed.
Lemma furnishings_set_obj_state i s st : furnishings (set_obj_state i s st) = furnishings st.
Proof. reflexivity. Qed.
Lemma selected_item_store sh st : selected_item (store sh st) = selected_item st.
Proof. reflexivity. Qed.
Lemma selected_item_set_obj_state i s st : selected_item (set_obj_state i s st) = selected_item st.
Proof. reflexivity. Qed.
Lemma history_store sh st : history (store sh st) = history st.
Proof. reflexivity. Qed.
Lemma history_set_obj_state i s st : history (set_obj_state i s st) = history st.
Proof. reflexivity. Qed.
Lemma redo_stack_store sh st : redo_stack (store sh st) = redo_stack st.
Proof. reflexivity. Qed.
Lemma redo_stack_set_obj_state i s st : redo_stack (set_obj_state i s st) = redo_stack st.
Proof. reflexivity. Qed.
Lemma clipboard_store sh st : clipboard (store sh st) = clipboard st.
Proof. reflexivity. Qed.
Lemma clipboard_set_obj_state i s st : clipboard (set_obj_state i s st) = clipboard st.
Proof. reflexivity. Qed.
Lemma current_action_store sh st : current_action (store sh st) = current_action st.
Proof. reflexivity. Qed.
Lemma current_action_set_obj_state i s st : current_action (set_obj_state i s st) = current_action st.
Proof. reflexivity. Qed.
Lemma action_start_xy_store sh st : action_start_xy (store sh st) = action_start_xy st.
Proof. reflexivity. Qed.
Lemma action_start_xy_set_obj_state i s st : action_start_xy (set_obj_state i s st) = action_start_xy st.
Proof. reflexivity. Qed.
Lemma ghost_rect_store sh st : ghost_rect (store sh st) = ghost_rect st.
Proof. reflexivity. Qed.
Lemma ghost_rect_set_obj_state i s st : ghost_rect (set_obj_state i s st) = ghost_rect st.
Proof. reflexivity. Qed.
Lemma object_to_add_store sh st : object_to_add (store sh st) = object_to_add st.
Proof. reflexivity. Qed.
Lemma object_to_add_set_obj_state i s st : object_to_add (set_obj_state i s st) = object_to_add st.
Proof. reflexivity. Qed.
Lemma draw_mode_active_store sh st : draw_mode_active (store sh st) = draw_mode_active st.
Proof. reflexivity. Qed.
Lemma draw_mode_active_set_obj_state i s st : draw_mode_active (set_obj_state i s st) = draw_mode_active st.
Proof. reflexivity. Qed.
Lemma original_state_store sh st : original_state (store sh st) = original_state st.
Proof. reflexivity. Qed.
Lemma original_state_set_obj_state i s st : original_state (set_obj_state i s st) = original_state st.
Proof. reflexivity. Qed.
Lemma resize_handle_store sh st : resize_handle (store sh st) = resize_handle st.
Proof. reflexivity. Qed.
Lemma resize_handle_set_obj_state i s st : resize_handle (set_obj_state i s st) = resize_handle st.
Proof. reflexivity. Qed.
Lemma toolbar_mode_store sh st : toolbar_mode (store sh st) = toolbar_mode st.
Proof. reflexivity. Qed.
Lemma toolbar_mode_set_obj_state i s st : toolbar_mode (set_obj_state i s st) = toolbar_mode st.
Proof. reflexivity. Qed.
Lemma heap_house_append i st : heap (house_append i st) = heap st.
Proof. reflexivity. Qed.
Lemma heap_furnishings_append i st : heap (furnishings_append i st) = heap st.
Proof. reflexivity. Qed.
Lemma house_furnishings_append i st : house (furnishings_append i st) = house st.
Proof. reflexivity. Qed.
Lemma furnishings_house_append i st : furnishings (house_append i st) = furnishings st.
Proof. reflexivity. Qed.
Lemma selected_item_house_append i st : selected_item (house_append i st) = selected_item st.
Proof. reflexivity. Qed.
Lemma selected_item_furnishings_append i st : selected_item (furnishings_append i st) = selected_item st.
Proof. reflexivity. Qed.
Lemma history_house_append i st : history (house_append i st) = history st.
Proof. reflexivity. Qed.
Lemma history_furnishings_append i st : history (furnishings_append i st) = history st.
Proof. reflexivity. Qed.
Lemma redo_stack_house_append i st : redo_stack (house_append i st) = redo_stack st.
Proof. reflexivity. Qed.
Lemma redo_stack_furnishings_append i st : redo_stack (furnishings_append i st) = redo_stack st.
Proof. reflexivity. Qed.
Lemma clipboard_house_append i st : clipboard (house_append i st) = clipboard st.
Proof. reflexivity. Qed.
Lemma clipboard_furnishings_append i st : clipboard (furnishings_append i st) = clipboard st.
Proof. reflexivity. Qed.
Lemma current_action_house_append i st : current_action (house_append i st) = current_action st.
Proof. reflexivity. Qed.
Lemma current_action_furnishings_append i st : current_action (furnishings_append i st) = current_action st.
Proof. reflexivity. Qed.
Lemma action_start_xy_house_append i st : action_start_xy (house_append i st) = action_start_xy st.
Proof. reflexivity. Qed.
Lemma action_start_xy_furnishings_append i st : action_start_xy (furnishings_append i st) = action_start_xy st.
Proof. reflexivity. Qed.
Lemma ghost_rect_house_append i st : ghost_rect (house_append i st) = ghost_rect st.
Proof. reflexivity. Qed.
Lemma ghost_rect_furnishings_append i st : ghost_rect (furnishings_append i st) = ghost_rect st.
Proof. reflexivity. Qed.
Lemma object_to_add_house_append i st : object_to_add (house_append i st) = object_to_add st.
Proof. reflexivity. Qed.
Lemma object_to_add_furnishings_append i st : object_to_add (furnishings_append i st) = object_to_add st.
Proof. reflexivity. Qed.
Lemma draw_mode_active_house_append i st : draw_mode_active (house_append i st) = draw_mode_active st.
Proof. reflexivity. Qed.
Lemma draw_mode_active_furnishings_append i st : draw_mode_active (furnishings_append i st) = draw_mode_active st.
Proof. reflexivity. Qed.
Lemma original_state_house_append i st : original_state (house_append i st) = original_state st.
Proof. reflexivity. Qed.
Lemma original_state_furnishings_append i st : original_state (furnishings_append i st) = original_state st.
Proof. reflexivity. Qed.
Lemma resize_handle_house_append i st : resize_handle (house_append i st) = resize_handle st.
Proof. reflexivity. Qed.
Lemma resize_handle_furnishings_append i st : resize_handle (furnishings_append i st) = resize_handle st.
Proof. reflexivity. Qed.
Lemma toolbar_mode_house_append i st : toolbar_mode (house_append i st) = toolbar_mode st.
Proof. reflexivity. Qed.
Lemma toolbar_mode_furnishings_append i st : toolbar_mode (furnishings_append i st) = toolbar_mode st.
Proof. reflexivity. Qed.

Lemma heap_store sh st : heap (store sh st) = heap st ++ [sh].
Proof. reflexivity. Qed.

Lemma heap_set_obj_state i s st :
  heap (set_obj_state i s st) = alter (update_state s) i (heap st).
Proof. reflexivity. Qed.

Lemma house_house_append i st : house (house_append i st) = house st ++ [i].
Proof. reflexivity. Qed.

Lemma furnishings_furnishings_append i st :
  furnishings (furnishings_append i st) = furnishings st ++ [i].
Proof. reflexivity. Qed.

Lemma history_log_action e st : history (log_action e st) = history st ++ [e].
Proof. reflexivity. Qed.

Lemma redo_stack_log_action e st : redo_stack (log_action e st) = [].
Proof. reflexivity. Qed.

Lemma current_action_cancel_action c st :
  current_action (cancel_action c st) = None.
Proof.
  unfold cancel_action. rewrite current_action_draw_blueprint.
  destruct (ghost_rect st), c; reflexivity.
Qed.

Lemma selected_item_select_item item st :
  selected_item (select_item item st) = item.
Proof.
  unfold select_item. case_decide; [assumption|].
  now rewrite selected_item_draw_blueprint.
Qed.

Lemma state_of_Ok st : state_of (Ok st) = st.
Proof. reflexivity. Qed.

Lemma state_of_Raised e st : state_of (Raised e st) = st.
Proof. reflexivity. Qed.

Lemma and_then_Ok st f : and_then (Ok st) f = f st.
Proof. reflexivity. Qed.

Lemma and_then_Raised e st f : and_then (Raised e st) f = Raised e st.
Proof. reflexivity. Qed.

Create Rewrite HintDb proj.

#[global] Hint Rewrite
  heap_set_heap heap_set_house heap_set_furnishings
  heap_set_selected_item heap_set_history heap_set_redo_stack
  heap_set_clipboard heap_set_current_action heap_set_action_start_xy
  heap_set_ghost_rect heap_set_object_to_add heap_set_draw_mode_active
  heap_set_original_state heap_set_resize_handle heap_set_toolbar_mode
  heap_set_xlim heap_set_ylim heap_set_total_sqft_label
  heap_set_cursor heap_set_copy_button heap_set_paste_button
  house_set_heap house_set_house house_set_furnishings
  house_set_selected_item house_set_history house_set_redo_stack
  house_set_clipboard house_set_current_action house_set_action_start_xy
  house_set_ghost_rect house_set_object_to_add house_set_draw_mode_active
  house_set_original_state house_set_resize_handle house_set_toolbar_mode
  house_set_xlim house_set_ylim house_set_total_sqft_label
  house_set_cursor house_set_copy_button house_set_paste_button
  furnishings_set_heap furnishings_set_house furnishings_set_furnishings
  furnishings_set_selected_item furnishings_set_history furnishings_set_redo_stack
  furnishings_set_clipboard furnishings_set_current_action furnishings_set_action_start_xy
  furnishings_set_ghost_rect furnishings_set_object_to_add furnishings_set_draw_mode_active
  furnishings_set_original_state furnishings_set_resize_handle furnishings_set_toolbar_mode
  furnishings_set_xlim furnishings_set_ylim furnishings_set_total_sqft_label
  : proj.

#[global] Hint Rewrite
  furnishings_set_cursor furnishings_set_copy_button furnishings_set_paste_button
  selected_item_set_heap selected_item_set_house selected_item_set_furnishings
  selected_item_set_selected_item selected_item_set_history selected_item_set_redo_stack
  selected_item_set_clipboard selected_item_set_current_action selected_item_set_action_start_xy
  selected_item_set_ghost_rect selected_item_set_object_to_add selected_item_set_draw_mode_active
  selected_item_set_original_state selected_item_set_resize_handle selected_item_set_toolbar_mode
  selected_item_set_xlim selected_item_set_ylim selected_item_set_total_sqft_label
  selected_item_set_cursor selected_item_set_copy_button selected_item_set_paste_button
  history_set_heap history_set_house history_set_furnishings
  history_set_selected_item history_set_history history_set_redo_stack
  history_set_clipboard history_set_current_action history_set_action_start_xy
  history_set_ghost_rect history_set_object_to_add history_set_draw_mode_active
  history_set_original_state history_set_resize_handle history_set_toolbar_mode
  history_set_xlim history_set_ylim history_set_total_sqft_label
  history_set_cursor history_set_copy_button history_set_paste_button
  redo_stack_set_heap redo_stack_set_house redo_stack_set_furnishings
  redo_stack_set_selected_item redo_stack_set_history redo_stack_set_redo_stack
  redo_stack_set_clipboard redo_stack_set_current_action redo_stack_set_action_start_xy
  redo_stack_set_ghost_rect redo_stack_set_object_to_add redo_stack_set_draw_mode_active
  redo_stack_set_original_state redo_stack_set_resize_handle redo_stack_set_toolbar_mode
  : proj.

#[global] Hint Rewrite
  redo_stack_set_xlim redo_stack_set_ylim redo_stack_set_total_sqft_label
  redo_stack_set_cursor redo_stack_set_copy_button redo_stack_set_paste_button
  clipboard_set_heap clipboard_set_house clipboard_set_furnishings
  clipboard_set_selected_item clipboard_set_history clipboard_set_redo_stack
  clipboard_set_clipboard clipboard_set_current_action clipboard_set_action_start_xy
  clipboard_set_ghost_rect clipboard_set_object_to_add clipboard_set_draw_mode_active
  clipboard_set_original_state clipboard_set_resize_handle clipboard_set_toolbar_mode
  clipboard_set_xlim clipboard_set_ylim clipboard_set_total_sqft_label
  clipboard_set_cursor clipboard_set_copy_button clipboard_set_paste_button
  current_action_set_heap current_action_set_house current_action_set_furnishings
  current_action_set_selected_item current_action_set_history current_action_set_redo_stack
  current_action_set_clipboard current_action_set_current_action current_action_set_action_start_xy
  current_action_set_ghost_rect current_action_set_object_to_add current_action_set_draw_mode_active
  current_action_set_original_state current_action_set_resize_handle current_action_set_toolbar_mode
  current_action_set_xlim current_action_set_ylim current_action_set_total_sqft_label
  current_action_set_cursor current_action_set_copy_button current_action_set_paste_button
  action_start_xy_set_heap action_start_xy_set_house action_start_xy_set_furnishings
  action_start_xy_set_selected_item action_start_xy_set_history action_start_xy_set_redo_stack
  action_start_xy_set_clipboard action_start_xy_set_current_action action_start_xy_set_action_start_xy
  action_start_xy_set_ghost_rect action_start_xy_set_object_to_add action_start_xy_set_draw_mode_active
  : proj.

#[global] Hint Rewrite
  action_start_xy_set_original_state action_start_xy_set_resize_handle action_start_xy_set_toolbar_mode
  action_start_xy_set_xlim action_start_xy_set_ylim action_start_xy_set_total_sqft_label
  action_start_xy_set_cursor action_start_xy_set_copy_button action_start_xy_set_paste_button
  ghost_rect_set_heap ghost_rect_set_house ghost_rect_set_furnishings
  ghost_rect_set_selected_item ghost_rect_set_history ghost_rect_set_redo_stack
  ghost_rect_set_clipboard ghost_rect_set_current_action ghost_rect_set_action_start_xy
  ghost_rect_set_ghost_rect ghost_rect_set_object_to_add ghost_rect_set_draw_mode_active
  ghost_rect_set_original_state ghost_rect_set_resize_handle ghost_rect_set_toolbar_mode
  ghost_rect_set_xlim ghost_rect_set_ylim ghost_rect_set_total_sqft_label
  ghost_rect_set_cursor ghost_rect_set_copy_button ghost_rect_set_paste_button
  object_to_add_set_heap object_to_add_set_house object_to_add_set_furnishings
  object_to_add_set_selected_item object_to_add_set_history object_to_add_set_redo_stack
  object_to_add_set_clipboard object_to_add_set_current_action object_to_add_set_action_start_xy
  object_to_add_set_ghost_rect object_to_add_set_object_to_add object_to_add_set_draw_mode_active
  object_to_add_set_original_state object_to_add_set_resize_handle object_to_add_set_toolbar_mode
  object_to_add_set_xlim object_to_add_set_ylim object_to_add_set_total_sqft_label
  object_to_add_set_cursor object_to_add_set_copy_button object_to_add_set_paste_button
  draw_mode_active_set_heap draw_mode_active_set_house draw_mode_active_set_furnishings
  draw_mode_active_set_selected_item draw_mode_active_set_history draw_mode_active_set_redo_stack
  draw_mode_active_set_clipboard draw_mode_active_set_current_action draw_mode_active_set_action_start_xy
  : proj.

#[global] Hint Rewrite
  draw_mode_active_set_ghost_rect draw_mode_active_set_object_to_add draw_mode_active_set_draw_mode_active
  draw_mode_active_set_original_state draw_mode_active_set_resize_handle draw_mode_active_set_toolbar_mode
  draw_mode_active_set_xlim draw_mode_active_set_ylim draw_mode_active_set_total_sqft_label
  draw_mode_active_set_cursor draw_mode_active_set_copy_button draw_mode_active_set_paste_button
  original_state_set_heap original_state_set_house original_state_set_furnishings
  original_state_set_selected_item original_state_set_history original_state_set_redo_stack
  original_state_set_clipboard original_state_set_current_action original_state_set_action_start_xy
  original_state_set_ghost_rect original_state_set_object_to_add original_state_set_draw_mode_active
  original_state_set_original_state original_state_set_resize_handle original_state_set_toolbar_mode
  original_state_set_xlim original_state_set_ylim original_state_set_total_sqft_label
  original_state_set_cursor original_state_set_copy_button original_state_set_paste_button
  resize_handle_set_heap resize_handle_set_house resize_handle_set_furnishings
  resize_handle_set_selected_item resize_handle_set_history resize_handle_set_redo_stack
  resize_handle_set_clipboard resize_handle_set_current_action resize_handle_set_action_start_xy
  resize_handle_set_ghost_rect resize_handle_set_object_to_add resize_handle_set_draw_mode_active
  resize_handle_set_original_state resize_handle_set_resize_handle resize_handle_set_toolbar_mode
  resize_handle_set_xlim resize_handle_set_ylim resize_handle_set_total_sqft_label
  resize_handle_set_cursor resize_handle_set_copy_button resize_handle_set_paste_button
  toolbar_mode_set_heap toolbar_mode_set_house toolbar_mode_set_furnishings
  toolbar_mode_set_selected_item toolbar_mode_set_history toolbar_mode_set_redo_stack
  : proj.

#[global] Hint Rewrite
  toolbar_mode_set_clipboard toolbar_mode_set_current_action toolbar_mode_set_action_start_xy
  toolbar_mode_set_ghost_rect toolbar_mode_set_object_to_add toolbar_mode_set_draw_mode_active
  toolbar_mode_set_original_state toolbar_mode_set_resize_handle toolbar_mode_set_toolbar_mode
  toolbar_mode_set_xlim toolbar_mode_set_ylim toolbar_mode_set_total_sqft_label
  toolbar_mode_set_cursor toolbar_mode_set_copy_button toolbar_mode_set_paste_button
  xlim_set_heap xlim_set_house xlim_set_furnishings
  xlim_set_selected_item xlim_set_history xlim_set_redo_stack
  xlim_set_clipboard xlim_set_current_action xlim_set_action_start_xy
  xlim_set_ghost_rect xlim_set_object_to_add xlim_set_draw_mode_active
  xlim_set_original_state xlim_set_resize_handle xlim_set_toolbar_mode
  xlim_set_xlim xlim_set_ylim xlim_set_total_sqft_label
  xlim_set_cursor xlim_set_copy_button xlim_set_paste_button
  ylim_set_heap ylim_set_house ylim_set_furnishings
  ylim_set_selected_item ylim_set_history ylim_set_redo_stack
  ylim_set_clipboard ylim_set_current_action ylim_set_action_start_xy
  ylim_set_ghost_rect ylim_set_object_to_add ylim_set_draw_mode_active
  ylim_set_original_state ylim_set_resize_handle ylim_set_toolbar_mode
  ylim_set_xlim ylim_set_ylim ylim_set_total_sqft_label
  ylim_set_cursor ylim_set_copy_button ylim_set_paste_button
  total_sqft_label_set_heap total_sqft_label_set_house total_sqft_label_set_furnishings
  : proj.

#[global] Hint Rewrite
  total_sqft_label_set_selected_item total_sqft_label_set_history total_sqft_label_set_redo_stack
  total_sqft_label_set_clipboard total_sqft_label_set_current_action total_sqft_label_set_action_start_xy
  total_sqft_label_set_ghost_rect total_sqft_label_set_object_to_add total_sqft_label_set_draw_mode_active
  total_sqft_label_set_original_state total_sqft_label_set_resize_handle total_sqft_label_set_toolbar_mode
  total_sqft_label_set_xlim total_sqft_label_set_ylim total_sqft_label_set_total_sqft_label
  total_sqft_label_set_cursor total_sqft_label_set_copy_button total_sqft_label_set_paste_button
  cursor_set_heap cursor_set_house cursor_set_furnishings
  cursor_set_selected_item cursor_set_history cursor_set_redo_stack
  cursor_set_clipboard cursor_set_current_action cursor_set_action_start_xy
  cursor_set_ghost_rect cursor_set_object_to_add cursor_set_draw_mode_active
  cursor_set_original_state cursor_set_resize_handle cursor_set_toolbar_mode
  cursor_set_xlim cursor_set_ylim cursor_set_total_sqft_label
  cursor_set_cursor cursor_set_copy_button cursor_set_paste_button
  copy_button_set_heap copy_button_set_house copy_button_set_furnishings
  copy_button_set_selected_item copy_button_set_history copy_button_set_redo_stack
  copy_button_set_clipboard copy_button_set_current_action copy_button_set_action_start_xy
  copy_button_set_ghost_rect copy_button_set_object_to_add copy_button_set_draw_mode_active
  copy_button_set_original_state copy_button_set_resize_handle copy_button_set_toolbar_mode
  copy_button_set_xlim copy_button_set_ylim copy_button_set_total_sqft_label
  copy_button_set_cursor copy_button_set_copy_button copy_button_set_paste_button
  : proj.

#[global] Hint Rewrite
  paste_button_set_heap paste_button_set_house paste_button_set_furnishings
  paste_button_set_selected_item paste_button_set_history paste_button_set_redo_stack
  paste_button_set_clipboard paste_button_set_current_action paste_button_set_action_start_xy
  paste_button_set_ghost_rect paste_button_set_object_to_add paste_button_set_draw_mode_active
  paste_button_set_original_state paste_button_set_resize_handle paste_button_set_toolbar_mode
  paste_button_set_xlim paste_button_set_ylim paste_button_set_total_sqft_label
  paste_button_set_cursor paste_button_set_copy_button paste_button_set_paste_button
  heap_draw_blueprint house_draw_blueprint furnishings_draw_blueprint
  selected_item_draw_blueprint history_draw_blueprint redo_stack_draw_blueprint
  clipboard_draw_blueprint current_action_draw_blueprint action_start_xy_draw_blueprint
  ghost_rect_draw_blueprint object_to_add_draw_blueprint draw_mode_active_draw_blueprint
  original_state_draw_blueprint resize_handle_draw_blueprint toolbar_mode_draw_blueprint
  heap_update_buttons house_update_buttons furnishings_update_buttons
  selected_item_update_buttons history_update_buttons redo_stack_update_buttons
  clipboard_update_buttons current_action_update_buttons action_start_xy_update_buttons
  ghost_rect_update_buttons object_to_add_update_buttons draw_mode_active_update_buttons
  original_state_update_buttons resize_handle_update_buttons toolbar_mode_update_buttons
  heap_select_item house_select_item furnishings_select_item
  history_select_item redo_stack_select_item clipboard_select_item
  current_action_select_item action_start_xy_select_item ghost_rect_select_item
  : proj.

#[global] Hint Rewrite
  object_to_add_select_item draw_mode_active_select_item original_state_select_item
  resize_handle_select_item toolbar_mode_select_item heap_log_action
  house_log_action furnishings_log_action selected_item_log_action
  clipboard_log_action current_action_log_action action_start_xy_log_action
  ghost_rect_log_action object_to_add_log_action draw_mode_active_log_action
  original_state_log_action resize_handle_log_action toolbar_mode_log_action
  heap_cancel_action house_cancel_action furnishings_cancel_action
  selected_item_cancel_action history_cancel_action redo_stack_cancel_action
  clipboard_cancel_action action_start_xy_cancel_action original_state_cancel_action
  resize_handle_cancel_action toolbar_mode_cancel_action house_store
  house_set_obj_state furnishings_store furnishings_set_obj_state
  selected_item_store selected_item_set_obj_state history_store
  history_set_obj_state redo_stack_store redo_stack_set_obj_state
  clipboard_store clipboard_set_obj_state current_action_store
  current_action_set_obj_state action_start_xy_store action_start_xy_set_obj_state
  ghost_rect_store ghost_rect_set_obj_state object_to_add_store
  object_to_add_set_obj_state draw_mode_active_store draw_mode_active_set_obj_state
  original_state_store original_state_set_obj_state resize_handle_store
  resize_handle_set_obj_state toolbar_mode_store toolbar_mode_set_obj_state
  heap_house_append heap_furnishings_append house_furnishings_append
  : proj.

#[global] Hint Rewrite
  furnishings_house_append selected_item_house_append selected_item_furnishings_append
  history_house_append history_furnishings_append redo_stack_house_append
  redo_stack_furnishings_append clipboard_house_append clipboard_furnishings_append
  current_action_house_append current_action_furnishings_append action_start_xy_house_append
  action_start_xy_furnishings_append ghost_rect_house_append ghost_rect_furnishings_append
  object_to_add_house_append object_to_add_furnishings_append draw_mode_active_house_append
  draw_mode_active_furnishings_append original_state_house_append original_state_furnishings_append
  resize_handle_house_append resize_handle_furnishings_append toolbar_mode_house_append
  toolbar_mode_furnishings_append heap_store heap_set_obj_state
  house_house_append furnishings_furnishings_append history_log_action
  redo_stack_log_action current_action_cancel_action selected_item_select_item
  state_of_Ok state_of_Raised and_then_Ok
  and_then_Raised
  : proj.

(** Normalises field reads of a state built from the setters and the
    building blocks above. *)
Ltac proj := cbv zeta; repeat autorewrite with proj.

(** ** Python primitives *)

Lemma Qlt_bool_iff a b : Qlt_bool a b = true <-> a < b.
Proof.
  unfold Qlt_bool. rewrite negb_true_iff.
  split; intros H.
  - apply Qnot_le_lt. intros Hle. apply Qle_bool_iff in Hle. congruence.
  - destruct (Qle_bool b a) eqn:E; [|reflexivity].
    apply Qle_bool_iff in E. lra.
Qed.

Lemma Qlt_bool_false_iff a b : Qlt_bool a b = false <-> b <= a.
Proof.
  unfold Qlt_bool. rewrite negb_false_iff. apply Qle_bool_iff.
Qed.

Lemma py_max_lower a b : a <= py_max a b.
Proof.
  unfold py_max. destruct (Qlt_bool a b) eqn:E.
  - apply Qlt_bool_iff in E. lra.
  - lra.
Qed.

Lemma py_max_upper a b : b <= py_max a b.
Proof.
  unfold py_max. destruct (Qlt_bool a b) eqn:E.
  - lra.
  - apply Qlt_bool_false_iff in E. lra.
Qed.

Lemma py_max_right a b : a < b -> py_max a b = b.
Proof. intros H. unfold py_max. apply Qlt_bool_iff in H. now rewrite H. Qed.

Lemma py_max_left a b : b <= a -> py_max a b = a.
Proof. intros H. unfold py_max. apply Qlt_bool_false_iff in H. now rewrite H. Qed.

Lemma py_min_lower_l a b : py_min a b <= a.
Proof.
  unfold py_min. destruct (Qlt_bool b a) eqn:E.
  - apply Qlt_bool_iff in E. lra.
  - lra.
Qed.

Lemma py_min_lower_r a b : py_min a b <= b.
Proof.
  unfold py_min. destruct (Qlt_bool b a) eqn:E.
  - lra.
  - apply Qlt_bool_false_iff in E. lra.
Qed.

Lemma list_pop_nil {A} : list_pop (@nil A) = None.
Proof. reflexivity. Qed.

Lemma list_pop_snoc {A} (l : list A) a : list_pop (l ++ [a]) = Some (a, l).
Proof. unfold list_pop. rewrite rev_unit, rev_involutive. reflexivity. Qed.

Lemma list_pop_None {A} (l : list A) : list_pop l = None -> l = [].
Proof.
  destruct l as [|a l] using rev_ind; [reflexivity|].
  rewrite list_pop_snoc. discriminate.
Qed.

Lemma list_pop_Some {A} (l : list A) a r :
  list_pop l = Some (a, r) -> l = r ++ [a].
Proof.
  destruct l as [|b l _] using rev_ind; [discriminate|].
  rewrite list_pop_snoc. congruence.
Qed.

Lemma list_remove_middle i (l1 l2 : list nat) :
  i ∉ l1 -> list_remove i (l1 ++ i :: l2) = Some (l1 ++ l2).
Proof.
  induction l1 as [|j l1 IH]; simpl; intros Hn.
  - now rewrite decide_True.
  - apply not_elem_of_cons in Hn as [Hne Hn].
    rewrite decide_False by congruence. now rewrite IH.
Qed.

Lemma list_remove_snoc i (l : list nat) :
  i ∉ l -> list_remove i (l ++ [i]) = Some l.
Proof.
  intros Hn. rewrite list_remove_middle by assumption. now rewrite app_nil_r.
Qed.

Lemma list_remove_split i (l l' : list nat) :
  list_remove i l = Some l' ->
  exists l1 l2, l = l1 ++ i :: l2 /\ l' = l1 ++ l2 /\ i ∉ l1.
Proof.
  revert l'. induction l as [|j l IH]; simpl; intros l' H; [discriminate|].
  destruct (decide (j = i)) as [->|Hne].
  - injection H as <-. exists [], l. repeat split. apply not_elem_of_nil.
  - destruct (list_remove i l) as [r|] eqn:E; [|discriminate].
    injection H as <-.
    destruct (IH r eq_refl) as (l1 & l2 & -> & -> & Hn).
    exists (j :: l1), l2. repeat split.
    apply not_elem_of_cons. split; [congruence|assumption].
Qed.

Lemma list_remove_elem i (l : list nat) :
  i ∈ l -> exists l', list_remove i l = Some l'.
Proof.
  induction l as [|j l IH]; simpl; intros H.
  - now apply elem_of_nil in H.
  - destruct (decide (j = i)); [eauto|].
    apply elem_of_cons in H as [->|H]; [congruence|].
    destruct (IH H) as (r & ->). eauto.
Qed.

Lemma list_remove_None i (l : list nat) :
  list_remove i l = None -> i ∉ l.
Proof.
  intros H Hin. destruct (list_remove_elem i l Hin) as (r & Hr). congruence.
Qed.

Lemma list_remove_perm i (l l' : list nat) :
  list_remove i l = Some l' -> l ≡ₚ i :: l'.
Proof.
  intros H. destruct (list_remove_split _ _ _ H) as (l1 & l2 & -> & -> & _).
  symmetry. apply Permutation_middle.
Qed.

(** ** Hit-testing *)

Lemma find_app_split {A} (f : A -> bool) (l1 l2 : list A) :
  find f (l1 ++ l2) =
  match find f l1 with
  | Some a => Some a
  | None => find f l2
  end.
Proof.
  induction l1 as [|a l1 IH]; simpl; [reflexivity|].
  destruct (f a); [reflexivity|apply IH].
Qed.

Lemma find_all_false {A} (f : A -> bool) (l : list A) :
  find f l = None <-> (forall a, a ∈ l -> f a = false).
Proof.
  induction l as [|a l IH]; simpl.
  - split; [|reflexivity]. intros _ b Hb. now apply elem_of_nil in Hb.
  - destruct (f a) eqn:E.
    + split; [intros H; discriminate H|]. intros H.
      rewrite (H a) in E by (apply elem_of_cons; auto). discriminate.
    + rewrite IH. split.
      * intros H b Hb. apply elem_of_cons in Hb as [->|Hb]; auto.
      * intros H b Hb. apply H. apply elem_of_cons. auto.
Qed.

Lemma find_hit {A} (f : A -> bool) (l : list A) a :
  find f l = Some a -> a ∈ l /\ f a = true.
Proof.
  intros H. apply find_some in H as [Hin Hf].
  split; [now apply list_elem_of_In|assumption].
Qed.

(** Scanning the reversed list returns the last hit of the list. *)
Lemma find_rev_last {A} (f : A -> bool) (l1 l2 : list A) a :
  f a = true -> (forall b, b ∈ l2 -> f b = false) ->
  find f (rev (l1 ++ a :: l2)) = Some a.
Proof.
  intros Ha Hl2.
  rewrite rev_app_distr. simpl. rewrite <- app_assoc, find_app_split.
  assert (find f (rev l2) = None) as ->.
  { apply find_all_false. intros b Hb. apply Hl2.
    apply list_elem_of_In. apply in_rev. now apply list_elem_of_In. }
  simpl. now rewrite Ha.
Qed.

(** C5. [find_item_at] scans the furnishings from the most recently
    inserted to the oldest and then the rooms in the same way, and returns
    the first shape that contains the point, or nothing: among the
    furnishings containing the point the last inserted wins, a room is
    returned only when no furnishing contains the point, and the result is
    [None] exactly when no shape contains it. *)
Theorem find_item_at_scan_order (st : App) (px py : Q) :
  let hit := fun i => contains (obj st i) px py in
  find_item_at st px py = find hit (rev (furnishings st) ++ rev (house st))
  /\ (forall l1 o l2,
        furnishings st = l1 ++ o :: l2 -> hit o = true ->
        (forall o', o' ∈ l2 -> hit o' = false) ->
        find_item_at st px py = Some o)
  /\ (forall l1 r l2,
        house st = l1 ++ r :: l2 -> hit r = true ->
        (forall r', r' ∈ l2 -> hit r' = false) ->
        (forall o, o ∈ furnishings st -> hit o = false) ->
        find_item_at st px py = Some r)
  /\ (forall o,
        o ∈ furnishings st -> hit o = true ->
        exists o', find_item_at st px py = Some o'
                   /\ o' ∈ furnishings st /\ hit o' = true)
  /\ (forall i,
        find_item_at st px py = Some i ->
        i ∈ furnishings st ++ house st /\ hit i = true)
  /\ (find_item_at st px py = None <->
      forall i, i ∈ furnishings st ++ house st -> hit i = false).
Proof.
  intros hit. unfold find_item_at. fold hit.
  split; [|split; [|split; [|split; [|split]]]].
  - rewrite find_app_split. reflexivity.
  - intros l1 o l2 Hf Ho Hl2. rewrite Hf.
    now rewrite (find_rev_last hit l1 l2 o Ho Hl2).
  - intros l1 r l2 Hh Hr Hl2 Hnone.
    assert (find hit (rev (furnishings st)) = None) as ->.
    { apply find_all_false. intros b Hb. apply Hnone.
      apply list_elem_of_In. apply in_rev. now apply list_elem_of_In. }
    rewrite Hh. now apply find_rev_last.
  - intros o Hin Ho.
    destruct (find hit (rev (furnishings st))) as [o'|] eqn:E.
    + exists o'. apply find_hit in E as [Hin' Ho'].
      repeat split; [|assumption].
      apply list_elem_of_In. apply in_rev. now apply list_elem_of_In.
    + exfalso. rewrite find_all_false in E.
      rewrite (E o) in Ho; [discriminate|].
      apply list_elem_of_In. apply -> in_rev. now apply list_elem_of_In.
  - intros i H. rewrite elem_of_app.
    destruct (find hit (rev (furnishings st))) as [o'|] eqn:E.
    + injection H as ->. apply find_hit in E as [Hin Ho].
      split; [|assumption]. left.
      apply list_elem_of_In. apply in_rev. now apply list_elem_of_In.
    + apply find_hit in H as [Hin Ho].
      split; [|assumption]. right.
      apply list_elem_of_In. apply in_rev. now apply list_elem_of_In.
  - destruct (find hit (rev (furnishings st))) as [o'|] eqn:E.
    + split; [intros H; discriminate H|]. intros H. exfalso.
      apply find_hit in E as [Hin Ho].
      rewrite H in Ho; [discriminate|].
      apply elem_of_app. left.
      apply list_elem_of_In. apply in_rev. now apply list_elem_of_In.
    + rewrite find_all_false in E. rewrite find_all_false. split.
      * intros H i Hi. apply elem_of_app in Hi as [Hi|Hi].
        -- apply E. apply list_elem_of_In. apply -> in_rev.
           now apply list_elem_of_In.
        -- apply H. apply list_elem_of_In. apply -> in_rev.
           now apply list_elem_of_In.
      * intros H i Hi. apply H. apply elem_of_app. right.
        apply list_elem_of_In. apply in_rev. now apply list_elem_of_In.
Qed.

(** ** Resize handles *)

Lemma near_decide p line tolerance :
  if Qlt_bool (Qabs (p - line)) tolerance
  then near p line tolerance else ~ near p line tolerance.
Proof.
  unfold near. destruct (Qlt_bool _ _) eqn:E.
  - now apply Qlt_bool_iff.
  - apply Qlt_bool_false_iff in E. lra.
Qed.

(** C6. A point within the tolerance of a horizontal and of a vertical
    boundary line of a room always resolves to a corner handle whose two
    edges are both within the tolerance, never to a single edge; the
    corners are tried in the order top-left, top-right, bottom-left,
    bottom-right, each boundary line being tested on its own. *)
Theorem resize_handle_corner_priority (sh : Shape) (px py tolerance : Q) :
  let on_l := near px (left_edge sh) tolerance in
  let on_r := near px (right_edge sh) tolerance in
  let on_b := near py (bottom_edge sh) tolerance in
  let on_t := near py (top_edge sh) tolerance in
  on_t \/ on_b -> on_l \/ on_r ->
  (exists c,
      get_resize_handle sh px py tolerance = Some c
      /\ ((c = "top-left" /\ on_t /\ on_l)
          \/ (c = "top-right" /\ on_t /\ on_r)
          \/ (c = "bottom-left" /\ on_b /\ on_l)
          \/ (c = "bottom-right" /\ on_b /\ on_r)))
  /\ (on_t -> on_l ->
      get_resize_handle sh px py tolerance = Some "top-left")
  /\ (on_t -> on_r -> ~ on_l ->
      get_resize_handle sh px py tolerance = Some "top-right")
  /\ (on_b -> on_l -> ~ on_t ->
      get_resize_handle sh px py tolerance = Some "bottom-left")
  /\ (on_b -> on_r -> ~ on_t -> ~ on_l ->
      get_resize_handle sh px py tolerance = Some "bottom-right").
Proof.
  intros on_l on_r on_b on_t Hh Hv.
  pose proof (near_decide px (left_edge sh) tolerance) as Hl.
  pose proof (near_decide px (right_edge sh) tolerance) as Hr.
  pose proof (near_decide py (bottom_edge sh) tolerance) as Hb.
  pose proof (near_decide py (top_edge sh) tolerance) as Ht.
  unfold get_resize_handle.
  unfold left_edge, right_edge, bottom_edge, top_edge in *.
  destruct (Qlt_bool (Qabs (px - x sh)) tolerance);
    destruct (Qlt_bool (Qabs (px - (x sh + width sh))) tolerance);
    destruct (Qlt_bool (Qabs (py - y sh)) tolerance);
    destruct (Qlt_bool (Qabs (py - (y sh + height sh))) tolerance);
    simpl; subst on_l on_r on_b on_t;
    (split; [(eexists; split; [reflexivity|tauto]) || tauto | tauto]).
Qed.

(** A narrow room, 4 wide and 20 high: the point [(2, 20)] is within 5 of
    the top, left and right edges. *)
Lemma resize_handle_corner_priority_witness :
  get_resize_handle (mkShape Room "A" 0 0 4 20) 2 20 5 = Some "top-left".
Proof.
  apply (resize_handle_corner_priority (mkShape Room "A" 0 0 4 20) 2 20 5).
  - left. reflexivity.
  - left. reflexivity.
  - reflexivity.
  - reflexivity.
Defined.

(** ** Resizing by dragging a handle *)

Lemma handles_cases (P : string -> Prop) :
  P "top-left" -> P "top-right" -> P "bottom-left" -> P "bottom-right" ->
  P "top" -> P "bottom" -> P "left" -> P "right" ->
  forall h, h ∈ handles -> P h.
Proof.
  intros H1 H2 H3 H4 H5 H6 H7 H8 h Hin. unfold handles in Hin.
  repeat (apply elem_of_cons in Hin as [->|Hin]; [assumption|]).
  now apply elem_of_nil in Hin.
Qed.

(** Every dimension that the active handle adjusts is at least 1 after the
    drag step, whatever the pointer position; the other one is kept. *)
Lemma resize_state_floor (h : string) (n : string) (ox oy ow oh px py : Q) :
  h ∈ handles ->
  let '(_, _, _, nw, nh) := resize_state h (n, ox, oy, ow, oh) px py in
  (if str_in "left" h || str_in "right" h then 1 <= nw else nw = ow)
  /\ (if str_in "top" h || str_in "bottom" h then 1 <= nh else nh = oh).
Proof.
  revert h. apply handles_cases; cbn; split;
    first [apply py_max_lower | reflexivity].
Qed.

(** The right and top handles keep the left and bottom edges where they
    were, for every pointer position. *)
Lemma resize_right_top_anchored (h : string) (n : string) (ox oy ow oh px py : Q) :
  h ∈ handles ->
  let '(_, nx, ny, _, _) := resize_state h (n, ox, oy, ow, oh) px py in
  (str_in "right" h = true -> nx = ox)
  /\ (str_in "top" h = true -> ny = oy).
Proof.
  revert h. apply handles_cases; cbn; split;
    first [reflexivity | discriminate].
Qed.

(** The left and bottom handles keep the opposite edge exactly as long as
    the pointer stays at least 1 unit inside of it; beyond that the
    rectangle has width (height) 1 and follows the pointer. *)
Lemma resize_left_bottom_anchor (h : string) (n : string) (ox oy ow oh px py : Q) :
  h ∈ handles ->
  let '(_, nx, ny, nw, nh) := resize_state h (n, ox, oy, ow, oh) px py in
  (str_in "left" h = true ->
   nx = px /\ (nx + nw == ox + ow <-> px <= ox + ow - 1))
  /\ (str_in "bottom" h = true ->
      ny = py /\ (ny + nh == oy + oh <-> py <= oy + oh - 1)).
Proof.
  assert (Hk : forall e p, p + py_max 1 (e - p) == e <-> p <= e - 1).
  { intros e p. unfold py_max. destruct (Qlt_bool 1 (e - p)) eqn:E.
    - apply Qlt_bool_iff in E. split; intros; lra.
    - apply Qlt_bool_false_iff in E. split; intros; lra. }
  revert h. apply handles_cases; cbn; split; intros Hs;
    first [discriminate Hs | split; [reflexivity|apply Hk]].
Qed.

(** C3 (failing input). Room "A" occupies [0, 10] x [0, 10].  Grabbed by
    its left handle and dragged to [x = 12], it becomes the rectangle
    [12, 13] x [0, 10]: the width is floored at 1, but the right edge,
    which the claim says stays anchored at 10, has moved to 13. *)
Theorem resize_left_past_right_edge_slides :
  resize_handle room_A_grabbed = Some "left"
  /\ original_state room_A_grabbed = Some room_A
  /\ exists st,
      room_A_dragged = Ok st
      /\ get_state (obj st 0) = ("A", 12, 0, 1, 10)
      /\ right_edge (obj room_A_grabbed 0) = 10
      /\ right_edge (obj st 0) == 13.
Proof.
  split; [vm_compute; reflexivity|].
  split; [vm_compute; reflexivity|].
  eexists. split; [vm_compute; reflexivity|].
  split; [vm_compute; reflexivity|].
  split; vm_compute; reflexivity.
Qed.

(** ** Interactions *)

Lemma outcome_ret {A} (a b : A) : outcome (Ret a) b -> b = a.
Proof. intros H. inversion H. reflexivity. Qed.

Lemma outcome_yesno {A} t m (k : bool -> Eff A) a :
  outcome (AskYesNo t m k) a -> exists b, outcome (k b) a.
Proof. intros H. inversion H; subst. eauto. Qed.

Lemma outcome_string {A} t m (k : option string -> Eff A) a :
  outcome (AskString t m k) a -> exists o, outcome (k o) a.
Proof. intros H. inversion H; subst. eauto. Qed.

Lemma outcome_dialog {A} t e (k : DialogResult -> Eff A) a :
  outcome (OpenDialog t e k) a -> exists r, outcome (k r) a.
Proof. intros H. inversion H; subst. eauto. Qed.

Lemma outcome_random {A} (k : Q -> Eff A) a :
  outcome (Random k) a -> exists u, outcome (k u) a.
Proof. intros H. inversion H; subst. eauto. Qed.

Lemma outcome_bind {A B} (m : Eff A) (f : A -> Eff B) b :
  outcome (bind m f) b -> exists a, outcome m a /\ outcome (f a) b.
Proof.
  induction m as [a|t msg k IH|t p k IH|t e k IH|k IH]; simpl; intros H.
  - exists a. split; [constructor|assumption].
  - apply outcome_yesno in H as (c & H). apply IH in H as (a & Ha & Hb).
    exists a. split; [econstructor; eassumption|assumption].
  - apply outcome_string in H as (c & H). apply IH in H as (a & Ha & Hb).
    exists a. split; [econstructor; eassumption|assumption].
  - apply outcome_dialog in H as (c & H). apply IH in H as (a & Ha & Hb).
    exists a. split; [econstructor; eassumption|assumption].
  - apply outcome_random in H as (c & H). apply IH in H as (a & Ha & Hb).
    exists a. split; [econstructor; eassumption|assumption].
Qed.

Lemma run_outcome {A} (u : User) (m : Eff A) : outcome m (run u m).
Proof.
  induction m as [a|t msg k IH|t p k IH|t e k IH|k IH]; simpl;
    econstructor; eauto.
Qed.

(** ** The history log *)

Lemma undo_empty st : history st = [] -> undo st = Ok st.
Proof. intros H. unfold undo. now rewrite H. Qed.

Lemma redo_empty st : redo_stack st = [] -> redo st = Ok st.
Proof. intros H. unfold redo. now rewrite H. Qed.

Lemma fold_left_area_sum (f : nat -> Shape) (l : list nat) (acc : Q) :
  fold_left
    (fun total r =>
       let w := py_max 0.1 (width (f r)) in
       let h := py_max 0.1 (height (f r)) in
       let area := w * h in
       total + area) l acc
  == acc + sum_areas (map f l).
Proof.
  revert acc. induction l as [|r l IH]; intros acc; simpl.
  - ring.
  - rewrite IH. unfold room_area. ring.
Qed.

(** The loop of [draw_blueprint] computes the sum of the room areas. *)
Lemma total_sqft_sum st :
  total_sqft st == sum_areas (map (obj st) (house st)).
Proof.
  unfold total_sqft. rewrite (fold_left_area_sum (obj st)). ring.
Qed.

Lemma Qlt_bool_compat a a' b b' :
  a == a' -> b == b' -> Qlt_bool a b = Qlt_bool a' b'.
Proof. intros Ha Hb. unfold Qlt_bool. now rewrite Ha, Hb. Qed.

Lemma round_half_even_compat a b :
  a == b -> round_half_even a = round_half_even b.
Proof.
  intros H. unfold round_half_even.
  assert (Hf : Qfloor a = Qfloor b) by now rewrite H.
  rewrite Hf.
  assert (Hr : a - inject_Z (Qfloor b) == b - inject_Z (Qfloor b))
    by now rewrite H.
  rewrite (Qlt_bool_compat _ _ _ _ Hr (Qeq_refl (1 # 2))).
  rewrite (Qlt_bool_compat _ _ _ _ (Qeq_refl (1 # 2)) Hr).
  reflexivity.
Qed.

Lemma format_2f_compat a b : a == b -> format_2f a = format_2f b.
Proof.
  intros H. unfold format_2f.
  assert (Hm : a * 100 == b * 100) by now rewrite H.
  now rewrite (round_half_even_compat _ _ Hm).
Qed.

Lemma sum_areas_ext st st' :
  heap st' = heap st -> house st' = house st ->
  sum_areas (map (obj st') (house st')) = sum_areas (map (obj st) (house st)).
Proof. intros Hh Hr. unfold obj. now rewrite Hh, Hr. Qed.

Lemma total_sqft_label_draw_blueprint st :
  total_sqft_label (draw_blueprint st) = area_text (total_sqft st).
Proof. destruct (draw_blueprint_unfold st) as (xl & yl & ->). reflexivity. Qed.

Lemma label_ok_draw_blueprint st : label_ok (draw_blueprint st).
Proof.
  unfold label_ok. rewrite total_sqft_label_draw_blueprint.
  rewrite sum_areas_ext with (st := st) by now autorewrite with proj.
  unfold area_text. now rewrite (format_2f_compat _ _ (total_sqft_sum st)).
Qed.

(** ** What each gesture does to the two stacks *)

Lemma label_ok_cancel_action c st : label_ok (cancel_action c st).
Proof. unfold cancel_action. apply label_ok_draw_blueprint. Qed.

Lemma label_ok_select_item item st :
  selected_item st <> item -> label_ok (select_item item st).
Proof.
  intros H. unfold select_item. rewrite decide_False by assumption.
  apply label_ok_draw_blueprint.
Qed.

Create HintDb label discriminated.
#[global] Hint Resolve label_ok_draw_blueprint label_ok_cancel_action : label.

Ltac stacks_same := left; split; proj; reflexivity.

Ltac stacks_commit :=
  right; left; eexists; split; [|split];
  [ proj; reflexivity | proj; reflexivity | proj; auto with label ].

Ltac stacks_cleared := right; right; split; proj; reflexivity.

(** Case analysis on whatever the interaction [H] branches on. *)
Ltac break_outcome H :=
  repeat match type of H with
         | outcome (match ?x with _ => _ end) _ => destruct x
         end.

Lemma stack_effect_refl st : stack_effect st st.
Proof. stacks_same. Qed.

Lemma move_selected_effect dx dy st : stack_effect st (move_selected dx dy st).
Proof.
  unfold move_selected. destruct (selected_item st) as [item|]; [|stacks_same].
  destruct (get_state _) as [[[[n ox] oy] ow] oh].
  stacks_commit.
Qed.

Lemma prompt_add_room_precise_effect st st' :
  outcome (prompt_add_room_precise st) st' -> stack_effect st st'.
Proof.
  unfold prompt_add_room_precise. intros H.
  apply outcome_dialog in H as ([s| |] & H); apply outcome_ret in H as ->.
  - stacks_commit.
  - stacks_same.
  - stacks_same.
Qed.

Lemma copy_room_effect st : stack_effect st (copy_room st).
Proof.
  unfold copy_room. destruct (selected_item st); [|stacks_same].
  destruct (is_room _ _); stacks_same.
Qed.

Lemma paste_room_effect st : stack_effect st (paste_room st).
Proof.
  unfold paste_room.
  destruct (clipboard st) as [[[[[n ?] ?] w] h]|]; [|stacks_same].
  stacks_commit.
Qed.

Lemma clear_all_effect st : stack_effect st (clear_all st).
Proof. unfold clear_all. stacks_cleared. Qed.

Lemma clear_blueprint_effect c st st' :
  outcome (clear_blueprint c st) st' -> stack_effect st st'.
Proof.
  unfold clear_blueprint. destruct c; intros H.
  - apply outcome_yesno in H as ([|] & H); apply outcome_ret in H as ->.
    + apply clear_all_effect.
    + stacks_same.
  - apply outcome_ret in H as ->. apply clear_all_effect.
Qed.

Lemma history_append_room s st : history (append_room s st) = history st.
Proof. reflexivity. Qed.

Lemma redo_stack_append_room s st :
  redo_stack (append_room s st) = redo_stack st.
Proof. reflexivity. Qed.

#[global] Hint Rewrite history_append_room redo_stack_append_room : proj.

Lemma generate_rooms_effect st st' :
  outcome (generate_rooms st) st' ->
  history st' = [] /\ redo_stack st' = [] /\ label_ok st'.
Proof.
  unfold generate_rooms, mbind, Eff_bind, mret, Eff_ret. intros H.
  apply outcome_bind in H as (st0 & H0 & H).
  apply outcome_ret in H0 as ->.
  repeat (apply outcome_bind in H as (? & _ & H)).
  apply outcome_ret in H as ->.
  split; [|split]; [| |apply label_ok_draw_blueprint].
  - unfold clear_all. proj. reflexivity.
  - unfold clear_all. proj. reflexivity.
Qed.

Lemma generate_random_layout_effect st st' :
  outcome (generate_random_layout st) st' -> stack_effect st st'.
Proof.
  unfold generate_random_layout. intros H.
  destruct (house st).
  - apply generate_rooms_effect in H as (? & ? & ?). right; right; auto.
  - apply outcome_yesno in H as ([|] & H).
    + apply generate_rooms_effect in H as (? & ? & ?). right; right; auto.
    + apply outcome_ret in H as ->. stacks_same.
Qed.

Lemma cancel_action_effect c st : stack_effect st (cancel_action c st).
Proof. stacks_same. Qed.

Lemma add_object_at_effect px py st :
  stack_effect st (state_of (add_object_at px py st)).
Proof.
  unfold add_object_at. destruct (object_to_add st) as [n|]; [|stacks_same].
  destruct (dict_get _ _) as [[w h]|]; [|stacks_same].
  stacks_commit.
Qed.

Lemma prompt_edit_room_properties_effect room st r :
  outcome (prompt_edit_room_properties room st) r ->
  stack_effect st (state_of r).
Proof.
  unfold prompt_edit_room_properties. intros H.
  apply outcome_dialog in H as ([s| |] & H); apply outcome_ret in H as ->.
  - destruct (negb _); [stacks_commit|stacks_same].
  - unfold house_remove. destruct (list_remove _ _); [|stacks_same].
    rewrite and_then_Ok. cbv beta zeta. case_decide; stacks_commit.
  - stacks_same.
Qed.

Lemma prompt_edit_object_properties_effect o st r :
  outcome (prompt_edit_object_properties o st) r ->
  stack_effect st (state_of r).
Proof.
  unfold prompt_edit_object_properties. intros H.
  apply outcome_dialog in H as ([s| |] & H); apply outcome_ret in H as ->.
  - destruct (negb _); [stacks_commit|stacks_same].
  - unfold furnishings_remove. destruct (list_remove _ _); [|stacks_same].
    rewrite and_then_Ok. cbv beta zeta. case_decide; stacks_commit.
  - stacks_same.
Qed.

Lemma on_press_effect event st r :
  outcome (on_press event st) r -> stack_effect st (state_of r).
Proof.
  unfold on_press. intros H.
  destruct (_ || _); [apply outcome_ret in H as ->; stacks_same|].
  cbv zeta in H.
  destruct (truthy _).
  { apply outcome_ret in H as ->.
    pose proof (add_object_at_effect (xdata event) (ydata event)
                  (set_action_start_xy (Some (xdata event, ydata event)) st))
      as [[E1 E2]|[(e & E1 & E2 & E3)|[E1 E2]]].
    - left. split; [now rewrite E1|now rewrite E2].
    - right; left. exists e. now rewrite E1, E2.
    - right; right. now rewrite E1, E2. }
  destruct (dblclick event).
  { destruct (find_item_at _ _ _) as [item|];
      [|apply outcome_ret in H as ->; stacks_same].
    destruct (cls _).
    - apply prompt_edit_room_properties_effect in H. exact H.
    - apply prompt_edit_object_properties_effect in H. exact H. }
  apply outcome_ret in H as ->.
  destruct (_ && _); [stacks_same|].
  destruct (find_item_at _ _ _); [stacks_same|].
  destruct (draw_mode_active _); stacks_same.
Qed.

Lemma on_motion_effect event st :
  stack_effect st (state_of (on_motion event st)).
Proof.
  unfold on_motion.
  destruct (_ || _); [stacks_same|].
  destruct (truthy _).
  { destruct (_ ≫= _) as [[w h]|]; [|stacks_same].
    destruct (ghost_rect st); stacks_same. }
  destruct (current_action st) as [a|]; [|stacks_same].
  destruct (action_start_xy st) as [[sx sy]|]; [|stacks_same].
  destruct a, (ghost_rect st), (selected_item st);
    repeat first
      [ stacks_same
      | match goal with
        | |- context [match ?x with _ => _ end] => destruct x
        end ].
Qed.

Lemma on_release_effect event st r :
  outcome (on_release event st) r -> stack_effect st (state_of r).
Proof.
  unfold on_release. intros H.
  destruct (current_action st) as [a|];
    [|apply outcome_ret in H as ->; stacks_same].
  cbv zeta in H.
  destruct a, (ghost_rect st) as [g|]; break_outcome H;
    try (apply outcome_ret in H as ->; first [stacks_same | stacks_commit]).
  apply outcome_string in H as (nm & H).
  destruct (truthy nm); apply outcome_ret in H as ->;
    [stacks_commit|stacks_same].
Qed.

Lemma on_scroll_effect event up st :
  stack_effect st (state_of (on_scroll event up st)).
Proof.
  unfold on_scroll. destruct (negb _); [stacks_same|].
  cbv zeta. destruct (Qeq_bool _ 0); [stacks_same|].
  destruct (Qeq_bool _ 0); stacks_same.
Qed.

Lemma toggle_draw_mode_effect st : stack_effect st (toggle_draw_mode st).
Proof.
  unfold toggle_draw_mode. destruct (draw_mode_active st); stacks_same.
Qed.

Lemma enter_add_object_mode_effect combo st :
  stack_effect st (enter_add_object_mode combo st).
Proof. unfold enter_add_object_mode. stacks_same. Qed.

Lemma delete_selected_item_effect st r :
  outcome (delete_selected_item st) r -> stack_effect st (state_of r).
Proof.
  unfold delete_selected_item. intros H.
  destruct (selected_item st) as [item|] eqn:Hsel;
    [|apply outcome_ret in H as ->; stacks_same].
  apply outcome_yesno in H as ([|] & H); apply outcome_ret in H as ->;
    [|stacks_same].
  unfold house_remove, furnishings_remove.
  destruct (cls _), (list_remove _ _); try stacks_same.
  - right; left; eexists; split; [|split];
      [proj; reflexivity | proj; reflexivity |].
    proj. apply label_ok_select_item. proj. rewrite Hsel. discriminate.
  - right; left; eexists; split; [|split];
      [proj; reflexivity | proj; reflexivity |].
    proj. apply label_ok_select_item. proj. rewrite Hsel. discriminate.
Qed.

Lemma edit_step_effect st st' : edit_step st st' -> stack_effect st st'.
Proof.
  intros H. destruct H.
  - apply move_selected_effect.
  - now apply prompt_add_room_precise_effect.
  - apply copy_room_effect.
  - apply paste_room_effect.
  - now apply generate_random_layout_effect.
  - eapply on_press_effect; eassumption.
  - apply on_motion_effect.
  - eapply on_release_effect; eassumption.
  - apply on_scroll_effect.
  - destruct (toggle_draw_mode_effect
                (set_draw_mode_active (negb (draw_mode_active st)) st))
      as [[E1 E2]|[(e & E1 & E2 & E3)|[E1 E2]]].
    + left. split; [now rewrite E1|now rewrite E2].
    + right; left. exists e. now rewrite E1, E2.
    + right; right. now rewrite E1, E2.
  - apply enter_add_object_mode_effect.
  - apply cancel_action_effect.
  - now apply clear_blueprint_effect with (c := true).
  - now apply delete_selected_item_effect.
  - stacks_same.
Qed.

Lemma snoc_neq {A} (l : list A) a : l ++ [a] <> l.
Proof.
  intros H. apply (f_equal length) in H. rewrite length_app in H.
  simpl in H. lia.
Qed.

(** C2. [log_action] pushes the entry on the undo stack and empties the
    redo stack whatever it held, so that [redo] right after it changes
    nothing; and whenever a gesture other than undo and redo changes the
    undo stack, the redo stack is empty afterwards and [redo] returns the
    state untouched. *)
Theorem commit_clears_redo_stack :
  (forall e st,
      history (log_action e st) = history st ++ [e]
      /\ redo_stack (log_action e st) = []
      /\ redo (log_action e st) = Ok (log_action e st))
  /\ (forall st st',
        edit_step st st' -> history st' <> history st ->
        redo_stack st' = [] /\ redo st' = Ok st').
Proof.
  split.
  - intros e st. split; [reflexivity|]. split; [reflexivity|].
    now apply redo_empty.
  - intros st st' Hstep Hne.
    assert (redo_stack st' = []) as Hr.
    { destruct (edit_step_effect _ _ Hstep)
        as [[Hh _]|[(e & _ & Hr & _)|[_ Hr]]]; [congruence|assumption..]. }
    split; [assumption|now apply redo_empty].
Qed.

(** ** Undo and redo, step by step *)

Lemma undo_snoc st hist action item s1 s2 :
  history st = hist ++ [(action, item, s1, s2)] ->
  undo st =
  and_then
    (match action with
     | add_room => house_remove item (set_history hist st)
     | delete_room =>
         restore_state item s1 (house_append item (set_history hist st))
     | edit_room => restore_state item s1 (set_history hist st)
     | add_obj => furnishings_remove item (set_history hist st)
     | delete_obj =>
         restore_state item s1 (furnishings_append item (set_history hist st))
     | edit_obj => restore_state item s1 (set_history hist st)
     end)
    (fun st =>
       Ok (draw_blueprint
             (update_buttons
                (set_redo_stack (redo_stack st ++ [(action, item, s1, s2)])
                   st)))).
Proof. intros H. unfold undo. now rewrite H, list_pop_snoc. Qed.

Lemma redo_snoc st rest action item s1 s2 :
  redo_stack st = rest ++ [(action, item, s1, s2)] ->
  redo st =
  and_then
    (match action with
     | add_room => Ok (house_append item (set_redo_stack rest st))
     | delete_room => house_remove item (set_redo_stack rest st)
     | edit_room => restore_state item s2 (set_redo_stack rest st)
     | add_obj => Ok (furnishings_append item (set_redo_stack rest st))
     | delete_obj => furnishings_remove item (set_redo_stack rest st)
     | edit_obj => restore_state item s2 (set_redo_stack rest st)
     end)
    (fun st =>
       Ok (draw_blueprint
             (update_buttons
                (set_history (history st ++ [(action, item, s1, s2)]) st)))).
Proof. intros H. unfold redo. now rewrite H, list_pop_snoc. Qed.

Lemma house_remove_elem item st :
  item ∈ house st ->
  exists h, list_remove item (house st) = Some h
            /\ house_remove item st = Ok (set_house h st).
Proof.
  intros Hin. destruct (list_remove_elem _ _ Hin) as (h & Hh).
  exists h. split; [assumption|]. unfold house_remove. now rewrite Hh.
Qed.

Lemma furnishings_remove_elem item st :
  item ∈ furnishings st ->
  exists f, list_remove item (furnishings st) = Some f
            /\ furnishings_remove item st = Ok (set_furnishings f st).
Proof.
  intros Hin. destruct (list_remove_elem _ _ Hin) as (f & Hf).
  exists f. split; [assumption|]. unfold furnishings_remove. now rewrite Hf.
Qed.

(** An effective [undo] either raises or ends with a redraw. *)
Lemma undo_redraws st hist e :
  history st = hist ++ [e] ->
  (exists err st', undo st = Raised err st')
  \/ (exists st', undo st = Ok (draw_blueprint st')).
Proof.
  destruct e as [[[action item] s1] s2]. intros H.
  rewrite (undo_snoc _ _ _ _ _ _ H).
  match goal with
  | |- context [and_then ?r _] => destruct r as [st1|err st1]
  end.
  - right. rewrite and_then_Ok. eauto.
  - left. rewrite and_then_Raised. eauto.
Qed.

Lemma redo_redraws st rest e :
  redo_stack st = rest ++ [e] ->
  (exists err st', redo st = Raised err st')
  \/ (exists st', redo st = Ok (draw_blueprint st')).
Proof.
  destruct e as [[[action item] s1] s2]. intros H.
  rewrite (redo_snoc _ _ _ _ _ _ H).
  match goal with
  | |- context [and_then ?r _] => destruct r as [st1|err st1]
  end.
  - right. rewrite and_then_Ok. eauto.
  - left. rewrite and_then_Raised. eauto.
Qed.

(** [undo] returns normally exactly on an undoable top entry. *)
Lemma undo_returns st hist e :
  history st = hist ++ [e] -> undoable e st ->
  exists st', undo st = Ok (draw_blueprint st').
Proof.
  destruct e as [[[action item] s1] s2]. intros H Hu.
  rewrite (undo_snoc _ _ _ _ _ _ H).
  destruct action; simpl in Hu.
  - destruct (house_remove_elem item (set_history hist st)) as (h & _ & ->);
      [now rewrite house_set_history|].
    rewrite and_then_Ok. eauto.
  - destruct Hu as [s ->]. unfold restore_state. rewrite and_then_Ok. eauto.
  - destruct Hu as [s ->]. unfold restore_state. rewrite and_then_Ok. eauto.
  - destruct (furnishings_remove_elem item (set_history hist st))
      as (h & _ & ->); [now rewrite furnishings_set_history|].
    rewrite and_then_Ok. eauto.
  - destruct Hu as [s ->]. unfold restore_state. rewrite and_then_Ok. eauto.
  - destruct Hu as [s ->]. unfold restore_state. rewrite and_then_Ok. eauto.
Qed.

Lemma redo_returns st rest e :
  redo_stack st = rest ++ [e] -> redoable e st ->
  exists st', redo st = Ok (draw_blueprint st').
Proof.
  destruct e as [[[action item] s1] s2]. intros H Hu.
  rewrite (redo_snoc _ _ _ _ _ _ H).
  destruct action; simpl in Hu.
  - rewrite and_then_Ok. eauto.
  - destruct (house_remove_elem item (set_redo_stack rest st)) as (h & _ & ->);
      [now rewrite house_set_redo_stack|].
    rewrite and_then_Ok. eauto.
  - destruct Hu as [s ->]. unfold restore_state. rewrite and_then_Ok. eauto.
  - rewrite and_then_Ok. eauto.
  - destruct (furnishings_remove_elem item (set_redo_stack rest st))
      as (h & _ & ->); [now rewrite furnishings_set_redo_stack|].
    rewrite and_then_Ok. eauto.
  - destruct Hu as [s ->]. unfold restore_state. rewrite and_then_Ok. eauto.
Qed.

(** ** The total area label *)



(** ** The object store *)

Lemma obj_store_new sh st st' :
  heap st' = heap st ++ [sh] -> obj st' (new_ref st) = sh.
Proof.
  intros H. unfold obj, new_ref. rewrite H.
  now apply list_lookup_total_middle.
Qed.

Lemma obj_store_old sh st st' i :
  heap st' = heap st ++ [sh] -> (i < length (heap st))%nat ->
  obj st' i = obj st i.
Proof.
  intros H Hi. unfold obj. rewrite H. now apply lookup_total_app_l.
Qed.

Lemma obj_same_heap st st' i : heap st' = heap st -> obj st' i = obj st i.
Proof. intros H. unfold obj. now rewrite H. Qed.

Lemma get_state_new_shape c s : get_state (new_shape c s) = s.
Proof. destruct s as [[[[n sx] sy] w] h]. reflexivity. Qed.

Lemma cls_new_shape c s : cls (new_shape c s) = c.
Proof. destruct s as [[[[n sx] sy] w] h]. reflexivity. Qed.

Lemma get_state_update_state s sh : get_state (update_state s sh) = s.
Proof. destruct s as [[[[n sx] sy] w] h]. reflexivity. Qed.

Lemma cls_update_state s sh : cls (update_state s sh) = cls sh.
Proof. destruct s as [[[[n sx] sy] w] h]. reflexivity. Qed.

(** Writing back the state an object already has changes nothing. *)
Lemma update_state_same sh : update_state (get_state sh) sh = sh.
Proof. destruct sh. reflexivity. Qed.

Lemma update_state_twice s t sh :
  update_state s (update_state t sh) = update_state s sh.
Proof.
  destruct s as [[[[n sx] sy] w] h], t as [[[[n' sx'] sy'] w'] h'].
  reflexivity.
Qed.

Lemma fresh_not_in (l : list nat) (n : nat) :
  (forall i, i ∈ l -> (i < n)%nat) -> n ∉ l.
Proof. intros H Hin. apply H in Hin. lia. Qed.

Lemma house_remove_snoc item h st :
  house st = h ++ [item] -> item ∉ h ->
  house_remove item st = Ok (set_house h st).
Proof.
  intros H Hn. unfold house_remove. now rewrite H, list_remove_snoc.
Qed.

Lemma furnishings_remove_snoc item f st :
  furnishings st = f ++ [item] -> item ∉ f ->
  furnishings_remove item st = Ok (set_furnishings f st).
Proof.
  intros H Hn. unfold furnishings_remove. now rewrite H, list_remove_snoc.
Qed.

(** ** Copy and paste *)

(** C4. Copying the selected room A stores its state tuple.  Pasting, in
    any state whose clipboard holds that tuple, creates exactly one new
    object: a room named after A with "(copy)" appended, with A's width and
    height at copy time, whose origin is the centre of the current view.
    It is appended to [house], selected, and committed as one [add_room]
    entry.  Undoing right away takes exactly that room out of [house]
    again and leaves every older object, A included, as it was. *)
Theorem copy_paste_room (st : App) (A : nat) (n : string) (ax ay w h : Q) :
  selected_item st = Some A ->
  cls (obj st A) = Room ->
  get_state (obj st A) = (n, ax, ay, w, h) ->
  (clipboard (copy_room st) = Some (n, ax, ay, w, h)
   /\ heap (copy_room st) = heap st
   /\ house (copy_room st) = house st
   /\ history (copy_room st) = history st)
  /\ forall st',
      clipboard st' = Some (n, ax, ay, w, h) ->
      (forall i, i ∈ house st' -> (i < length (heap st'))%nat) ->
      let new_room := length (heap st') in
      let copy :=
        mkShape Room (n +:+ "(copy)")
          ((fst (xlim st') + snd (xlim st')) / 2)
          ((fst (ylim st') + snd (ylim st')) / 2) w h in
      heap (paste_room st') = heap st' ++ [copy]
      /\ house (paste_room st') = house st' ++ [new_room]
      /\ furnishings (paste_room st') = furnishings st'
      /\ history (paste_room st') =
         history st' ++ [(add_room, new_room, Some (get_state copy), None)]
      /\ selected_item (paste_room st') = Some new_room
      /\ exists st3,
          undo (paste_room st') = Ok st3
          /\ house st3 = house st'
          /\ furnishings st3 = furnishings st'
          /\ history st3 = history st'
          /\ heap st3 = heap st' ++ [copy]
          /\ forall i, (i < length (heap st'))%nat -> obj st3 i = obj st' i.
Proof.
  intros Hsel Hroom Hstate. split.
  - unfold copy_room. rewrite Hsel. unfold is_room. rewrite Hroom.
    rewrite bool_decide_eq_true_2 by reflexivity.
    proj. rewrite Hstate. auto.
  - intros st' Hclip Hrefs new_room copy.
    assert (Hheap : heap (paste_room st') = heap st' ++ [copy]).
    { unfold paste_room. rewrite Hclip. proj. reflexivity. }
    assert (Hhouse : house (paste_room st') = house st' ++ [new_room]).
    { unfold paste_room. rewrite Hclip. proj. reflexivity. }
    assert (Hfurn : furnishings (paste_room st') = furnishings st').
    { unfold paste_room. rewrite Hclip. proj. reflexivity. }
    assert (Hhist : history (paste_room st') =
                    history st'
                    ++ [(add_room, new_room, Some (get_state copy), None)]).
    { unfold paste_room. rewrite Hclip. proj.
      rewrite (obj_store_new (new_shape Room
                 (n +:+ "(copy)", ((xlim st').1 + (xlim st').2) / 2,
                  ((ylim st').1 + (ylim st').2) / 2, w, h)) st')
        by (proj; reflexivity).
      reflexivity. }
    assert (Hredo : redo_stack (paste_room st') = []).
    { unfold paste_room. rewrite Hclip. proj. reflexivity. }
    split; [assumption|]. split; [assumption|]. split; [assumption|].
    split; [assumption|]. split.
    { unfold paste_room. rewrite Hclip. proj. reflexivity. }
    rewrite (undo_snoc _ _ _ _ _ _ Hhist).
    rewrite (house_remove_snoc new_room (house st'))
      by first [now apply fresh_not_in | proj; assumption].
    rewrite and_then_Ok. cbv beta. eexists. split; [reflexivity|].
    proj. repeat split; try assumption.
    intros i Hi. apply (obj_store_old copy); [|assumption].
    proj. assumption.
Qed.

Lemma copy_paste_room_witness :
  clipboard (copy_room room_A_selected) = Some room_A
  /\ house (paste_room (copy_room room_A_selected)) = [0; 1]%nat.
Proof.
  destruct (copy_paste_room room_A_selected 0 "A" 0 0 10 10)
    as [[Hc _] Hp]; [vm_compute; reflexivity..|].
  split; [exact Hc|].
  destruct (Hp (copy_room room_A_selected)) as (_ & Hh & _).
  - vm_compute; reflexivity.
  - intros i Hi. vm_compute in Hi.
    apply elem_of_cons in Hi as [->|Hi]; [vm_compute; lia|].
    now apply elem_of_nil in Hi.
  - exact Hh.
Defined.

(** ** Releasing the pointer after drawing a room *)

Lemma py_min_corner a d :
  py_min a (a + d) <= a
  /\ py_min a (a + d) <= a + d
  /\ py_min a (a + d) + Qabs d == py_max a (a + d).
Proof.
  split; [apply py_min_lower_l|]. split; [apply py_min_lower_r|].
  unfold py_min, py_max.
  destruct (Qlt_bool (a + d) a) eqn:E1, (Qlt_bool a (a + d)) eqn:E2;
    try apply Qlt_bool_iff in E1; try apply Qlt_bool_iff in E2;
    try apply Qlt_bool_false_iff in E1; try apply Qlt_bool_false_iff in E2.
  - lra.
  - rewrite Qabs_neg by lra. ring.
  - rewrite Qabs_pos by lra. ring.
  - assert (d == 0) as -> by lra. rewrite Qabs_pos by lra. ring.
Qed.

Lemma truthy_Some_nonempty nm : nm <> "" -> truthy (Some nm) = true.
Proof. destruct nm; [congruence|reflexivity]. Qed.

(** C8. Releasing the pointer in [drawing_room] with ghost rectangle
    [w x h] anchored at [(sx, sy)]: when [|w| > 1] and [|h| > 1] the user
    is asked for a name, and a non-empty answer creates the room
    [(name, min(sx, sx + w), min(sy, sy + h), |w|, |h|)], appended to
    [house] and committed as one [add_room] entry, while no answer or an
    empty one creates nothing; when [|w| <= 1] or [|h| <= 1] nobody is
    asked and nothing is created or committed.  The ghost is gone and the
    action is over in every case.  The normalised rectangle has its origin
    at the minimum corner and covers the dragged area. *)
Theorem release_after_drawing
    (event : MouseEvent) (st : App) (g : Rectangle) (sx sy : Q) :
  current_action st = Some drawing_room ->
  ghost_rect st = Some g ->
  action_start_xy st = Some (sx, sy) ->
  let w := rect_width g in
  let h := rect_height g in
  let x_start := py_min sx (sx + w) in
  let y_start := py_min sy (sy + h) in
  let nr := length (heap st) in
  (1 < Qabs w -> 1 < Qabs h ->
   exists k,
     on_release event st = AskString "Room Name" "Enter a name:" k
     /\ (forall nm, nm <> "" ->
         exists st',
           k (Some nm) = Ret (Ok st')
           /\ heap st' =
              heap st ++ [mkShape Room nm x_start y_start (Qabs w) (Qabs h)]
           /\ house st' = house st ++ [nr]
           /\ history st' =
              history st
              ++ [(add_room, nr,
                   Some (nm, x_start, y_start, Qabs w, Qabs h), None)]
           /\ redo_stack st' = []
           /\ ghost_rect st' = None
           /\ current_action st' = None)
     /\ (forall answer, answer = None \/ answer = Some "" ->
         exists st',
           k answer = Ret (Ok st')
           /\ heap st' = heap st /\ house st' = house st
           /\ history st' = history st /\ redo_stack st' = redo_stack st
           /\ ghost_rect st' = None
           /\ current_action st' = None))
  /\ (~ (1 < Qabs w /\ 1 < Qabs h) ->
      exists st',
        on_release event st = Ret (Ok st')
        /\ heap st' = heap st /\ house st' = house st
        /\ history st' = history st /\ redo_stack st' = redo_stack st
        /\ ghost_rect st' = None
        /\ current_action st' = None)
  /\ (x_start <= sx /\ x_start <= sx + w
      /\ x_start + Qabs w == py_max sx (sx + w))
  /\ (y_start <= sy /\ y_start <= sy + h
      /\ y_start + Qabs h == py_max sy (sy + h)).
Proof.
  intros Hact Hghost Hstart w h x_start y_start nr.
  split; [|split; [|split]].
  - intros Hw Hh.
    apply Qlt_bool_iff in Hw, Hh.
    unfold on_release. rewrite Hact, Hghost. cbv zeta.
    fold w h. rewrite Hw, Hh, Hstart. cbn [andb].
    eexists. split; [reflexivity|]. split.
    + intros nm Hnm. cbv beta.
      rewrite (truthy_Some_nonempty nm Hnm). cbn [default from_option].
      eexists. split; [reflexivity|].
      proj.
      rewrite (obj_store_new
                 (new_shape Room (nm, x_start, y_start, Qabs w, Qabs h)) st)
        by (proj; reflexivity).
      repeat split.
    + intros answer [->| ->]; cbv beta; cbn [truthy];
        (eexists; split; [reflexivity|]); proj; repeat split.
  - intros Hsmall.
    assert (Qlt_bool 1 (Qabs w) && Qlt_bool 1 (Qabs h) = false) as Hb.
    { apply andb_false_iff.
      destruct (Qlt_bool 1 (Qabs w)) eqn:Ew; [|now left].
      destruct (Qlt_bool 1 (Qabs h)) eqn:Eh; [|now right].
      apply Qlt_bool_iff in Ew, Eh. tauto. }
    unfold on_release. rewrite Hact, Hghost. cbv zeta.
    fold w h. rewrite Hb.
    eexists. split; [reflexivity|]. proj. repeat split.
  - apply py_min_corner.
  - apply py_min_corner.
Qed.

Lemma release_after_drawing_witness :
  exists k,
    on_release (pointer 6 1) drawing_dragged
    = AskString "Room Name" "Enter a name:" k.
Proof.
  destruct (release_after_drawing (pointer 6 1) drawing_dragged
              (mkRectangle (2, 3) 4 (-2)) 2 3)
    as (Hask & _); [vm_compute; reflexivity..|].
  destruct Hask as (k & Hk & _); [reflexivity..|].
  exists k. exact Hk.
Defined.

(** ** Destructive operations *)

(** Generating starts by drawing the first random number, whatever the
    state. *)
Lemma generate_rooms_draws st : exists k, generate_rooms st = Random k.
Proof.
  unfold generate_rooms, mbind, Eff_bind, clear_blueprint, uniform.
  cbn [bind]. eexists. reflexivity.
Qed.

(** C9 (as stated, refuted). With an empty house, [generate_random_layout]
    asks nothing: the placed sofa and the whole history are wiped by every
    run of it. *)
Lemma generate_wipes_furnishings_unasked :
  ~ (forall st,
        reachable st ->
        house st <> [] \/ furnishings st <> [] ->
        asks_confirmation (generate_random_layout st) st).
Proof.
  intros H.
  destruct (H sofa_placed) as (t & m & k & Hgen & _).
  - eapply reach_step; [eapply reach_step; [apply reach_init|]|].
    + apply step_edit. apply (es_object_button "Sofa"). vm_compute. eauto.
    + apply step_edit.
      apply (es_press (pointer 10 10) (enter_add_object_mode "Sofa" init)
               (run (submits room_A)
                  (on_press (pointer 10 10)
                     (enter_add_object_mode "Sofa" init)))).
      apply run_outcome.
  - right. vm_compute. discriminate.
  - unfold generate_random_layout in Hgen.
    replace (house sofa_placed) with (@nil nat) in Hgen
      by (vm_compute; reflexivity).
    destruct (generate_rooms_draws sofa_placed) as (k' & Hk).
    rewrite Hk in Hgen. discriminate Hgen.
Qed.

Lemma furnishings_append_room s st :
  furnishings (append_room s st) = furnishings st.
Proof. reflexivity. Qed.

Lemma clear_all_empties st :
  house (clear_all st) = [] /\ furnishings (clear_all st) = []
  /\ history (clear_all st) = [] /\ redo_stack (clear_all st) = []
  /\ selected_item (clear_all st) = None
  /\ heap (clear_all st) = heap st.
Proof. unfold clear_all. proj. repeat split. Qed.

Lemma generate_rooms_clears st st' :
  outcome (generate_rooms st) st' ->
  furnishings st' = [] /\ history st' = [] /\ redo_stack st' = [].
Proof.
  unfold generate_rooms, mbind, Eff_bind, mret, Eff_ret. intros H.
  apply outcome_bind in H as (st0 & H0 & H).
  apply outcome_ret in H0 as ->.
  repeat (apply outcome_bind in H as (? & _ & H)).
  apply outcome_ret in H as ->.
  destruct (clear_all_empties st) as (_ & Hf & Hh & Hr & _).
  rewrite furnishings_draw_blueprint, history_draw_blueprint,
    redo_stack_draw_blueprint, furnishings_update_buttons,
    history_update_buttons, redo_stack_update_buttons.
  rewrite !furnishings_append_room, !history_append_room,
    !redo_stack_append_room.
  auto.
Qed.

(** C9 (amended). Deleting the selected shape, clearing everything and
    regenerating the layout over a non-empty house each start with a
    yes/no question, and so does the Delete button of a properties dialog;
    answering "no" ends the operation in the very state it started from.
    With nothing selected, deleting does nothing at all. *)
Theorem destructive_operations_ask (st : App) :
  (forall item,
      selected_item st = Some item ->
      asks_confirmation (delete_selected_item st) (Ok st))
  /\ (selected_item st = None -> delete_selected_item st = Ret (Ok st))
  /\ asks_confirmation (clear_blueprint true st) st
  /\ (house st <> [] -> asks_confirmation (generate_random_layout st) st)
  /\ asks_confirmation on_delete None.
Proof.
  unfold asks_confirmation.
  split; [|split; [|split; [|split]]].
  - intros item Hsel. unfold delete_selected_item. rewrite Hsel.
    do 3 eexists. split; reflexivity.
  - intros Hsel. unfold delete_selected_item. now rewrite Hsel.
  - unfold clear_blueprint. do 3 eexists. split; reflexivity.
  - intros Hne. unfold generate_random_layout.
    destruct (house st); [congruence|].
    do 3 eexists. split; reflexivity.
  - unfold on_delete. do 3 eexists. split; reflexivity.
Qed.

Lemma destructive_operations_ask_witness :
  asks_confirmation (generate_random_layout room_A_added) room_A_added.
Proof.
  apply (destructive_operations_ask room_A_added).
  vm_compute. discriminate.
Defined.

(** ** Single undo and redo steps *)

Lemma alter_update_state_same (l : list Shape) i s :
  get_state (l !!! i) = s -> alter (update_state s) i l = l.
Proof.
  intros H. rewrite <- (list_alter_id id l i) at 2 by reflexivity.
  apply list_alter_ext; [|reflexivity].
  intros sh Hsh. apply list_lookup_total_correct in Hsh.
  rewrite Hsh in H. subst s. apply update_state_same.
Qed.

Lemma alter_update_state_twice (l : list Shape) i s t :
  alter (update_state s) i (alter (update_state t) i l)
  = alter (update_state s) i l.
Proof.
  rewrite list_alter_alter_eq. apply list_alter_ext; [|reflexivity].
  intros sh _. apply update_state_twice.
Qed.

Lemma get_state_alter (l : list Shape) i s :
  (i < length l)%nat -> get_state (alter (update_state s) i l !!! i) = s.
Proof.
  intros Hi. rewrite list_lookup_total_alter_eq by assumption.
  apply get_state_update_state.
Qed.

Lemma undo_add_room st hist item s1 s2 h :
  history st = hist ++ [(add_room, item, s1, s2)] ->
  list_remove item (house st) = Some h ->
  exists st1,
    undo st = Ok st1
    /\ model_is st1 (heap st) h (furnishings st) (selected_item st) hist
         (redo_stack st ++ [(add_room, item, s1, s2)]).
Proof.
  intros H Hh. rewrite (undo_snoc _ _ _ _ _ _ H).
  unfold house_remove. rewrite house_set_history, Hh, and_then_Ok.
  eexists. split; [reflexivity|]. unfold model_is. proj. repeat split.
Qed.

Lemma undo_add_obj st hist item s1 s2 f :
  history st = hist ++ [(add_obj, item, s1, s2)] ->
  list_remove item (furnishings st) = Some f ->
  exists st1,
    undo st = Ok st1
    /\ model_is st1 (heap st) (house st) f (selected_item st) hist
         (redo_stack st ++ [(add_obj, item, s1, s2)]).
Proof.
  intros H Hf. rewrite (undo_snoc _ _ _ _ _ _ H).
  unfold furnishings_remove.
  rewrite furnishings_set_history, Hf, and_then_Ok.
  eexists. split; [reflexivity|]. unfold model_is. proj. repeat split.
Qed.

Lemma undo_delete_room st hist item s s2 :
  history st = hist ++ [(delete_room, item, Some s, s2)] ->
  exists st1,
    undo st = Ok st1
    /\ model_is st1 (alter (update_state s) item (heap st))
         (house st ++ [item]) (furnishings st) (selected_item st) hist
         (redo_stack st ++ [(delete_room, item, Some s, s2)]).
Proof.
  intros H. rewrite (undo_snoc _ _ _ _ _ _ H).
  unfold restore_state. rewrite and_then_Ok.
  eexists. split; [reflexivity|]. unfold model_is. proj. repeat split.
Qed.

Lemma undo_delete_obj st hist item s s2 :
  history st = hist ++ [(delete_obj, item, Some s, s2)] ->
  exists st1,
    undo st = Ok st1
    /\ model_is st1 (alter (update_state s) item (heap st))
         (house st) (furnishings st ++ [item]) (selected_item st) hist
         (redo_stack st ++ [(delete_obj, item, Some s, s2)]).
Proof.
  intros H. rewrite (undo_snoc _ _ _ _ _ _ H).
  unfold restore_state. rewrite and_then_Ok.
  eexists. split; [reflexivity|]. unfold model_is. proj. repeat split.
Qed.

Lemma undo_edit st hist action item s s2 :
  action = edit_room \/ action = edit_obj ->
  history st = hist ++ [(action, item, Some s, s2)] ->
  exists st1,
    undo st = Ok st1
    /\ model_is st1 (alter (update_state s) item (heap st))
         (house st) (furnishings st) (selected_item st) hist
         (redo_stack st ++ [(action, item, Some s, s2)]).
Proof.
  intros [-> | ->] H; rewrite (undo_snoc _ _ _ _ _ _ H);
    unfold restore_state; rewrite and_then_Ok;
    (eexists; split; [reflexivity|]); unfold model_is; proj; repeat split.
Qed.

Lemma redo_add_room st rest item s1 s2 :
  redo_stack st = rest ++ [(add_room, item, s1, s2)] ->
  exists st1,
    redo st = Ok st1
    /\ model_is st1 (heap st) (house st ++ [item]) (furnishings st)
         (selected_item st) (history st ++ [(add_room, item, s1, s2)]) rest.
Proof.
  intros H. rewrite (redo_snoc _ _ _ _ _ _ H), and_then_Ok.
  eexists. split; [reflexivity|]. unfold model_is. proj. repeat split.
Qed.

Lemma redo_add_obj st rest item s1 s2 :
  redo_stack st = rest ++ [(add_obj, item, s1, s2)] ->
  exists st1,
    redo st = Ok st1
    /\ model_is st1 (heap st) (house st) (furnishings st ++ [item])
         (selected_item st) (history st ++ [(add_obj, item, s1, s2)]) rest.
Proof.
  intros H. rewrite (redo_snoc _ _ _ _ _ _ H), and_then_Ok.
  eexists. split; [reflexivity|]. unfold model_is. proj. repeat split.
Qed.

Lemma redo_delete_room st rest item s1 s2 h :
  redo_stack st = rest ++ [(delete_room, item, s1, s2)] ->
  list_remove item (house st) = Some h ->
  exists st1,
    redo st = Ok st1
    /\ model_is st1 (heap st) h (furnishings st) (selected_item st)
         (history st ++ [(delete_room, item, s1, s2)]) rest.
Proof.
  intros H Hh. rewrite (redo_snoc _ _ _ _ _ _ H).
  unfold house_remove. rewrite house_set_redo_stack, Hh, and_then_Ok.
  eexists. split; [reflexivity|]. unfold model_is. proj. repeat split.
Qed.

Lemma redo_delete_obj st rest item s1 s2 f :
  redo_stack st = rest ++ [(delete_obj, item, s1, s2)] ->
  list_remove item (furnishings st) = Some f ->
  exists st1,
    redo st = Ok st1
    /\ model_is st1 (heap st) (house st) f (selected_item st)
         (history st ++ [(delete_obj, item, s1, s2)]) rest.
Proof.
  intros H Hf. rewrite (redo_snoc _ _ _ _ _ _ H).
  unfold furnishings_remove.
  rewrite furnishings_set_redo_stack, Hf, and_then_Ok.
  eexists. split; [reflexivity|]. unfold model_is. proj. repeat split.
Qed.

Lemma redo_edit st rest action item s1 s :
  action = edit_room \/ action = edit_obj ->
  redo_stack st = rest ++ [(action, item, s1, Some s)] ->
  exists st1,
    redo st = Ok st1
    /\ model_is st1 (alter (update_state s) item (heap st))
         (house st) (furnishings st) (selected_item st)
         (history st ++ [(action, item, s1, Some s)]) rest.
Proof.
  intros [-> | ->] H; rewrite (redo_snoc _ _ _ _ _ _ H);
    unfold restore_state; rewrite and_then_Ok;
    (eexists; split; [reflexivity|]); unfold model_is; proj; repeat split.
Qed.

(** ** Undo followed by redo, and redo followed by undo *)

Lemma remove_snoc_perm item (l h : list nat) :
  list_remove item (l ++ [item]) = Some h -> h ≡ₚ l.
Proof.
  intros H. apply list_remove_perm in H.
  apply (Permutation_cons_inv (a := item)).
  rewrite <- H. symmetry. apply Permutation_cons_append.
Qed.

Lemma remove_then_snoc_perm item (l h : list nat) :
  list_remove item l = Some h -> h ++ [item] ≡ₚ l.
Proof.
  intros H. apply list_remove_perm in H. rewrite H.
  symmetry. apply Permutation_cons_append.
Qed.

Lemma obj_alter_same st st' item s :
  heap st' = alter (update_state s) item (heap st) ->
  get_state (obj st item) = s ->
  heap st' = heap st.
Proof. intros H Hs. rewrite H. now apply alter_update_state_same. Qed.

Ltac open_model H :=
  let Hhp := fresh "Hhp" in
  let Hhs := fresh "Hhs" in
  let Hfs := fresh "Hfs" in
  let Hsel := fresh "Hsel" in
  let Hhist := fresh "Hhist" in
  let Hrs := fresh "Hrs" in
  destruct H as (Hhp & Hhs & Hfs & Hsel & Hhist & Hrs).



Lemma drag_abandoned_reachable : reachable drag_abandoned.
Proof.
  unfold drag_abandoned.
  eapply reach_step;
    [|apply step_edit;
      apply (es_release (pointer 8.25 5) (cancel_action true drag_moved)
               (run (submits room_A)
                  (on_release (pointer 8.25 5)
                     (cancel_action true drag_moved))));
      apply run_outcome].
  eapply reach_step; [|apply step_edit; apply es_escape].
  unfold drag_moved.
  eapply reach_step; [|apply step_edit; apply es_motion].
  unfold drag_started.
  eapply reach_step;
    [|apply step_edit;
      apply (es_press (pointer 5.25 5) room_A_nudged
               (run (submits room_A)
                  (on_press (pointer 5.25 5) room_A_nudged)));
      apply run_outcome].
  unfold room_A_nudged.
  eapply reach_step; [|apply step_edit; apply es_move].
  unfold room_A_selected.
  eapply reach_step;
    [|apply step_edit;
      apply (es_release (pointer 0.5 5)
               (state_of
                  (run (submits room_A)
                     (on_press (pointer 0.5 5) room_A_added)))
               (run (submits room_A)
                  (on_release (pointer 0.5 5)
                     (state_of
                        (run (submits room_A)
                           (on_press (pointer 0.5 5) room_A_added))))));
      apply run_outcome].
  eapply reach_step;
    [|apply step_edit;
      apply (es_press (pointer 0.5 5) room_A_added
               (run (submits room_A)
                  (on_press (pointer 0.5 5) room_A_added)));
      apply run_outcome].
  unfold room_A_added.
  eapply reach_step; [apply reach_init|].
  apply step_edit. apply es_add_room. apply run_outcome.
Qed.


(** ** Deleting and undoing the deletion *)

Lemma find_rev_snoc {A} (f : A -> bool) (l : list A) a :
  f a = true -> find f (rev (l ++ [a])) = Some a.
Proof. intros H. rewrite rev_unit. simpl. now rewrite H. Qed.

Lemma find_rev_later {A} (f : A -> bool) (l1 l2 : list A) a b :
  b ∈ l2 -> f b = true ->
  exists r, find f (rev (l1 ++ a :: l2)) = Some r /\ r ∈ l2.
Proof.
  intros Hb Hfb.
  rewrite rev_app_distr. simpl. rewrite <- app_assoc, find_app_split.
  destruct (find f (rev l2)) as [r|] eqn:E.
  - apply find_hit in E as [Hr _]. exists r. split; [reflexivity|].
    apply list_elem_of_In. apply in_rev. now apply list_elem_of_In.
  - exfalso. rewrite find_all_false in E.
    rewrite (E b) in Hfb; [discriminate|].
    apply list_elem_of_In. apply -> in_rev. now apply list_elem_of_In.
Qed.

Lemma find_rev_shadowed {A} (f : A -> bool) (l1 l2 : list A) a b :
  b ∈ l2 -> f b = true -> a ∉ l2 ->
  find f (rev (l1 ++ a :: l2)) <> Some a.
Proof.
  intros Hb Hfb Ha.
  destruct (find_rev_later f l1 l2 a b Hb Hfb) as (r & -> & Hr).
  intros [= ->]. contradiction.
Qed.

Lemma moved_to_end_differs (l1 l2 : list nat) item :
  item ∉ l2 -> l2 <> [] -> l1 ++ l2 ++ [item] <> l1 ++ item :: l2.
Proof.
  intros Hn Hne H. apply app_inv_head in H.
  destruct l2 as [|b l2]; [congruence|].
  simpl in H. injection H as -> _.
  apply Hn. apply elem_of_cons. auto.
Qed.

Lemma find_none_rev {A} (f : A -> bool) (l : list A) :
  (forall a, a ∈ l -> f a = false) -> find f (rev l) = None.
Proof.
  intros H. apply find_all_false. intros a Ha. apply H.
  apply list_elem_of_In. apply in_rev. now apply list_elem_of_In.
Qed.

(** C10. Undoing a [delete_room] or [delete_obj] entry appends the item
    at the end of [house] or [furnishings] and gives it back the state it
    had when deleted.  So when the selected shape, which stands before
    other shapes in its collection, is deleted and the deletion undone,
    it comes back as the last element, every shape is in the state it had,
    and the collection is no longer the same list; at a point it shares
    with a later shape of the collection, [find_item_at] did not return it
    before and returns it afterwards. *)
Theorem undo_delete_reinserts_last :
  (forall st hist item s s2,
      history st = hist ++ [(delete_room, item, Some s, s2)] ->
      (item < length (heap st))%nat ->
      exists st',
        undo st = Ok st'
        /\ house st' = house st ++ [item]
        /\ furnishings st' = furnishings st
        /\ get_state (obj st' item) = s)
  /\ (forall st hist item s s2,
        history st = hist ++ [(delete_obj, item, Some s, s2)] ->
        (item < length (heap st))%nat ->
        exists st',
          undo st = Ok st'
          /\ furnishings st' = furnishings st ++ [item]
          /\ house st' = house st
          /\ get_state (obj st' item) = s)
  /\ (forall st item l1 l2,
        selected_item st = Some item ->
        cls (obj st item) = Room ->
        house st = l1 ++ item :: l2 -> item ∉ l1 -> item ∉ l2 ->
        exists title message k st1 st2,
          delete_selected_item st = AskYesNo title message k
          /\ k true = Ret (Ok st1)
          /\ house st1 = l1 ++ l2
          /\ undo st1 = Ok st2
          /\ house st2 = l1 ++ l2 ++ [item]
          /\ furnishings st2 = furnishings st
          /\ heap st2 = heap st
          /\ (l2 <> [] -> house st2 <> house st)
          /\ forall px py other,
              other ∈ l2 ->
              contains (obj st item) px py = true ->
              contains (obj st other) px py = true ->
              (forall o, o ∈ furnishings st ->
                         contains (obj st o) px py = false) ->
              find_item_at st px py <> Some item
              /\ find_item_at st2 px py = Some item)
  /\ (forall st item l1 l2,
        selected_item st = Some item ->
        cls (obj st item) = BlueprintObject ->
        furnishings st = l1 ++ item :: l2 -> item ∉ l1 -> item ∉ l2 ->
        exists title message k st1 st2,
          delete_selected_item st = AskYesNo title message k
          /\ k true = Ret (Ok st1)
          /\ furnishings st1 = l1 ++ l2
          /\ undo st1 = Ok st2
          /\ furnishings st2 = l1 ++ l2 ++ [item]
          /\ house st2 = house st
          /\ heap st2 = heap st
          /\ (l2 <> [] -> furnishings st2 <> furnishings st)
          /\ forall px py other,
              other ∈ l2 ->
              contains (obj st item) px py = true ->
              contains (obj st other) px py = true ->
              find_item_at st px py <> Some item
              /\ find_item_at st2 px py = Some item).
Proof.
  split; [|split; [|split]].
  - intros st hist item s s2 H Hv.
    destruct (undo_delete_room _ _ _ _ _ H) as (st' & Hu & M). open_model M.
    exists st'. repeat split; try assumption.
    unfold obj. rewrite Hhp. now apply get_state_alter.
  - intros st hist item s s2 H Hv.
    destruct (undo_delete_obj _ _ _ _ _ H) as (st' & Hu & M). open_model M.
    exists st'. repeat split; try assumption.
    unfold obj. rewrite Hhp. now apply get_state_alter.
  - intros st item l1 l2 Hsel Hcls Hhouse Hn1 Hn2.
    unfold delete_selected_item. rewrite Hsel.
    do 3 eexists.
    exists (select_item None
              (log_action
                 (delete_room, item, Some (get_state (obj st item)), None)
                 (set_house (l1 ++ l2) st))).
    assert (Hhist : history
              (select_item None
                 (log_action
                    (delete_room, item, Some (get_state (obj st item)), None)
                    (set_house (l1 ++ l2) st)))
            = history st
              ++ [(delete_room, item, Some (get_state (obj st item)), None)])
      by (proj; reflexivity).
    destruct (undo_delete_room _ _ _ _ _ Hhist) as (st2 & Hu & M).
    open_model M. revert Hhp Hhs Hfs. proj. intros Hhp Hhs Hfs.
    rewrite alter_update_state_same in Hhp by reflexivity.
    rewrite <- app_assoc in Hhs.
    exists st2. split; [reflexivity|]. split.
    { cbv beta. cbn [negb]. rewrite Hcls. unfold house_remove.
      rewrite Hhouse, list_remove_middle by assumption.
      rewrite !and_then_Ok. reflexivity. }
    split; [proj; reflexivity|]. split; [assumption|].
    split; [assumption|]. split; [assumption|]. split; [assumption|].
    split.
    { intros Hne. rewrite Hhs, Hhouse. now apply moved_to_end_differs. }
    intros px py other Hother Hitem Hhit Hfurn. split.
    + unfold find_item_at. rewrite find_none_rev by assumption.
      rewrite Hhouse. now apply find_rev_shadowed with (b := other).
    + unfold find_item_at, obj. rewrite Hhp, Hfs, Hhs.
      fold (obj st). rewrite find_none_rev by assumption.
      rewrite app_assoc. now apply find_rev_snoc.
  - intros st item l1 l2 Hsel Hcls Hfurn Hn1 Hn2.
    unfold delete_selected_item. rewrite Hsel.
    do 3 eexists.
    exists (select_item None
              (log_action
                 (delete_obj, item, Some (get_state (obj st item)), None)
                 (set_furnishings (l1 ++ l2) st))).
    assert (Hhist : history
              (select_item None
                 (log_action
                    (delete_obj, item, Some (get_state (obj st item)), None)
                    (set_furnishings (l1 ++ l2) st)))
            = history st
              ++ [(delete_obj, item, Some (get_state (obj st item)), None)])
      by (proj; reflexivity).
    destruct (undo_delete_obj _ _ _ _ _ Hhist) as (st2 & Hu & M).
    open_model M. revert Hhp Hhs Hfs. proj. intros Hhp Hhs Hfs.
    rewrite alter_update_state_same in Hhp by reflexivity.
    rewrite <- app_assoc in Hfs.
    exists st2. split; [reflexivity|]. split.
    { cbv beta. cbn [negb]. rewrite Hcls. unfold furnishings_remove.
      rewrite Hfurn, list_remove_middle by assumption.
      rewrite !and_then_Ok. reflexivity. }
    split; [proj; reflexivity|]. split; [assumption|].
    split; [assumption|]. split; [assumption|]. split; [assumption|].
    split.
    { intros Hne. rewrite Hfs, Hfurn. now apply moved_to_end_differs. }
    intros px py other Hother Hitem Hhit. split.
    + unfold find_item_at. rewrite Hfurn.
      destruct (find_rev_later (fun o => contains (obj st o) px py)
                  l1 l2 item other Hother Hhit) as (r & -> & Hr).
      intros [= ->]. contradiction.
    + unfold find_item_at, obj. rewrite Hhp, Hfs, Hhs.
      fold (obj st). rewrite app_assoc.
      now rewrite find_rev_snoc.
Qed.

(** ** The theorems at work on the scenarios *)

Lemma find_item_at_scan_order_witness :
  find_item_at two_objects 10 10 = Some 1%nat.
Proof.
  destruct (find_item_at_scan_order two_objects 10 10) as (_ & Hlast & _).
  apply (Hlast [0%nat] 1%nat []).
  - vm_compute. reflexivity.
  - vm_compute. reflexivity.
  - intros o Ho. now apply elem_of_nil in Ho.
Defined.

Lemma commit_clears_redo_stack_witness :
  redo_stack (state_of kitchen_undone) <> []
  /\ redo_stack room_added_after_undo = []
  /\ redo room_added_after_undo = Ok room_added_after_undo.
Proof.
  destruct commit_clears_redo_stack as [_ Hstep].
  split; [vm_compute; discriminate|].
  apply (Hstep (state_of kitchen_undone) room_added_after_undo).
  - apply es_add_room, run_outcome.
  - vm_compute. discriminate.
Defined.


Lemma undo_delete_reinserts_last_witness :
  house two_rooms_A_selected = [0; 1]%nat
  /\ exists title message k st1 st2,
       delete_selected_item two_rooms_A_selected = AskYesNo title message k
       /\ k true = Ret (Ok st1) /\ undo st1 = Ok st2
       /\ house st2 = [1; 0]%nat
       /\ find_item_at two_rooms_A_selected 7 7 <> Some 0%nat
       /\ find_item_at st2 7 7 = Some 0%nat.
Proof.
  split; [vm_compute; reflexivity|].
  destruct undo_delete_reinserts_last as (_ & _ & Hroom & _).
  destruct (Hroom two_rooms_A_selected 0%nat [] [1%nat])
    as (t & m & k & st1 & st2 & Hd & Hk & _ & Hu & Hh & _ & _ & _ & Hfind).
  - vm_compute. reflexivity.
  - vm_compute. reflexivity.
  - vm_compute. reflexivity.
  - apply not_elem_of_nil.
  - intros Hin. apply elem_of_cons in Hin as [Hin|Hin];
      [discriminate Hin|now apply elem_of_nil in Hin].
  - destruct (Hfind 7 7 1%nat) as [Hbefore Hafter].
    + apply elem_of_cons. now left.
    + vm_compute. reflexivity.
    + vm_compute. reflexivity.
    + intros o Ho. vm_compute in Ho. now apply elem_of_nil in Ho.
    + exists t, m, k, st1, st2. auto 10.
Defined.

(** * Further properties of the code *)

(** ** Containment *)

Lemma Qle_bool_reflect a b : Qle_bool a b = true <-> a <= b.
Proof. apply Qle_bool_iff. Qed.

(** [contains] is the inclusive test on both axes: the four boundary
    lines and the corners belong to the rectangle, and a rectangle whose
    width or height is negative contains no point at all. *)
Theorem contains_inclusive (sh : Shape) (px py : Q) :
  (contains sh px py = true <->
   x sh <= px /\ px <= x sh + width sh
   /\ y sh <= py /\ py <= y sh + height sh)
  /\ (0 <= width sh -> 0 <= height sh ->
      contains sh (x sh) (y sh) = true
      /\ contains sh (x sh + width sh) (y sh + height sh) = true)
  /\ (width sh < 0 \/ height sh < 0 -> contains sh px py = false).
Proof.
  assert (Hiff : contains sh px py = true <->
                 x sh <= px /\ px <= x sh + width sh
                 /\ y sh <= py /\ py <= y sh + height sh).
  { unfold contains. rewrite !andb_true_iff, !Qle_bool_iff. tauto. }
  split; [exact Hiff|]. split.
  - intros Hw Hh. unfold contains.
    rewrite !andb_true_iff, !Qle_bool_iff. split; repeat split; lra.
  - intros Hneg. destruct (contains sh px py) eqn:E; [|reflexivity].
    exfalso. destruct Hiff as [Hbounds _]. specialize (Hbounds eq_refl). lra.
Qed.

Lemma contains_inclusive_witness :
  contains (mkShape Room "A" 0 0 10 10) 10 10 = true.
Proof.
  destruct (contains_inclusive (mkShape Room "A" 0 0 10 10) 0 0)
    as (_ & Hcorner & _).
  apply Hcorner; vm_compute; discriminate.
Defined.

(** ** Resize handles, continued *)

(** [get_resize_handle] answers [None] exactly when the point is within
    the tolerance of none of the four boundary lines; every answer is one
    of the eight handle names; a single-edge answer means that no line of
    the other direction is within the tolerance; and with a tolerance of
    zero or less there is no handle anywhere. *)
Theorem resize_handle_range (sh : Shape) (px py tolerance : Q) :
  let on_l := near px (left_edge sh) tolerance in
  let on_r := near px (right_edge sh) tolerance in
  let on_b := near py (bottom_edge sh) tolerance in
  let on_t := near py (top_edge sh) tolerance in
  let handle := get_resize_handle sh px py tolerance in
  (handle = None <-> ~ on_l /\ ~ on_r /\ ~ on_b /\ ~ on_t)
  /\ (forall h, handle = Some h -> h ∈ handles)
  /\ (handle = Some "top" <-> on_t /\ ~ on_l /\ ~ on_r)
  /\ (handle = Some "bottom" <-> on_b /\ ~ on_t /\ ~ on_l /\ ~ on_r)
  /\ (handle = Some "left" <-> on_l /\ ~ on_t /\ ~ on_b)
  /\ (handle = Some "right" <-> on_r /\ ~ on_l /\ ~ on_t /\ ~ on_b)
  /\ (tolerance <= 0 -> handle = None).
Proof.
  intros on_l on_r on_b on_t handle.
  pose proof (near_decide px (left_edge sh) tolerance) as Hl.
  pose proof (near_decide px (right_edge sh) tolerance) as Hr.
  pose proof (near_decide py (bottom_edge sh) tolerance) as Hb.
  pose proof (near_decide py (top_edge sh) tolerance) as Ht.
  assert (Hpos : tolerance <= 0 -> ~ on_l /\ ~ on_r /\ ~ on_b /\ ~ on_t).
  { intros Hz. subst on_l on_r on_b on_t. unfold near.
    pose proof (Qabs_nonneg (px - left_edge sh)).
    pose proof (Qabs_nonneg (px - right_edge sh)).
    pose proof (Qabs_nonneg (py - bottom_edge sh)).
    pose proof (Qabs_nonneg (py - top_edge sh)).
    repeat split; lra. }
  subst handle. unfold get_resize_handle.
  unfold left_edge, right_edge, bottom_edge, top_edge in *.
  assert (Hin : forall h, h ∈ handles <->
            h = "top-left" \/ h = "top-right" \/ h = "bottom-left"
            \/ h = "bottom-right" \/ h = "top" \/ h = "bottom"
            \/ h = "left" \/ h = "right").
  { intros h. unfold handles. rewrite !elem_of_cons, elem_of_nil. tauto. }
  destruct (Qlt_bool (Qabs (px - x sh)) tolerance);
    destruct (Qlt_bool (Qabs (px - (x sh + width sh))) tolerance);
    destruct (Qlt_bool (Qabs (py - y sh)) tolerance);
    destruct (Qlt_bool (Qabs (py - (y sh + height sh))) tolerance);
    simpl; subst on_l on_r on_b on_t;
    (split; [split; [intros E; discriminate E || tauto | tauto]|]);
    (split; [intros h [= <-]; apply Hin; tauto | ]);
    (split; [split; [intros E; discriminate E || tauto | tauto]|]);
    (split; [split; [intros E; discriminate E || tauto | tauto]|]);
    (split; [split; [intros E; discriminate E || tauto | tauto]|]);
    (split; [split; [intros E; discriminate E || tauto | tauto]|]);
    tauto.
Qed.

Lemma resize_handle_range_witness :
  get_resize_handle (mkShape Room "A" 0 0 10 10) 0 0 0 = None.
Proof.
  apply (resize_handle_range (mkShape Room "A" 0 0 10 10) 0 0 0).
  vm_compute. discriminate.
Defined.

(** ** Dragging a shape *)

Lemma item_type_of_selected st item :
  (if is_room st (Some item) then Some Room
   else if is_object st (Some item) then Some BlueprintObject
   else None) = Some (cls (obj st item)).
Proof.
  unfold is_room, is_object. destruct (cls (obj st item)); reflexivity.
Qed.

(** The two branches of the handlers that a drag goes through, as
    equations. *)
Lemma on_motion_moving
    (event : MouseEvent) (st : App) (item : nat)
    (n : string) (ox oy ow oh sx sy : Q) :
  inaxes event = true -> toolbar_mode st = false ->
  truthy (object_to_add st) = false ->
  current_action st = Some moving ->
  selected_item st = Some item ->
  original_state st = Some (n, ox, oy, ow, oh) ->
  action_start_xy st = Some (sx, sy) ->
  on_motion event st
  = Ok (draw_blueprint
          (set_obj_state item
             (n, ox + (xdata event - sx), oy + (ydata event - sy), ow, oh)
             st)).
Proof.
  intros Hin Htool Htok Hact Hsel Hos Hstart.
  unfold on_motion. rewrite Hin, Htool, Htok, Hact, Hstart, Hsel, Hos.
  cbn [negb orb].
  destruct (ghost_rect st); now rewrite and_then_Ok.
Qed.

Lemma on_release_edit
    (event : MouseEvent) (st : App) (action : Action) (item : nat)
    (os : State) :
  action = moving \/ action = resizing_room ->
  current_action st = Some action ->
  selected_item st = Some item ->
  original_state st = Some os ->
  on_release event st
  = Ret (Ok (draw_blueprint
               (set_resize_handle None
                  (set_original_state None
                     (set_current_action None
                        (if state_eqb (get_state (obj st item)) os then st
                         else log_action
                                (edit_kind (cls (obj st item)), item, Some os,
                                 Some (get_state (obj st item))) st)))))).
Proof.
  intros Hmove Hact Hsel Hos.
  unfold on_release. rewrite Hact, Hsel, Hos, item_type_of_selected.
  cbv zeta.
  destruct (state_eqb (get_state (obj st item)) os); cbn [negb];
    destruct Hmove as [-> | ->]; destruct (ghost_rect st); reflexivity.
Qed.

Lemma cls_alter_update_state s i (l : list Shape) j :
  cls (alter (update_state s) i l !!! j) = cls (l !!! j).
Proof.
  rewrite list_lookup_total_alter.
  case_decide as H; [destruct H as [-> _]; apply cls_update_state|reflexivity].
Qed.

Lemma on_motion_resizing
    (event : MouseEvent) (st : App) (item : nat) (os : State) (h : string)
    (sx sy : Q) :
  inaxes event = true -> toolbar_mode st = false ->
  truthy (object_to_add st) = false ->
  current_action st = Some resizing_room ->
  selected_item st = Some item ->
  original_state st = Some os ->
  resize_handle st = Some h ->
  action_start_xy st = Some (sx, sy) ->
  on_motion event st
  = Ok (draw_blueprint
          (set_obj_state item
             (resize_state h os (xdata event) (ydata event)) st)).
Proof.
  intros Hin Htool Htok Hact Hsel Hos Hh Hstart.
  unfold on_motion. rewrite Hin, Htool, Htok, Hact, Hstart, Hsel, Hos, Hh.
  cbn [negb orb].
  destruct (ghost_rect st); now rewrite and_then_Ok.
Qed.

Lemma resize_state_right n ox oy ow oh px py :
  resize_state "right" (n, ox, oy, ow, oh) px py
  = (n, ox, oy, py_max 1 (px - ox), oh).
Proof. reflexivity. Qed.

Lemma state_eqb_width n ox oy w ow oh :
  state_eqb (n, ox, oy, w, oh) (n, ox, oy, ow, oh) = Qeq_bool w ow.
Proof.
  unfold state_eqb. rewrite String.eqb_refl, !Qeq_bool_refl.
  cbn [andb]. apply andb_true_r.
Qed.

Lemma moved_shape (st : App) (item : nat) (s : State) :
  (item < length (heap st))%nat ->
  let st' := draw_blueprint (set_obj_state item s st) in
  get_state (obj st' item) = s
  /\ (forall other, other <> item -> obj st' other = obj st other)
  /\ house st' = house st /\ furnishings st' = furnishings st
  /\ history st' = history st /\ redo_stack st' = redo_stack st
  /\ current_action st' = current_action st
  /\ original_state st' = original_state st
  /\ selected_item st' = selected_item st
  /\ cls (obj st' item) = cls (obj st item).
Proof.
  intros Hv st'. subst st'.
  split; [unfold obj; proj; now rewrite get_state_alter|].
  split; [intros other Hne; unfold obj; proj;
          now rewrite list_lookup_total_alter_ne by congruence|].
  repeat (split; [proj; reflexivity|]).
  unfold obj. proj. apply cls_alter_update_state.
Qed.

(** While a shape is being moved, every pointer motion inside the axes
    puts it at its position at pointer-down plus the pointer's
    displacement since then, with its name and size as they were, without
    touching any other shape, the collections or the stacks; there is no
    clamping. *)
Theorem drag_translates
    (event : MouseEvent) (st : App) (item : nat)
    (n : string) (ox oy ow oh sx sy : Q) :
  inaxes event = true -> toolbar_mode st = false ->
  truthy (object_to_add st) = false ->
  current_action st = Some moving ->
  selected_item st = Some item ->
  (item < length (heap st))%nat ->
  original_state st = Some (n, ox, oy, ow, oh) ->
  action_start_xy st = Some (sx, sy) ->
  exists st',
    on_motion event st = Ok st'
    /\ get_state (obj st' item)
       = (n, ox + (xdata event - sx), oy + (ydata event - sy), ow, oh)
    /\ (forall other, other <> item -> obj st' other = obj st other)
    /\ house st' = house st /\ furnishings st' = furnishings st
    /\ history st' = history st /\ redo_stack st' = redo_stack st
    /\ current_action st' = Some moving
    /\ original_state st' = Some (n, ox, oy, ow, oh).
Proof.
  intros Hin Htool Htok Hact Hsel Hv Hos Hstart.
  eexists. split;
    [apply (on_motion_moving event st item n ox oy ow oh sx sy); assumption|].
  destruct (moved_shape st item
              (n, ox + (xdata event - sx), oy + (ydata event - sy), ow, oh) Hv)
    as (Hs & Ho & Hh & Hf & Hhi & Hr & Ha & Hor & _ & _).
  rewrite Ha, Hor. auto 10.
Qed.

(** Releasing the pointer after a move or a resize: when the shape is back
    in the state of the snapshot, nothing is committed and both stacks are
    as before; otherwise exactly one [edit_room] or [edit_obj] entry,
    according to the class of the shape, records the snapshot and the
    present state, and the redo stack is emptied.  Either way the action,
    the snapshot and the handle are forgotten and no shape is changed. *)
Theorem release_after_move
    (event : MouseEvent) (st : App) (action : Action) (item : nat)
    (os : State) :
  action = moving \/ action = resizing_room ->
  current_action st = Some action ->
  selected_item st = Some item ->
  original_state st = Some os ->
  exists st',
    on_release event st = Ret (Ok st')
    /\ heap st' = heap st /\ house st' = house st
    /\ furnishings st' = furnishings st
    /\ current_action st' = None /\ original_state st' = None
    /\ resize_handle st' = None
    /\ (if state_eqb (get_state (obj st item)) os
        then history st' = history st /\ redo_stack st' = redo_stack st
        else history st'
             = history st
               ++ [(edit_kind (cls (obj st item)), item, Some os,
                    Some (get_state (obj st item)))]
             /\ redo_stack st' = []).
Proof.
  intros Hmove Hact Hsel Hos.
  eexists. split;
    [apply (on_release_edit event st action item os); assumption|].
  destruct (state_eqb (get_state (obj st item)) os); proj; auto 10.
Qed.

(** A drag that brings the pointer back to where it went down.  If it is
    a move, the shape is back where it was and the release commits
    nothing: both stacks are what they were before the motion.  A resize
    is different, because the edge of the handle goes to the pointer and
    not back to where it was: with the right handle the width becomes
    [max(1, px - x)] for the press point [px], and the release commits one
    edit entry unless that is the width the room had. *)
Theorem drag_back_to_start
    (st : App) (item : nat) (n : string) (ox oy ow oh sx sy : Q) :
  toolbar_mode st = false ->
  truthy (object_to_add st) = false ->
  selected_item st = Some item ->
  (item < length (heap st))%nat ->
  original_state st = Some (n, ox, oy, ow, oh) ->
  action_start_xy st = Some (sx, sy) ->
  (current_action st = Some moving ->
   exists st1 st2,
     on_motion (pointer sx sy) st = Ok st1
     /\ on_release (pointer sx sy) st1 = Ret (Ok st2)
     /\ history st2 = history st /\ redo_stack st2 = redo_stack st
     /\ current_action st2 = None)
  /\ (current_action st = Some resizing_room ->
      resize_handle st = Some "right"%string ->
      let new := (n, ox, oy, py_max 1 (sx - ox), oh) in
      exists st1 st2,
        on_motion (pointer sx sy) st = Ok st1
        /\ on_release (pointer sx sy) st1 = Ret (Ok st2)
        /\ get_state (obj st2 item) = new
        /\ current_action st2 = None
        /\ if Qeq_bool (py_max 1 (sx - ox)) ow
           then history st2 = history st /\ redo_stack st2 = redo_stack st
           else history st2
                = history st
                  ++ [(edit_kind (cls (obj st item)), item,
                       Some (n, ox, oy, ow, oh), Some new)]
                /\ redo_stack st2 = []).
Proof.
  intros Htool Htok Hsel Hv Hos Hstart. split.
  - intros Hact.
    pose proof (on_motion_moving (pointer sx sy) st item n ox oy ow oh sx sy
                  eq_refl Htool Htok Hact Hsel Hos Hstart) as Hm.
    cbn [xdata ydata pointer] in Hm.
    destruct (moved_shape st item
                (n, ox + (sx - sx), oy + (sy - sy), ow, oh) Hv)
      as (Hs & _ & _ & _ & Hh1 & Hr1 & Ha1 & Ho1 & Hsel1 & _).
    revert Hm Hs Hh1 Hr1 Ha1 Ho1 Hsel1.
    generalize (draw_blueprint
                  (set_obj_state item
                     (n, ox + (sx - sx), oy + (sy - sy), ow, oh) st)).
    intros st1 Hm Hs Hh1 Hr1 Ha1 Ho1 Hsel1.
    rewrite Hact in Ha1. rewrite Hos in Ho1. rewrite Hsel in Hsel1.
    pose proof (on_release_edit (pointer sx sy) st1 moving item
                  (n, ox, oy, ow, oh) (or_introl eq_refl) Ha1 Hsel1 Ho1)
      as Hrel.
    assert (Heq : state_eqb (get_state (obj st1 item)) (n, ox, oy, ow, oh)
                  = true).
    { rewrite Hs. unfold state_eqb. rewrite String.eqb_refl.
      rewrite !andb_true_iff. repeat split; apply Qeq_bool_iff; ring. }
    rewrite Heq in Hrel.
    eexists st1, _. split; [exact Hm|]. split; [exact Hrel|].
    proj. auto.
  - intros Hact Hh new.
    pose proof (on_motion_resizing (pointer sx sy) st item (n, ox, oy, ow, oh)
                  "right" sx sy eq_refl Htool Htok Hact Hsel Hos Hh Hstart)
      as Hm.
    cbn [xdata ydata pointer] in Hm. rewrite resize_state_right in Hm.
    fold new in Hm.
    destruct (moved_shape st item new Hv)
      as (Hs & _ & _ & _ & Hh1 & Hr1 & Ha1 & Ho1 & Hsel1 & Hc1).
    revert Hm Hs Hh1 Hr1 Ha1 Ho1 Hsel1 Hc1.
    generalize (draw_blueprint (set_obj_state item new st)).
    intros st1 Hm Hs Hh1 Hr1 Ha1 Ho1 Hsel1 Hc1.
    rewrite Hact in Ha1. rewrite Hos in Ho1. rewrite Hsel in Hsel1.
    pose proof (on_release_edit (pointer sx sy) st1 resizing_room item
                  (n, ox, oy, ow, oh) (or_intror eq_refl) Ha1 Hsel1 Ho1)
      as Hrel.
    rewrite Hs, Hc1 in Hrel. unfold new in Hrel at 1.
    rewrite state_eqb_width in Hrel.
    eexists st1, _. split; [exact Hm|]. split; [exact Hrel|].
    destruct (Qeq_bool (py_max 1 (sx - ox)) ow).
    + split; [unfold obj; proj; exact Hs|]. proj. auto.
    + split; [unfold obj; proj; exact Hs|]. proj.
      rewrite Hh1. auto.
Qed.

Lemma drag_translates_witness :
  exists st', on_motion (pointer 8.25 5) drag_started = Ok st'.
Proof.
  destruct (drag_translates (pointer 8.25 5) drag_started 0 "A"
              (0 + 0.25) (0 + 0) 10 10 5.25 5)
    as (st' & Hm & _); [vm_compute; try reflexivity; lia..|].
  exists st'. exact Hm.
Defined.

Lemma release_after_move_witness :
  exists st', on_release (pointer 8.25 5) drag_moved = Ret (Ok st').
Proof.
  destruct (release_after_move (pointer 8.25 5) drag_moved moving 0
              ("A", 0 + 0.25, 0 + 0, 10, 10))
    as (st' & Hr & _); [now left|vm_compute; reflexivity..|].
  exists st'. exact Hr.
Defined.

Lemma drag_back_to_start_witness :
  (exists st1 st2,
      on_motion (pointer 5.25 5) drag_started = Ok st1
      /\ on_release (pointer 5.25 5) st1 = Ret (Ok st2)
      /\ history st2 = history drag_started)
  /\ (exists st1 st2,
        on_motion (pointer 9.5 5) room_A_right_grabbed = Ok st1
        /\ on_release (pointer 9.5 5) st1 = Ret (Ok st2)
        /\ get_state (obj st2 0) = ("A", 0, 0, py_max 1 (9.5 - 0), 10)
        /\ length (history st2) = 2%nat).
Proof.
  split.
  - destruct (drag_back_to_start drag_started 0 "A"
                (0 + 0.25) (0 + 0) 10 10 5.25 5) as [Hmove _];
      [vm_compute; try reflexivity; lia..|].
    destruct Hmove as (st1 & st2 & Hm & Hr & Hh & _);
      [vm_compute; reflexivity|].
    exists st1, st2. auto.
  - destruct (drag_back_to_start room_A_right_grabbed 0 "A" 0 0 10 10 9.5 5)
      as [_ Hresize]; [vm_compute; try reflexivity; lia..|].
    destruct Hresize as (st1 & st2 & Hm & Hr & Hs & _ & Hh);
      [vm_compute; reflexivity..|].
    exists st1, st2. split; [exact Hm|]. split; [exact Hr|].
    split; [exact Hs|].
    replace (Qeq_bool (py_max 1 (9.5 - 0)) 10) with false in Hh
      by (vm_compute; reflexivity).
    destruct Hh as [-> _]. rewrite length_app.
    vm_compute. reflexivity.
Defined.

(** ** Placing an object *)

Lemma cancel_action_idle c st :
  ghost_rect (cancel_action c st) = None
  /\ object_to_add (cancel_action c st) = None
  /\ current_action (cancel_action c st) = None
  /\ draw_mode_active (cancel_action c st)
     = (if c then false else draw_mode_active st).
Proof.
  unfold cancel_action.
  rewrite ghost_rect_draw_blueprint, object_to_add_draw_blueprint,
    current_action_draw_blueprint, draw_mode_active_draw_blueprint.
  destruct (ghost_rect st) eqn:E, c; proj; auto.
Qed.

(** With a pending object type that is a key of the template table,
    [add_object_at] creates one [BlueprintObject] of the template's size
    centred on the point, appends it to [furnishings], commits one
    [add_obj] entry, and leaves placement mode: the pending type, the
    ghost and the free-draw mode are cleared and no action is in progress.
    Rooms and older objects are untouched. *)
Theorem add_object_at_places_centred
    (px py : Q) (st : App) (n : string) (w h : Q) :
  object_to_add st = Some n ->
  dict_get object_templates n = Some (w, h) ->
  let new_obj := length (heap st) in
  let sh := mkShape BlueprintObject n (px - w / 2) (py - h / 2) w h in
  exists st',
    add_object_at px py st = Ok st'
    /\ heap st' = heap st ++ [sh]
    /\ furnishings st' = furnishings st ++ [new_obj]
    /\ house st' = house st
    /\ history st' = history st ++ [(add_obj, new_obj, Some (get_state sh), None)]
    /\ redo_stack st' = []
    /\ object_to_add st' = None /\ ghost_rect st' = None
    /\ draw_mode_active st' = false /\ current_action st' = None
    /\ x sh + w / 2 == px /\ y sh + h / 2 == py.
Proof.
  intros Htok Htpl new_obj sh.
  unfold add_object_at. rewrite Htok, Htpl. cbv zeta.
  eexists. split; [reflexivity|].
  assert (Hobj : obj
            (furnishings_append (new_ref st)
               (store (new_shape BlueprintObject
                         (n, px - w / 2, py - h / 2, w, h)) st))
            (new_ref st) = sh).
  { apply obj_store_new. proj. reflexivity. }
  rewrite Hobj.
  split; [proj; reflexivity|]. split; [proj; reflexivity|].
  split; [proj; reflexivity|]. split; [proj; reflexivity|].
  split; [proj; reflexivity|].
  match goal with
  | |- context [cancel_action true ?X] =>
      destruct (cancel_action_idle true X) as (Hg & Ht & Ha & Hd)
  end.
  split; [exact Ht|]. split; [exact Hg|]. split; [exact Hd|].
  split; [exact Ha|].
  subst sh. simpl. split; field.
Qed.

Lemma add_object_at_places_centred_witness :
  exists st',
    add_object_at 10 10 (enter_add_object_mode "Sofa" init) = Ok st'
    /\ furnishings st' = [0%nat].
Proof.
  destruct (add_object_at_places_centred 10 10
              (enter_add_object_mode "Sofa" init) "Sofa" 7 3)
    as (st' & Ha & _ & Hf & _); [vm_compute; reflexivity..|].
  exists st'. split; [exact Ha|exact Hf].
Defined.

(** A pending type that is not in the template table makes the placement
    raise [KeyError] before anything is created. *)
Theorem add_object_at_unknown_type (px py : Q) (st : App) (n : string) :
  object_to_add st = Some n ->
  dict_get object_templates n = None ->
  add_object_at px py st = Raised KeyError st.
Proof.
  intros Htok Htpl. unfold add_object_at. now rewrite Htok, Htpl.
Qed.

Lemma add_object_at_unknown_type_witness :
  add_object_at 0 0 (set_object_to_add (Some "Piano") init)
  = Raised KeyError (set_object_to_add (Some "Piano") init).
Proof.
  apply (add_object_at_unknown_type 0 0
           (set_object_to_add (Some "Piano") init) "Piano");
    vm_compute; reflexivity.
Defined.

(** ** Cancelling *)

(** [cancel_action] (the Escape key) ends whatever is in progress: no
    ghost, no pending object type, no current action, and free-draw mode
    off unless it is asked to keep it.  It never touches a shape, the
    collections, the stacks, the selection or the clipboard: a move in
    progress is neither reverted nor committed.  It redraws, so the area
    label is up to date. *)
Theorem cancel_action_ends_interaction (clear_draw_mode : bool) (st : App) :
  let st' := cancel_action clear_draw_mode st in
  ghost_rect st' = None
  /\ object_to_add st' = None
  /\ current_action st' = None
  /\ draw_mode_active st'
     = (if clear_draw_mode then false else draw_mode_active st)
  /\ heap st' = heap st /\ house st' = house st
  /\ furnishings st' = furnishings st
  /\ history st' = history st /\ redo_stack st' = redo_stack st
  /\ selected_item st' = selected_item st
  /\ clipboard st' = clipboard st
  /\ label_ok st'.
Proof.
  intros st'. subst st'.
  destruct (cancel_action_idle clear_draw_mode st) as (Hg & Ht & Ha & Hd).
  split; [exact Hg|]. split; [exact Ht|]. split; [exact Ha|].
  split; [exact Hd|].
  proj. repeat split. apply label_ok_cancel_action.
Qed.

(** ** Pointer down *)

Lemma find_item_at_ext st st' px py :
  heap st' = heap st -> house st' = house st ->
  furnishings st' = furnishings st ->
  find_item_at st' px py = find_item_at st px py.
Proof.
  intros Hh Hr Hf. unfold find_item_at, obj. now rewrite Hh, Hr, Hf.
Qed.

Lemma handle_truthy sh px py tolerance h :
  get_resize_handle sh px py tolerance = Some h -> truthy (Some h) = true.
Proof.
  unfold get_resize_handle.
  destruct (Qlt_bool (Qabs (px - x sh)) tolerance);
    destruct (Qlt_bool (Qabs (px - (x sh + width sh))) tolerance);
    destruct (Qlt_bool (Qabs (py - y sh)) tolerance);
    destruct (Qlt_bool (Qabs (py - (y sh + height sh))) tolerance);
    simpl; intros [= <-]; reflexivity.
Qed.

(** Rewrites the objects read in later states into objects of [st] when
    the store is the same. *)
Ltac norm_obj st :=
  cbn [fmap option_fmap option_map];
  repeat match goal with
         | |- context [obj ?X ?i] =>
             lazymatch X with
             | st => fail
             | _ => rewrite (obj_same_heap st X i) by (proj; reflexivity)
             end
         end.



(** ** The two stacks as one timeline *)

Lemma list_remove_not_elem i (l : list nat) :
  i ∉ l -> list_remove i l = None.
Proof.
  intros Hn. destruct (list_remove i l) as [r|] eqn:E; [|reflexivity].
  exfalso. apply list_remove_split in E as (l1 & l2 & -> & _ & _).
  apply Hn. apply elem_of_app. right. apply elem_of_cons. auto.
Qed.

Lemma undo_Ok_stacks st st' :
  undo st = Ok st' ->
  (history st = [] /\ st' = st)
  \/ exists hist e,
      history st = hist ++ [e] /\ history st' = hist
      /\ redo_stack st' = redo_stack st ++ [e].
Proof.
  intros H. destruct (history st) as [|e0 hist0] eqn:Hh using rev_ind.
  - left. split; [reflexivity|]. rewrite undo_empty in H by assumption.
    congruence.
  - clear IHhist0. right. destruct e0 as [[[action item] s1] s2].
    rewrite (undo_snoc _ _ _ _ _ _ Hh) in H.
    exists hist0, (action, item, s1, s2). split; [reflexivity|].
    unfold house_remove, furnishings_remove, restore_state in H.
    destruct action;
      repeat match type of H with
             | context [match ?x with _ => _ end] => destruct x
             end;
      rewrite ?and_then_Ok, ?and_then_Raised in H;
      try discriminate H; injection H as <-; proj; auto.
Qed.

Lemma redo_Ok_stacks st st' :
  redo st = Ok st' ->
  (redo_stack st = [] /\ st' = st)
  \/ exists rest e,
      redo_stack st = rest ++ [e] /\ redo_stack st' = rest
      /\ history st' = history st ++ [e].
Proof.
  intros H. destruct (redo_stack st) as [|e0 rest0] eqn:Hh using rev_ind.
  - left. split; [reflexivity|]. rewrite redo_empty in H by assumption.
    congruence.
  - clear IHrest0. right. destruct e0 as [[[action item] s1] s2].
    rewrite (redo_snoc _ _ _ _ _ _ Hh) in H.
    exists rest0, (action, item, s1, s2). split; [reflexivity|].
    unfold house_remove, furnishings_remove, restore_state in H.
    destruct action;
      repeat match type of H with
             | context [match ?x with _ => _ end] => destruct x
             end;
      rewrite ?and_then_Ok, ?and_then_Raised in H;
      try discriminate H; injection H as <-; proj; auto.
Qed.

(** [undo] and [redo] only move the boundary between past and future: the
    undo stack followed by the reversed redo stack is the same sequence of
    entries before and after every call that returns normally; the top
    entry goes from one stack to the other unchanged, and on an empty
    stack the call returns the very same state. *)
Theorem undo_redo_keep_timeline (st st' : App) :
  (undo st = Ok st' ->
   history st' ++ rev (redo_stack st') = history st ++ rev (redo_stack st)
   /\ (history st = [] -> st' = st))
  /\ (redo st = Ok st' ->
      history st' ++ rev (redo_stack st') = history st ++ rev (redo_stack st)
      /\ (redo_stack st = [] -> st' = st)).
Proof.
  split; intros H.
  - destruct (undo_Ok_stacks _ _ H) as [[He ->]|(hist & e & Hh & Hh' & Hr')].
    + auto.
    + rewrite Hh', Hr', Hh, rev_unit, <- app_assoc. split; [reflexivity|].
      intros Hn. symmetry in Hn. now apply app_cons_not_nil in Hn.
  - destruct (redo_Ok_stacks _ _ H) as [[He ->]|(rest & e & Hr & Hr' & Hh')].
    + auto.
    + rewrite Hh', Hr', Hr, rev_unit, <- app_assoc. split; [reflexivity|].
      intros Hn. symmetry in Hn. now apply app_cons_not_nil in Hn.
Qed.

Lemma undo_redo_keep_timeline_witness :
  exists st',
    undo (state_of kitchen_edited) = Ok st'
    /\ history st' ++ rev (redo_stack st')
       = history (state_of kitchen_edited)
         ++ rev (redo_stack (state_of kitchen_edited)).
Proof.
  exists (state_of kitchen_undone).
  assert (H : undo (state_of kitchen_edited) = Ok (state_of kitchen_undone))
    by (vm_compute; reflexivity).
  split; [exact H|].
  destruct (undo_redo_keep_timeline (state_of kitchen_edited)
              (state_of kitchen_undone)) as [Hundo _].
  destruct (Hundo H) as [Htimeline _]. exact Htimeline.
Defined.

(** ** When undo and redo raise *)

(** Undoing an [add] entry whose item is no longer in its collection, or
    redoing a [delete] entry whose item is not there, raises [ValueError]
    from [list.remove]: the entry has already been popped and is pushed
    nowhere, so it is lost, and nothing else has changed. *)
Theorem undo_redo_missing_item_raises (st : App) (item : nat)
    (s1 s2 : option State) :
  (forall hist,
      history st = hist ++ [(add_room, item, s1, s2)] -> item ∉ house st ->
      undo st = Raised ValueError (set_history hist st))
  /\ (forall hist,
        history st = hist ++ [(add_obj, item, s1, s2)] ->
        item ∉ furnishings st ->
        undo st = Raised ValueError (set_history hist st))
  /\ (forall rest,
        redo_stack st = rest ++ [(delete_room, item, s1, s2)] ->
        item ∉ house st ->
        redo st = Raised ValueError (set_redo_stack rest st))
  /\ (forall rest,
        redo_stack st = rest ++ [(delete_obj, item, s1, s2)] ->
        item ∉ furnishings st ->
        redo st = Raised ValueError (set_redo_stack rest st)).
Proof.
  split; [|split; [|split]].
  - intros hist H Hn. rewrite (undo_snoc _ _ _ _ _ _ H).
    unfold house_remove. rewrite house_set_history.
    now rewrite list_remove_not_elem.
  - intros hist H Hn. rewrite (undo_snoc _ _ _ _ _ _ H).
    unfold furnishings_remove. rewrite furnishings_set_history.
    now rewrite list_remove_not_elem.
  - intros rest H Hn. rewrite (redo_snoc _ _ _ _ _ _ H).
    unfold house_remove. rewrite house_set_redo_stack.
    now rewrite list_remove_not_elem.
  - intros rest H Hn. rewrite (redo_snoc _ _ _ _ _ _ H).
    unfold furnishings_remove. rewrite furnishings_set_redo_stack.
    now rewrite list_remove_not_elem.
Qed.

Lemma undo_redo_missing_item_raises_witness :
  undo (set_house [] room_A_added)
  = Raised ValueError (set_history [] (set_house [] room_A_added)).
Proof.
  destruct (undo_redo_missing_item_raises (set_house [] room_A_added) 0
              (Some room_A) None) as (Hadd & _).
  apply (Hadd []).
  - vm_compute. reflexivity.
  - apply not_elem_of_nil.
Defined.

(** ** Clearing *)

Lemma total_sqft_label_update_buttons st :
  total_sqft_label (update_buttons st) = total_sqft_label st.
Proof. reflexivity. Qed.

Lemma xlim_update_buttons st : xlim (update_buttons st) = xlim st.
Proof. reflexivity. Qed.

Lemma clipboard_clear_all st : clipboard (clear_all st) = clipboard st.
Proof. unfold clear_all. proj. reflexivity. Qed.

(** "Clear All", once confirmed, empties [house], [furnishings] and both
    stacks and drops the selection, while the clipboard survives.  It
    redraws only through the change of selection: if a shape was selected
    the area label reads 0.00 afterwards, but if nothing was selected
    nothing is redrawn and the label still shows the old total. *)
Theorem clear_blueprint_confirmed (st : App) :
  (exists title message k,
      clear_blueprint true st = AskYesNo title message k
      /\ k true = Ret (clear_all st))
  /\ house (clear_all st) = [] /\ furnishings (clear_all st) = []
  /\ history (clear_all st) = [] /\ redo_stack (clear_all st) = []
  /\ selected_item (clear_all st) = None
  /\ clipboard (clear_all st) = clipboard st
  /\ (selected_item st = None ->
      total_sqft_label (clear_all st) = total_sqft_label st)
  /\ (selected_item st <> None ->
      total_sqft_label (clear_all st) = "Total Area: 0.00 sqft").
Proof.
  destruct (clear_all_empties st) as (Hh & Hf & Hhi & Hr & Hs & _).
  split; [do 3 eexists; split; reflexivity|].
  split; [exact Hh|]. split; [exact Hf|]. split; [exact Hhi|].
  split; [exact Hr|]. split; [exact Hs|].
  split; [apply clipboard_clear_all|].
  split.
  - intros Hsel. unfold clear_all. rewrite total_sqft_label_update_buttons.
    unfold select_item. rewrite decide_True by (proj; assumption).
    reflexivity.
  - intros Hsel. unfold clear_all. rewrite total_sqft_label_update_buttons.
    unfold select_item. rewrite decide_False by (proj; assumption).
    rewrite total_sqft_label_draw_blueprint.
    unfold total_sqft. rewrite house_update_buttons, house_set_selected_item.
    proj. reflexivity.
Qed.

Lemma clear_blueprint_confirmed_witness :
  total_sqft_label (clear_all room_A_added) = "Total Area: 100.00 sqft"
  /\ total_sqft_label (clear_all room_A_selected) = "Total Area: 0.00 sqft".
Proof.
  split.
  - destruct (clear_blueprint_confirmed room_A_added)
      as (_ & _ & _ & _ & _ & _ & _ & Hstale & _).
    rewrite Hstale; vm_compute; reflexivity.
  - destruct (clear_blueprint_confirmed room_A_selected)
      as (_ & _ & _ & _ & _ & _ & _ & _ & Hfresh).
    apply Hfresh. vm_compute. discriminate.
Defined.

(** ** Nudging with the arrow keys *)



(** ** Copy and paste at the edges *)

(** [copy_room] changes nothing unless the selection is a [Room]: with no
    selection, or with a furnishing selected, the state is returned as it
    is; and [paste_room] with an empty clipboard does nothing. *)
Theorem copy_paste_need_a_room (st : App) :
  (selected_item st = None -> copy_room st = st)
  /\ (forall item,
        selected_item st = Some item ->
        cls (obj st item) = BlueprintObject -> copy_room st = st)
  /\ (clipboard st = None -> paste_room st = st).
Proof.
  split; [|split].
  - intros H. unfold copy_room. now rewrite H.
  - intros item H Hc. unfold copy_room, is_room. rewrite H, Hc.
    rewrite bool_decide_eq_false_2 by discriminate. reflexivity.
  - intros H. unfold paste_room. now rewrite H.
Qed.

Lemma copy_paste_need_a_room_witness :
  copy_room two_objects = two_objects /\ paste_room init = init.
Proof.
  destruct (copy_paste_need_a_room two_objects) as (Hnone & _ & _).
  destruct (copy_paste_need_a_room init) as (_ & _ & Hpaste).
  split; [apply Hnone|apply Hpaste]; vm_compute; reflexivity.
Defined.

(** ** The generated layout *)

Lemma outcome_uniform a b v :
  outcome (uniform a b) v -> exists u, v = a + (b - a) * u.
Proof.
  unfold uniform. intros H. apply outcome_random in H as (u & H).
  apply outcome_ret in H. eauto.
Qed.

Lemma heap_append_room s st :
  heap (append_room s st) = heap st ++ [new_shape Room s].
Proof. reflexivity. Qed.

Lemma house_append_room s st :
  house (append_room s st) = house st ++ [length (heap st)].
Proof. reflexivity. Qed.

Lemma selected_item_append_room s st :
  selected_item (append_room s st) = selected_item st.
Proof. reflexivity. Qed.

(** Every run of the generator ends with exactly four rooms, created in
    this order and alone in [house]: the living room at the origin; the
    kitchen, whose left edge is the living room's right edge; the master
    bedroom, whose bottom edge is the living room's top edge; and the
    bathroom, standing on the kitchen in the same column.  Each size is
    [a + (b - a) * u] for the range [(a, b)] of its template and a random
    draw [u]; the kitchen's [y] and the bedroom's [x] are drawn between 0
    and the difference of the two sizes.  No furnishing, no history and no
    selection is left, and the area label is up to date. *)
Theorem generate_rooms_layout (st st' : App) :
  outcome (generate_rooms st) st' ->
  exists u1 u2 u3 u4 u5 u6 u7 u8 u9 u10,
    let lr_w := 15 + (22 - 15) * u1 in
    let lr_h := 12 + (18 - 12) * u2 in
    let k_w := 8 + (14 - 8) * u3 in
    let k_h := 8 + (14 - 8) * u4 in
    let k_y := 0 + (lr_h - k_h - 0) * u5 in
    let mbr_w := 12 + (18 - 12) * u6 in
    let mbr_h := 10 + (15 - 10) * u7 in
    let mbr_x := 0 + (lr_w - mbr_w - 0) * u8 in
    let b_w := 6 + (9 - 6) * u9 in
    let b_h := 6 + (9 - 6) * u10 in
    let n := length (heap st) in
    heap st'
    = heap st
      ++ [mkShape Room "Living Room" 0 0 lr_w lr_h;
          mkShape Room "Kitchen" lr_w k_y k_w k_h;
          mkShape Room "Master Bedroom" mbr_x lr_h mbr_w mbr_h;
          mkShape Room "Bathroom" lr_w (k_y + k_h) b_w b_h]
    /\ house st' = [n; S n; S (S n); S (S (S n))]
    /\ furnishings st' = [] /\ history st' = [] /\ redo_stack st' = []
    /\ selected_item st' = None
    /\ label_ok st'.
Proof.
  unfold generate_rooms, mbind, Eff_bind, mret, Eff_ret. intros H.
  apply outcome_bind in H as (st0 & H0 & H).
  apply outcome_ret in H0 as ->.
  apply outcome_bind in H as (lr_w & (u1 & ->)%outcome_uniform & H).
  apply outcome_bind in H as (lr_h & (u2 & ->)%outcome_uniform & H).
  apply outcome_bind in H as (k_w & (u3 & ->)%outcome_uniform & H).
  apply outcome_bind in H as (k_h & (u4 & ->)%outcome_uniform & H).
  apply outcome_bind in H as (k_y & (u5 & ->)%outcome_uniform & H).
  apply outcome_bind in H as (mbr_w & (u6 & ->)%outcome_uniform & H).
  apply outcome_bind in H as (mbr_h & (u7 & ->)%outcome_uniform & H).
  apply outcome_bind in H as (mbr_x & (u8 & ->)%outcome_uniform & H).
  apply outcome_bind in H as (b_w & (u9 & ->)%outcome_uniform & H).
  apply outcome_bind in H as (b_h & (u10 & ->)%outcome_uniform & H).
  apply outcome_ret in H. cbv zeta in H.
  exists u1, u2, u3, u4, u5, u6, u7, u8, u9, u10. cbv zeta.
  destruct (clear_all_empties st) as (Hh & Hf & Hhi & Hr & Hs & Hhp).
  set (lr_w := 15 + (22 - 15) * u1) in *.
  set (lr_h := 12 + (18 - 12) * u2) in *.
  set (k_w := 8 + (14 - 8) * u3) in *.
  set (k_h := 8 + (14 - 8) * u4) in *.
  set (k_y := 0 + (lr_h - k_h - 0) * u5) in *.
  set (s1 := append_room ("Living Room", 0, 0, lr_w, lr_h) (clear_all st)) in *.
  set (s2 := append_room ("Kitchen", lr_w, k_y, k_w, k_h) s1) in *.
  set (s3 := append_room
               ("Master Bedroom", 0 + (lr_w - (12 + (18 - 12) * u6) - 0) * u8,
                lr_h, 12 + (18 - 12) * u6, 10 + (15 - 10) * u7) s2) in *.
  assert (Hhouse3 : house s3
                    = [length (heap st); S (length (heap st));
                       S (S (length (heap st)))]).
  { subst s3 s2 s1. rewrite !house_append_room, !heap_append_room, Hh, Hhp.
    rewrite !length_app. simpl.
    repeat f_equal; lia. }
  assert (Hheap3 : heap s3
                   = heap st
                     ++ [new_shape Room ("Living Room", 0, 0, lr_w, lr_h);
                         new_shape Room ("Kitchen", lr_w, k_y, k_w, k_h);
                         new_shape Room
                           ("Master Bedroom",
                            0 + (lr_w - (12 + (18 - 12) * u6) - 0) * u8,
                            lr_h, 12 + (18 - 12) * u6, 10 + (15 - 10) * u7)]).
  { subst s3 s2 s1. rewrite !heap_append_room, Hhp.
    rewrite <- !app_assoc. reflexivity. }
  assert (Hy : match house s3 !! 1%nat with
               | Some r => y (obj s3 r)
               | None => 0
               end = k_y).
  { rewrite Hhouse3. cbn [lookup list_lookup]. unfold obj. rewrite Hheap3.
    rewrite lookup_total_app_r by lia.
    replace (S (length (heap st)) - length (heap st))%nat with 1%nat by lia.
    reflexivity. }
  rewrite Hy in H. subst st'.
  rewrite heap_draw_blueprint, house_draw_blueprint,
    furnishings_draw_blueprint, history_draw_blueprint,
    redo_stack_draw_blueprint, selected_item_draw_blueprint.
  rewrite heap_update_buttons, house_update_buttons,
    furnishings_update_buttons, history_update_buttons,
    redo_stack_update_buttons, selected_item_update_buttons.
  rewrite heap_append_room, house_append_room, furnishings_append_room,
    history_append_room, redo_stack_append_room, selected_item_append_room.
  rewrite Hheap3, Hhouse3.
  split; [rewrite <- app_assoc; reflexivity|].
  split.
  { rewrite length_app. simpl.
    repeat f_equal; lia. }
  subst s3 s2 s1.
  rewrite !furnishings_append_room, !history_append_room,
    !redo_stack_append_room, !selected_item_append_room.
  split; [exact Hf|]. split; [exact Hhi|]. split; [exact Hr|].
  split; [exact Hs|]. apply label_ok_draw_blueprint.
Qed.

Lemma generate_rooms_layout_witness :
  exists st', outcome (generate_rooms init) st' /\ house st' = [0; 1; 2; 3]%nat.
Proof.
  exists (run (submits room_A) (generate_rooms init)).
  split; [apply run_outcome|].
  destruct (generate_rooms_layout init
              (run (submits room_A) (generate_rooms init)))
    as (u1 & u2 & u3 & u4 & u5 & u6 & u7 & u8 & u9 & u10 & _ & Hh & _).
  - apply run_outcome.
  - exact Hh.
Defined.

(** ** Zooming with the wheel *)

Lemma zoom_width (a b f p : Q) :
  ~ b - a == 0 ->
  p + (b - a) * f * (1 - (p - a) / (b - a))
  - (p - (b - a) * f * ((p - a) / (b - a)))
  == (b - a) * f.
Proof. intros H. field. assumption. Qed.

Lemma zoom_relative_position (a b f p : Q) :
  ~ b - a == 0 -> ~ f == 0 ->
  (p - (p - (b - a) * f * ((p - a) / (b - a))))
  / (p + (b - a) * f * (1 - (p - a) / (b - a))
     - (p - (b - a) * f * ((p - a) / (b - a))))
  == (p - a) / (b - a).
Proof.
  intros H1 H2. field. split; [assumption|]. intros E.
  assert (Hz : f * (b - a) == 0) by (rewrite <- E; ring).
  apply Qmult_integral in Hz as [Hz|Hz]; contradiction.
Qed.

(** A scroll inside the axes multiplies the width and the height of the
    view by [1 / 1.1] (wheel up: zoom in) or by [1.1] (otherwise), and
    keeps the plane point under the pointer at the same relative position
    in the view, both read in exact arithmetic; the model is not touched.
    Outside the axes nothing happens.  A view of zero width makes
    [set_xlim] raise [ValueError] with nothing changed; a view of zero
    height alone makes [set_ylim] raise it after the x limits have been
    zoomed. *)
Theorem scroll_zooms_about_pointer (event : MouseEvent) (up : bool) (st : App) :
  let x0 := fst (xlim st) in
  let x1 := snd (xlim st) in
  let y0 := fst (ylim st) in
  let y1 := snd (ylim st) in
  let f := if up then 1 / 1.1 else 1.1 in
  (inaxes event = false -> on_scroll event up st = Ok st)
  /\ (inaxes event = true -> x1 - x0 == 0 ->
      on_scroll event up st = Raised ValueError st)
  /\ (inaxes event = true -> ~ x1 - x0 == 0 -> y1 - y0 == 0 ->
      exists st',
        on_scroll event up st = Raised ValueError st'
        /\ snd (xlim st') - fst (xlim st') == (x1 - x0) * f
        /\ ylim st' = ylim st)
  /\ (inaxes event = true -> ~ x1 - x0 == 0 -> ~ y1 - y0 == 0 ->
      exists st',
        on_scroll event up st = Ok st'
        /\ snd (xlim st') - fst (xlim st') == (x1 - x0) * f
        /\ snd (ylim st') - fst (ylim st') == (y1 - y0) * f
        /\ (xdata event - fst (xlim st')) / (snd (xlim st') - fst (xlim st'))
           == (xdata event - x0) / (x1 - x0)
        /\ (ydata event - fst (ylim st')) / (snd (ylim st') - fst (ylim st'))
           == (ydata event - y0) / (y1 - y0)
        /\ heap st' = heap st /\ house st' = house st
        /\ furnishings st' = furnishings st
        /\ history st' = history st /\ redo_stack st' = redo_stack st
        /\ selected_item st' = selected_item st).
Proof.
  intros x0 x1 y0 y1 f.
  assert (Hf : ~ f == 0) by (subst f; destruct up; vm_compute; discriminate).
  assert (Hno : forall q, ~ q == 0 -> Qeq_bool q 0 = false).
  { intros q Hq. destruct (Qeq_bool q 0) eqn:E; [|reflexivity].
    apply Qeq_bool_iff in E. contradiction. }
  split; [|split; [|split]].
  - intros Hin. unfold on_scroll. now rewrite Hin.
  - intros Hin Hz. unfold on_scroll. rewrite Hin. cbn [negb]. cbv zeta.
    fold x0 x1. apply Qeq_bool_iff in Hz. now rewrite Hz.
  - intros Hin Hx Hz. unfold on_scroll. rewrite Hin. cbn [negb]. cbv zeta.
    fold x0 x1 y0 y1. rewrite (Hno _ Hx).
    apply Qeq_bool_iff in Hz. rewrite Hz.
    eexists. split; [reflexivity|].
    rewrite xlim_set_xlim, ylim_set_xlim. cbn [fst snd]. fold f.
    split; [now apply zoom_width|reflexivity].
  - intros Hin Hx Hy. unfold on_scroll. rewrite Hin. cbn [negb]. cbv zeta.
    fold x0 x1 y0 y1. rewrite (Hno _ Hx), (Hno _ Hy).
    eexists. split; [reflexivity|].
    rewrite xlim_set_ylim, xlim_set_xlim, ylim_set_ylim.
    cbn [fst snd]. fold f.
    split; [now apply zoom_width|]. split; [now apply zoom_width|].
    split; [now apply zoom_relative_position|].
    split; [now apply zoom_relative_position|].
    proj. repeat split.
Qed.

Lemma scroll_zooms_about_pointer_witness :
  (exists st',
      on_scroll (pointer 10 10) true init = Ok st'
      /\ snd (xlim st') - fst (xlim st') == (50 - 0) * (1 / 1.1))
  /\ on_scroll (pointer 10 10) true (set_xlim (3, 3) init)
     = Raised ValueError (set_xlim (3, 3) init).
Proof.
  split.
  - destruct (scroll_zooms_about_pointer (pointer 10 10) true init)
      as (_ & _ & _ & Hzoom).
    destruct Hzoom as (st' & Hs & Hw & _);
      [vm_compute; reflexivity|vm_compute; discriminate..|].
    exists st'. split; [exact Hs|exact Hw].
  - destruct (scroll_zooms_about_pointer (pointer 10 10) true
                (set_xlim (3, 3) init)) as (_ & Hzero & _).
    apply Hzero; vm_compute; reflexivity.
Defined.

(** ** The view limits *)

Lemma py_min_list_lower (l : list Q) (d : Q) :
  py_min_list d l <= d /\ forall v, In v l -> py_min_list d l <= v.
Proof.
  unfold py_min_list. revert d.
  induction l as [|a l IH]; intros d; simpl.
  - split; [lra|]. intros v [].
  - destruct (IH (py_min d a)) as [H1 H2].
    pose proof (py_min_lower_l d a). pose proof (py_min_lower_r d a).
    split; [lra|]. intros v [<-|Hv]; [lra|]. now apply H2.
Qed.

Lemma py_max_list_upper (l : list Q) (d : Q) :
  d <= py_max_list d l /\ forall v, In v l -> v <= py_max_list d l.
Proof.
  unfold py_max_list. revert d.
  induction l as [|a l IH]; intros d; simpl.
  - split; [lra|]. intros v [].
  - destruct (IH (py_max d a)) as [H1 H2].
    pose proof (py_max_lower d a). pose proof (py_max_upper d a).
    split; [lra|]. intros v [<-|Hv]; [lra|]. now apply H2.
Qed.



(** ** Validation in the properties dialog *)

(** [on_ok] hands back a tuple exactly when the name is not empty, the
    four numeric fields convert, and neither width nor height is [<= 0];
    the tuple then holds the name as typed and the converted numbers.
    That test is weaker than "positive": besides the positive numbers it
    lets through the positive infinity and a NaN, whose comparisons are
    all false.  An empty name is reported before any number is looked at,
    and a size that is [<= 0] only after all four numbers converted. *)
Theorem on_ok_validates
    (float : string -> option PyFloat) (entries : Entries) :
  (forall r,
      on_ok float entries = inr r <->
      exists vx vy w h,
        entry_name entries <> ""
        /\ float (entry_x entries) = Some vx
        /\ float (entry_y entries) = Some vy
        /\ float (entry_width entries) = Some w
        /\ float (entry_height entries) = Some h
        /\ le_zero w = false /\ le_zero h = false
        /\ r = (entry_name entries, vx, vy, w, h))
  /\ (entry_name entries = "" -> on_ok float entries = inl NameRequired)
  /\ (on_ok float entries = inl NotPositive ->
      exists vx vy w h,
        float (entry_x entries) = Some vx
        /\ float (entry_y entries) = Some vy
        /\ float (entry_width entries) = Some w
        /\ float (entry_height entries) = Some h
        /\ (le_zero w = true \/ le_zero h = true))
  /\ (forall v,
        le_zero v = false <->
        (exists q, v = Finite q /\ 0 < q) \/ v = PosInf \/ v = NaN).
Proof.
  split; [|split; [|split]].
  - intros r. unfold on_ok.
    destruct (entry_name entries) as [|c nm] eqn:Hn; cbn [truthy negb].
    { split; [discriminate|].
      intros (vx & vy & w & h & Hne & _). congruence. }
    split.
    + destruct (float (entry_x entries)) as [vx|]; [|discriminate].
      destruct (float (entry_y entries)) as [vy|]; [|discriminate].
      destruct (float (entry_width entries)) as [w|]; [|discriminate].
      destruct (float (entry_height entries)) as [h|]; [|discriminate].
      destruct (le_zero w) eqn:Ew; [discriminate|].
      destruct (le_zero h) eqn:Eh; [discriminate|].
      intros [= <-]. exists vx, vy, w, h.
      repeat split; try reflexivity; try assumption. discriminate.
    + intros (vx & vy & w & h & _ & -> & -> & -> & -> & -> & -> & ->).
      reflexivity.
  - intros Hn. unfold on_ok. now rewrite Hn.
  - unfold on_ok.
    destruct (negb _); [discriminate|].
    destruct (float (entry_x entries)) as [vx|]; [|discriminate].
    destruct (float (entry_y entries)) as [vy|]; [|discriminate].
    destruct (float (entry_width entries)) as [w|]; [|discriminate].
    destruct (float (entry_height entries)) as [h|]; [|discriminate].
    destruct (le_zero w) eqn:Ew, (le_zero h) eqn:Eh; try discriminate;
      intros _; exists vx, vy, w, h; auto 10.
  - intros v. destruct v as [q| | |]; cbn [le_zero].
    + split.
      * intros Hq. left. exists q. split; [reflexivity|].
        apply Qnot_le_lt. intros Hle. apply Qle_bool_iff in Hle. congruence.
      * intros [(q' & [= <-] & Hq)|[H|H]]; try discriminate H.
        destruct (Qle_bool q 0) eqn:E; [|reflexivity].
        apply Qle_bool_iff in E. lra.
    + split; [auto|reflexivity].
    + split; [discriminate|].
      intros [(q & H & _)|[H|H]]; discriminate H.
    + split; [auto|reflexivity].
Qed.

Lemma on_ok_validates_witness :
  on_ok float_of_sample (mkEntries "Den" "0" "0" "10" "2.5")
  = inr ("Den", Finite 0, Finite 0, Finite 10, Finite 2.5)
  /\ on_ok float_of_sample (mkEntries "Den" "0" "0" "nan" "inf")
     = inr ("Den", Finite 0, Finite 0, NaN, PosInf)
  /\ on_ok float_of_sample (mkEntries "" "x" "0" "10" "10") = inl NameRequired.
Proof.
  split; [|split].
  - destruct (on_ok_validates float_of_sample
                (mkEntries "Den" "0" "0" "10" "2.5")) as (Hok & _).
    apply Hok. exists (Finite 0), (Finite 0), (Finite 10), (Finite 2.5).
    repeat split; try reflexivity. discriminate.
  - destruct (on_ok_validates float_of_sample
                (mkEntries "Den" "0" "0" "nan" "inf")) as (Hok & _).
    apply Hok. exists (Finite 0), (Finite 0), NaN, PosInf.
    repeat split; try reflexivity. discriminate.
  - destruct (on_ok_validates float_of_sample
                (mkEntries "" "x" "0" "10" "10")) as (_ & Hname & _).
    apply Hname. reflexivity.
Defined.

(** ** Resizing, at work *)

Lemma resize_state_floor_witness :
  let '(_, _, _, nw, nh) := resize_state "top-left" room_A 25 (-30) in
  1 <= nw /\ 1 <= nh.
Proof.
  apply (resize_state_floor "top-left" "A" 0 0 10 10 25 (-30)).
  unfold handles. apply elem_of_cons. left. reflexivity.
Defined.

Lemma resize_right_top_anchored_witness :
  let '(_, nx, ny, _, _) := resize_state "top-right" room_A (-4) (-7) in
  (true = true -> nx = 0) /\ (true = true -> ny = 0).
Proof.
  apply (resize_right_top_anchored "top-right" "A" 0 0 10 10 (-4) (-7)).
  unfold handles. apply elem_of_cons. right. apply elem_of_cons. left.
  reflexivity.
Defined.

Lemma resize_left_bottom_anchor_witness :
  let '(_, nx, _, nw, _) := resize_state "left" room_A 4 0 in
  nx + nw == 0 + 10.
Proof.
  pose proof (resize_left_bottom_anchor "left" "A" 0 0 10 10 4 0) as H.
  cbn in H. cbn.
  destruct H as [Hleft _].
  - unfold handles. rewrite !elem_of_cons. tauto.
  - destruct (Hleft eq_refl) as [_ Hiff]. apply Hiff.
    vm_compute. discriminate.
Defined.

(** ** The area of a room *)

Lemma py_max_at_least a b : a <= b -> py_max a b == b.
Proof.
  intros H. unfold py_max. destruct (Qlt_bool a b) eqn:E; [reflexivity|].
  apply Qlt_bool_false_iff in E. lra.
Qed.

(** Each room counts for at least [0.1 * 0.1] in the total, whatever its
    stored width and height (zero and negative included), and for exactly
    [width * height] as soon as both are at least 0.1. *)
Theorem room_area_floor (sh : Shape) (rooms : list Shape) :
  0.01 <= room_area sh
  /\ (0.1 <= width sh -> 0.1 <= height sh ->
      room_area sh == width sh * height sh)
  /\ 0.01 * inject_Z (Z.of_nat (length rooms)) <= sum_areas rooms.
Proof.
  assert (Hfloor : forall s, 0.01 <= room_area s).
  { intros s. unfold room_area.
    pose proof (py_max_lower 0.1 (width s)) as Hw.
    pose proof (py_max_lower 0.1 (height s)) as Hh.
    assert (H : 0.1 * 0.1 <= py_max 0.1 (width s) * py_max 0.1 (height s)).
    { apply Qle_trans with (0.1 * py_max 0.1 (height s)).
      - apply Qmult_le_l; [reflexivity|assumption].
      - apply Qmult_le_r; [lra|assumption]. }
    lra. }
  split; [apply Hfloor|]. split.
  - intros Hw Hh. unfold room_area.
    rewrite (py_max_at_least 0.1 (width sh)) by assumption.
    rewrite (py_max_at_least 0.1 (height sh)) by assumption.
    reflexivity.
  - induction rooms as [|s rooms IH].
    + vm_compute. discriminate.
    + cbn [sum_areas length]. rewrite Nat2Z.inj_succ, <- Z.add_1_r.
      rewrite inject_Z_plus. pose proof (Hfloor s).
      change (inject_Z 1) with 1. lra.
Qed.

Lemma room_area_floor_witness :
  room_area (mkShape Room "A" 0 0 10 10) == 10 * 10.
Proof.
  destruct (room_area_floor (mkShape Room "A" 0 0 10 10) []) as (_ & Hexact & _).
  apply Hexact; vm_compute; discriminate.
Defined.

(** ** What holds along every run of the handlers *)

Lemma is_room_same_heap st st' item :
  heap st' = heap st -> is_room st' item = is_room st item.
Proof.
  intros H. destruct item as [i|]; [|reflexivity].
  unfold is_room. now rewrite (obj_same_heap st st' i H).
Qed.

Lemma is_room_set_obj_state i s st item :
  is_room (set_obj_state i s st) item = is_room st item.
Proof.
  destruct item as [j|]; [|reflexivity].
  unfold is_room, obj, set_obj_state. rewrite heap_set_heap.
  now rewrite cls_alter_update_state.
Qed.

Lemma buttons_ok_frame st st' :
  heap st' = heap st -> selected_item st' = selected_item st ->
  clipboard st' = clipboard st -> copy_button st' = copy_button st ->
  paste_button st' = paste_button st ->
  buttons_ok st -> buttons_ok st'.
Proof.
  intros Hh Hs Hc Hcb Hpb [H1 H2]. split.
  - now rewrite Hcb, Hs, (is_room_same_heap st st' _ Hh).
  - now rewrite Hpb, Hc.
Qed.

Lemma buttons_ok_update_buttons st : buttons_ok (update_buttons st).
Proof. split; reflexivity. Qed.

Lemma buttons_ok_log_action e st : buttons_ok (log_action e st).
Proof. apply buttons_ok_update_buttons. Qed.

Lemma buttons_ok_draw_blueprint st :
  buttons_ok st -> buttons_ok (draw_blueprint st).
Proof.
  destruct (draw_blueprint_unfold st) as (xl & yl & ->).
  apply buttons_ok_frame; reflexivity.
Qed.

Lemma buttons_ok_select_item item st :
  buttons_ok st -> buttons_ok (select_item item st).
Proof.
  unfold select_item. case_decide; [auto|]. intros _.
  apply buttons_ok_draw_blueprint, buttons_ok_update_buttons.
Qed.

Lemma buttons_ok_cancel_action c st :
  buttons_ok st -> buttons_ok (cancel_action c st).
Proof.
  intros H. unfold cancel_action. cbv zeta. apply buttons_ok_draw_blueprint.
  destruct (ghost_rect st), c;
    (eapply buttons_ok_frame; [..|exact H]; reflexivity).
Qed.

Lemma buttons_ok_set_obj_state i s st :
  buttons_ok st -> buttons_ok (set_obj_state i s st).
Proof.
  intros [H1 H2]. split; [|exact H2].
  rewrite is_room_set_obj_state. exact H1.
Qed.

(** Assignments to the other attributes leave the buttons right. *)
Lemma buttons_ok_set_house v st :
  buttons_ok st -> buttons_ok (set_house v st).
Proof. apply buttons_ok_frame; reflexivity. Qed.
Lemma buttons_ok_set_furnishings v st :
  buttons_ok st -> buttons_ok (set_furnishings v st).
Proof. apply buttons_ok_frame; reflexivity. Qed.
Lemma buttons_ok_set_history v st :
  buttons_ok st -> buttons_ok (set_history v st).
Proof. apply buttons_ok_frame; reflexivity. Qed.
Lemma buttons_ok_set_redo_stack v st :
  buttons_ok st -> buttons_ok (set_redo_stack v st).
Proof. apply buttons_ok_frame; reflexivity. Qed.
Lemma buttons_ok_set_current_action v st :
  buttons_ok st -> buttons_ok (set_current_action v st).
Proof. apply buttons_ok_frame; reflexivity. Qed.
Lemma buttons_ok_set_action_start_xy v st :
  buttons_ok st -> buttons_ok (set_action_start_xy v st).
Proof. apply buttons_ok_frame; reflexivity. Qed.
Lemma buttons_ok_set_ghost_rect v st :
  buttons_ok st -> buttons_ok (set_ghost_rect v st).
Proof. apply buttons_ok_frame; reflexivity. Qed.
Lemma buttons_ok_set_object_to_add v st :
  buttons_ok st -> buttons_ok (set_object_to_add v st).
Proof. apply buttons_ok_frame; reflexivity. Qed.
Lemma buttons_ok_set_draw_mode_active v st :
  buttons_ok st -> buttons_ok (set_draw_mode_active v st).
Proof. apply buttons_ok_frame; reflexivity. Qed.
Lemma buttons_ok_set_original_state v st :
  buttons_ok st -> buttons_ok (set_original_state v st).
Proof. apply buttons_ok_frame; reflexivity. Qed.
Lemma buttons_ok_set_resize_handle v st :
  buttons_ok st -> buttons_ok (set_resize_handle v st).
Proof. apply buttons_ok_frame; reflexivity. Qed.
Lemma buttons_ok_set_toolbar_mode v st :
  buttons_ok st -> buttons_ok (set_toolbar_mode v st).
Proof. apply buttons_ok_frame; reflexivity. Qed.
Lemma buttons_ok_set_xlim v st :
  buttons_ok st -> buttons_ok (set_xlim v st).
Proof. apply buttons_ok_frame; reflexivity. Qed.
Lemma buttons_ok_set_ylim v st :
  buttons_ok st -> buttons_ok (set_ylim v st).
Proof. apply buttons_ok_frame; reflexivity. Qed.
Lemma buttons_ok_set_total_sqft_label v st :
  buttons_ok st -> buttons_ok (set_total_sqft_label v st).
Proof. apply buttons_ok_frame; reflexivity. Qed.
Lemma buttons_ok_set_cursor v st :
  buttons_ok st -> buttons_ok (set_cursor v st).
Proof. apply buttons_ok_frame; reflexivity. Qed.

(** The calls that touch neither the modes nor the action in progress. *)
Lemma same_interaction_refl st : same_interaction st st.
Proof. repeat split. Qed.

Lemma same_interaction_set_heap v st st' :
  same_interaction st st' -> same_interaction st (set_heap v st').
Proof. exact id. Qed.
Lemma same_interaction_set_house v st st' :
  same_interaction st st' -> same_interaction st (set_house v st').
Proof. exact id. Qed.
Lemma same_interaction_set_furnishings v st st' :
  same_interaction st st' -> same_interaction st (set_furnishings v st').
Proof. exact id. Qed.
Lemma same_interaction_set_selected_item v st st' :
  same_interaction st st' -> same_interaction st (set_selected_item v st').
Proof. exact id. Qed.
Lemma same_interaction_set_history v st st' :
  same_interaction st st' -> same_interaction st (set_history v st').
Proof. exact id. Qed.
Lemma same_interaction_set_redo_stack v st st' :
  same_interaction st st' -> same_interaction st (set_redo_stack v st').
Proof. exact id. Qed.
Lemma same_interaction_set_clipboard v st st' :
  same_interaction st st' -> same_interaction st (set_clipboard v st').
Proof. exact id. Qed.
Lemma same_interaction_set_ghost_rect v st st' :
  same_interaction st st' -> same_interaction st (set_ghost_rect v st').
Proof. exact id. Qed.
Lemma same_interaction_set_toolbar_mode v st st' :
  same_interaction st st' -> same_interaction st (set_toolbar_mode v st').
Proof. exact id. Qed.
Lemma same_interaction_set_xlim v st st' :
  same_interaction st st' -> same_interaction st (set_xlim v st').
Proof. exact id. Qed.
Lemma same_interaction_set_ylim v st st' :
  same_interaction st st' -> same_interaction st (set_ylim v st').
Proof. exact id. Qed.
Lemma same_interaction_set_total_sqft_label v st st' :
  same_interaction st st' -> same_interaction st (set_total_sqft_label v st').
Proof. exact id. Qed.
Lemma same_interaction_set_cursor v st st' :
  same_interaction st st' -> same_interaction st (set_cursor v st').
Proof. exact id. Qed.
Lemma same_interaction_set_copy_button v st st' :
  same_interaction st st' -> same_interaction st (set_copy_button v st').
Proof. exact id. Qed.
Lemma same_interaction_set_paste_button v st st' :
  same_interaction st st' -> same_interaction st (set_paste_button v st').
Proof. exact id. Qed.
Lemma same_interaction_update_buttons st st' :
  same_interaction st st' -> same_interaction st (update_buttons st').
Proof.
  intros (H1 & H2 & H3 & H4 & H5 & H6).
  repeat split; proj; assumption.
Qed.
Lemma same_interaction_draw_blueprint st st' :
  same_interaction st st' -> same_interaction st (draw_blueprint st').
Proof.
  intros (H1 & H2 & H3 & H4 & H5 & H6).
  repeat split; proj; assumption.
Qed.
Lemma same_interaction_log_action e st st' :
  same_interaction st st' -> same_interaction st (log_action e st').
Proof.
  intros (H1 & H2 & H3 & H4 & H5 & H6).
  repeat split; proj; assumption.
Qed.
Lemma same_interaction_select_item item st st' :
  same_interaction st st' -> same_interaction st (select_item item st').
Proof.
  intros (H1 & H2 & H3 & H4 & H5 & H6).
  repeat split; proj; assumption.
Qed.
Lemma same_interaction_set_obj_state i s st st' :
  same_interaction st st' -> same_interaction st (set_obj_state i s st').
Proof.
  intros (H1 & H2 & H3 & H4 & H5 & H6).
  repeat split; proj; assumption.
Qed.
Lemma same_interaction_store sh st st' :
  same_interaction st st' -> same_interaction st (store sh st').
Proof.
  intros (H1 & H2 & H3 & H4 & H5 & H6).
  repeat split; proj; assumption.
Qed.
Lemma same_interaction_house_append item st st' :
  same_interaction st st' -> same_interaction st (house_append item st').
Proof.
  intros (H1 & H2 & H3 & H4 & H5 & H6).
  repeat split; proj; assumption.
Qed.
Lemma same_interaction_furnishings_append item st st' :
  same_interaction st st' -> same_interaction st (furnishings_append item st').
Proof.
  intros (H1 & H2 & H3 & H4 & H5 & H6).
  repeat split; proj; assumption.
Qed.

Lemma same_interaction_append_room s st st' :
  same_interaction st st' -> same_interaction st (append_room s st').
Proof.
  intros H. unfold append_room.
  now apply same_interaction_house_append, same_interaction_store.
Qed.

Lemma same_interaction_clear_all st st' :
  same_interaction st st' -> same_interaction st (clear_all st').
Proof.
  intros H. unfold clear_all. cbv zeta.
  apply same_interaction_update_buttons, same_interaction_select_item.
  exact H.
Qed.

(** Results of callbacks, reduced to the state they leave. *)
Ltac norm :=
  repeat first
    [ rewrite and_then_Ok | rewrite and_then_Raised
    | rewrite state_of_Ok | rewrite state_of_Raised ];
  cbv beta iota zeta.

Ltac same :=
  norm;
  repeat match goal with
    | |- same_interaction _ (append_room _ _) =>
        apply same_interaction_append_room
    | |- same_interaction _ (clear_all _) => apply same_interaction_clear_all
    | |- same_interaction _ (set_heap _ _) => apply same_interaction_set_heap
    | |- same_interaction _ (set_house _ _) => apply same_interaction_set_house
    | |- same_interaction _ (set_furnishings _ _) => apply same_interaction_set_furnishings
    | |- same_interaction _ (set_selected_item _ _) => apply same_interaction_set_selected_item
    | |- same_interaction _ (set_history _ _) => apply same_interaction_set_history
    | |- same_interaction _ (set_redo_stack _ _) => apply same_interaction_set_redo_stack
    | |- same_interaction _ (set_clipboard _ _) => apply same_interaction_set_clipboard
    | |- same_interaction _ (set_ghost_rect _ _) => apply same_interaction_set_ghost_rect
    | |- same_interaction _ (set_toolbar_mode _ _) => apply same_interaction_set_toolbar_mode
    | |- same_interaction _ (set_xlim _ _) => apply same_interaction_set_xlim
    | |- same_interaction _ (set_ylim _ _) => apply same_interaction_set_ylim
    | |- same_interaction _ (set_total_sqft_label _ _) => apply same_interaction_set_total_sqft_label
    | |- same_interaction _ (set_cursor _ _) => apply same_interaction_set_cursor
    | |- same_interaction _ (set_copy_button _ _) => apply same_interaction_set_copy_button
    | |- same_interaction _ (set_paste_button _ _) => apply same_interaction_set_paste_button
    | |- same_interaction _ (update_buttons _) => apply same_interaction_update_buttons
    | |- same_interaction _ (draw_blueprint _) => apply same_interaction_draw_blueprint
    | |- same_interaction _ (log_action _ _) => apply same_interaction_log_action
    | |- same_interaction _ (select_item _ _) => apply same_interaction_select_item
    | |- same_interaction _ (set_obj_state _ _ _) => apply same_interaction_set_obj_state
    | |- same_interaction _ (store _ _) => apply same_interaction_store
    | |- same_interaction _ (house_append _ _) => apply same_interaction_house_append
    | |- same_interaction _ (furnishings_append _ _) => apply same_interaction_furnishings_append
    | |- same_interaction _ (state_of (Ok _)) => rewrite state_of_Ok
    | |- same_interaction _ (state_of (Raised _ _)) =>
        rewrite state_of_Raised
    end;
  try apply same_interaction_refl.

Lemma buttons_ok_house_append item st :
  buttons_ok st -> buttons_ok (house_append item st).
Proof. apply buttons_ok_set_house. Qed.

Lemma buttons_ok_furnishings_append item st :
  buttons_ok st -> buttons_ok (furnishings_append item st).
Proof. apply buttons_ok_set_furnishings. Qed.

(** Follows a state back through the calls that made it, down to a state
    whose buttons are known to be right. *)
Ltac buttons :=
  norm;
  repeat match goal with
    | |- buttons_ok (clear_all _) => apply buttons_ok_update_buttons
    | |- buttons_ok (update_buttons _) => apply buttons_ok_update_buttons
    | |- buttons_ok (log_action _ _) => apply buttons_ok_log_action
    | |- buttons_ok (draw_blueprint _) => apply buttons_ok_draw_blueprint
    | |- buttons_ok (select_item _ _) => apply buttons_ok_select_item
    | |- buttons_ok (cancel_action _ _) => apply buttons_ok_cancel_action
    | |- buttons_ok (set_obj_state _ _ _) => apply buttons_ok_set_obj_state
    | |- buttons_ok (house_append _ _) => apply buttons_ok_house_append
    | |- buttons_ok (furnishings_append _ _) =>
        apply buttons_ok_furnishings_append
    | |- buttons_ok (set_house _ _) => apply buttons_ok_set_house
    | |- buttons_ok (set_furnishings _ _) => apply buttons_ok_set_furnishings
    | |- buttons_ok (set_history _ _) => apply buttons_ok_set_history
    | |- buttons_ok (set_redo_stack _ _) => apply buttons_ok_set_redo_stack
    | |- buttons_ok (set_current_action _ _) =>
        apply buttons_ok_set_current_action
    | |- buttons_ok (set_action_start_xy _ _) =>
        apply buttons_ok_set_action_start_xy
    | |- buttons_ok (set_ghost_rect _ _) => apply buttons_ok_set_ghost_rect
    | |- buttons_ok (set_object_to_add _ _) =>
        apply buttons_ok_set_object_to_add
    | |- buttons_ok (set_draw_mode_active _ _) =>
        apply buttons_ok_set_draw_mode_active
    | |- buttons_ok (set_original_state _ _) =>
        apply buttons_ok_set_original_state
    | |- buttons_ok (set_resize_handle _ _) =>
        apply buttons_ok_set_resize_handle
    | |- buttons_ok (set_toolbar_mode _ _) => apply buttons_ok_set_toolbar_mode
    | |- buttons_ok (set_xlim _ _) => apply buttons_ok_set_xlim
    | |- buttons_ok (set_ylim _ _) => apply buttons_ok_set_ylim
    | |- buttons_ok (set_total_sqft_label _ _) =>
        apply buttons_ok_set_total_sqft_label
    | |- buttons_ok (set_cursor _ _) => apply buttons_ok_set_cursor
    end;
  try assumption.

Lemma cancel_action_modes c st :
  object_to_add (cancel_action c st) = None
  /\ draw_mode_active (cancel_action c st)
     = (if c then false else draw_mode_active st).
Proof.
  unfold cancel_action. cbv zeta.
  rewrite object_to_add_draw_blueprint, draw_mode_active_draw_blueprint.
  destruct (ghost_rect st), c; repeat split; reflexivity.
Qed.

Lemma object_to_add_cancel_action c st :
  object_to_add (cancel_action c st) = None.
Proof. apply cancel_action_modes. Qed.

Lemma draw_mode_active_cancel_action c st :
  draw_mode_active (cancel_action c st)
  = (if c then false else draw_mode_active st).
Proof. apply cancel_action_modes. Qed.

#[global] Hint Rewrite object_to_add_cancel_action
  draw_mode_active_cancel_action : proj.

Lemma consistent_frame st st' :
  same_interaction st st' -> buttons_ok st' ->
  modes_ok st -> action_ok st -> consistent st'.
Proof.
  intros (H1 & H2 & H3 & H4 & H5 & H6) Hb Hm Ha.
  split; [exact Hb|].
  unfold modes_ok, action_ok. rewrite H1, H2, H3, H4, H5, H6.
  split; assumption.
Qed.

(** The state is the old one as far as the modes and the action in
    progress go, and its buttons are right. *)
Ltac frame H :=
  let Hb := fresh "Hb" in
  let Hm := fresh "Hm" in
  let Ha := fresh "Ha" in
  destruct H as (Hb & Hm & Ha);
  match type of Hm with
  | modes_ok ?s =>
      apply (consistent_frame s);
        [solve [same]|solve [buttons]|exact Hm|exact Ha]
  end.

Lemma move_selected_consistent dx dy st :
  consistent st -> consistent (move_selected dx dy st).
Proof.
  intros H. unfold move_selected.
  destruct (selected_item st) as [item|]; [|exact H].
  destruct (get_state _) as [[[[n ox] oy] ow] oh].
  frame H.
Qed.

Lemma prompt_add_room_precise_consistent st st' :
  outcome (prompt_add_room_precise st) st' ->
  consistent st -> consistent st'.
Proof.
  unfold prompt_add_room_precise. intros H Hc.
  apply outcome_dialog in H as ([s| |] & H); apply outcome_ret in H as ->;
    [frame Hc|exact Hc|exact Hc].
Qed.

Lemma copy_room_consistent st : consistent st -> consistent (copy_room st).
Proof.
  intros H. unfold copy_room.
  destruct (selected_item st) as [item|]; [|exact H].
  destruct (is_room st (Some item)); [|exact H].
  frame H.
Qed.

Lemma paste_room_consistent st : consistent st -> consistent (paste_room st).
Proof.
  intros H. unfold paste_room.
  destruct (clipboard st) as [[[[[n ?] ?] w] h]|]; [|exact H].
  frame H.
Qed.

Lemma clear_blueprint_consistent c st st' :
  outcome (clear_blueprint c st) st' -> consistent st -> consistent st'.
Proof.
  unfold clear_blueprint. intros H Hc. destruct c.
  - apply outcome_yesno in H as ([|] & H); apply outcome_ret in H as ->;
      [frame Hc|exact Hc].
  - apply outcome_ret in H as ->. frame Hc.
Qed.

Lemma generate_rooms_consistent st st' :
  outcome (generate_rooms st) st' -> consistent st -> consistent st'.
Proof.
  unfold generate_rooms, mbind, Eff_bind, mret, Eff_ret. intros H Hc.
  apply outcome_bind in H as (st0 & H0 & H).
  apply outcome_ret in H0 as ->.
  repeat (apply outcome_bind in H as (? & _ & H)).
  apply outcome_ret in H as ->.
  frame Hc.
Qed.

Lemma generate_random_layout_consistent st st' :
  outcome (generate_random_layout st) st' -> consistent st -> consistent st'.
Proof.
  unfold generate_random_layout. intros H Hc.
  destruct (house st).
  - now apply (generate_rooms_consistent st).
  - apply outcome_yesno in H as ([|] & H).
    + now apply (generate_rooms_consistent st).
    + now apply outcome_ret in H as ->.
Qed.

Lemma on_motion_consistent event st :
  consistent st -> consistent (state_of (on_motion event st)).
Proof.
  intros Hc. unfold on_motion.
  destruct (_ || _); [exact Hc|].
  destruct (truthy _).
  { destruct (_ ≫= _) as [[w h]|]; [|exact Hc].
    destruct (ghost_rect st); frame Hc. }
  destruct (current_action st) as [a|]; [|frame Hc].
  destruct (action_start_xy st) as [[sx sy]|]; [|exact Hc].
  destruct a, (ghost_rect st), (selected_item st);
    repeat first
      [ frame Hc
      | match goal with
        | |- context [match ?x with _ => _ end] => destruct x
        end ].
Qed.

Lemma on_scroll_consistent event up st :
  consistent st -> consistent (state_of (on_scroll event up st)).
Proof.
  intros Hc. unfold on_scroll. destruct (negb _); [exact Hc|].
  cbv zeta. destruct (Qeq_bool _ 0); [exact Hc|].
  destruct (Qeq_bool _ 0); frame Hc.
Qed.

Lemma prompt_edit_room_properties_consistent room st r :
  outcome (prompt_edit_room_properties room st) r ->
  consistent st -> consistent (state_of r).
Proof.
  unfold prompt_edit_room_properties. intros H Hc.
  apply outcome_dialog in H as ([s| |] & H); apply outcome_ret in H as ->.
  - destruct (negb _); frame Hc.
  - unfold house_remove. destruct (list_remove _ _); [|exact Hc].
    rewrite and_then_Ok. cbv beta zeta. case_decide; frame Hc.
  - frame Hc.
Qed.

Lemma prompt_edit_object_properties_consistent o st r :
  outcome (prompt_edit_object_properties o st) r ->
  consistent st -> consistent (state_of r).
Proof.
  unfold prompt_edit_object_properties. intros H Hc.
  apply outcome_dialog in H as ([s| |] & H); apply outcome_ret in H as ->.
  - destruct (negb _); frame Hc.
  - unfold furnishings_remove. destruct (list_remove _ _); [|exact Hc].
    rewrite and_then_Ok. cbv beta zeta. case_decide; frame Hc.
  - frame Hc.
Qed.

Lemma delete_selected_item_consistent st r :
  outcome (delete_selected_item st) r ->
  consistent st -> consistent (state_of r).
Proof.
  unfold delete_selected_item. intros H Hc.
  destruct (selected_item st) as [item|];
    [|now apply outcome_ret in H as ->].
  apply outcome_yesno in H as ([|] & H); apply outcome_ret in H as ->;
    [|exact Hc].
  unfold house_remove, furnishings_remove.
  destruct (cls _), (list_remove _ _); frame Hc.
Qed.

Lemma undo_consistent st : consistent st -> consistent (state_of (undo st)).
Proof.
  intros Hc. unfold undo.
  destruct (list_pop (history st)) as [[[[[a item] s1] s2] rest]|];
    [|exact Hc].
  cbv zeta. unfold house_remove, furnishings_remove, restore_state.
  destruct a, s1; try destruct (list_remove _ _); frame Hc.
Qed.

Lemma redo_consistent st : consistent st -> consistent (state_of (redo st)).
Proof.
  intros Hc. unfold redo.
  destruct (list_pop (redo_stack st)) as [[[[[a item] s1] s2] rest]|];
    [|exact Hc].
  cbv zeta. unfold house_remove, furnishings_remove, restore_state.
  destruct a, s2; try destruct (list_remove _ _); frame Hc.
Qed.

(** The calls that change a mode or the action in progress. *)
Lemma no_action_consistent st :
  buttons_ok st -> modes_ok st -> current_action st = None -> consistent st.
Proof.
  intros Hb Hm Hn. split; [exact Hb|]. split; [exact Hm|].
  unfold action_ok. rewrite Hn.
  split; [intros [a [=]]|]. split; [intros [[=]|[=]]|intros [=]].
Qed.

Lemma idle_consistent st :
  buttons_ok st -> object_to_add st = None -> current_action st = None ->
  consistent st.
Proof.
  intros Hb Ho Hn. apply no_action_consistent; [exact Hb| |exact Hn].
  unfold modes_ok. rewrite Ho. split; [reflexivity|intros n [=]].
Qed.

Lemma modes_ok_frame st st' :
  draw_mode_active st' = draw_mode_active st ->
  object_to_add st' = object_to_add st ->
  modes_ok st -> modes_ok st'.
Proof. intros H1 H2. unfold modes_ok. now rewrite H1, H2. Qed.

Lemma cancel_action_consistent c st :
  buttons_ok st -> consistent (cancel_action c st).
Proof.
  intros Hb. apply idle_consistent.
  - now apply buttons_ok_cancel_action.
  - apply object_to_add_cancel_action.
  - apply current_action_cancel_action.
Qed.

Lemma consistent_set_cursor v st :
  consistent st -> consistent (set_cursor v st).
Proof.
  intros (Hb & Hm & Ha). split; [now apply buttons_ok_set_cursor|].
  split; assumption.
Qed.

Lemma consistent_draw_mode_off st :
  consistent st -> consistent (set_draw_mode_active false st).
Proof.
  intros (Hb & Hm & Ha).
  split; [now apply buttons_ok_set_draw_mode_active|].
  split; [|exact Ha].
  split; [discriminate|apply Hm].
Qed.

Lemma toggle_draw_mode_consistent st :
  consistent st ->
  consistent
    (toggle_draw_mode (set_draw_mode_active (negb (draw_mode_active st)) st)).
Proof.
  intros Hc. unfold toggle_draw_mode. cbv zeta.
  rewrite !draw_mode_active_set_draw_mode_active.
  destruct (draw_mode_active st); cbn [negb]; apply consistent_set_cursor.
  - now apply consistent_draw_mode_off.
  - apply cancel_action_consistent.
    apply buttons_ok_set_draw_mode_active, Hc.
Qed.

Lemma enter_add_object_mode_consistent combo st :
  is_Some (dict_get object_templates combo) ->
  consistent st -> consistent (enter_add_object_mode combo st).
Proof.
  intros Hk (Hb & _ & _). unfold enter_add_object_mode. cbv zeta.
  apply no_action_consistent.
  - buttons.
  - unfold modes_ok. proj. split; [discriminate|]. now intros n [= <-].
  - proj. reflexivity.
Qed.

Lemma add_object_at_consistent px py st :
  consistent st -> consistent (state_of (add_object_at px py st)).
Proof.
  intros Hc. unfold add_object_at.
  destruct (object_to_add st) as [n|]; [|exact Hc].
  destruct (dict_get _ _) as [[w h]|]; [|exact Hc].
  cbv zeta. rewrite state_of_Ok. apply cancel_action_consistent.
  destruct Hc as (Hb & _ & _). buttons.
Qed.

Lemma start_consistent p st :
  consistent st -> consistent (set_action_start_xy (Some p) st).
Proof.
  intros (Hb & Hm & Ha). split; [buttons|]. split; [exact Hm|].
  destruct Ha as (_ & H2 & H3).
  split; [intros _; now exists p|]. split; assumption.
Qed.

Lemma on_release_consistent event st r :
  outcome (on_release event st) r ->
  consistent st -> consistent (state_of r).
Proof.
  unfold on_release. intros H Hc.
  destruct (current_action st) as [a|];
    [|now apply outcome_ret in H as ->].
  cbv zeta in H. destruct Hc as (Hb & Hm & Ha).
  assert (Hfinish : forall st',
             buttons_ok st' ->
             draw_mode_active st' = draw_mode_active st ->
             object_to_add st' = object_to_add st ->
             consistent
               (draw_blueprint
                  (set_resize_handle None
                     (set_original_state None
                        (set_current_action None st'))))).
  { intros st' Hb' H1 H2. apply no_action_consistent.
    - buttons.
    - revert Hm. apply modes_ok_frame; proj; assumption.
    - proj. reflexivity. }
  destruct a, (ghost_rect st) as [g|]; break_outcome H;
    try (apply outcome_ret in H as ->; norm;
         first [ exact (conj Hb (conj Hm Ha))
               | apply Hfinish; [buttons|proj; reflexivity|proj; reflexivity] ]).
  apply outcome_string in H as (nm & H).
  destruct (truthy nm); apply outcome_ret in H as ->; norm;
    (apply Hfinish; [buttons|proj; reflexivity|proj; reflexivity]).
Qed.

Lemma truthy_is_Some (o : option string) : truthy o = true -> is_Some o.
Proof. destruct o; [eauto|discriminate]. Qed.

Lemma on_press_consistent event st r :
  outcome (on_press event st) r -> consistent st -> consistent (state_of r).
Proof.
  unfold on_press. intros H Hc.
  destruct (_ || _); [now apply outcome_ret in H as ->|].
  cbv zeta in H.
  pose proof (start_consistent (xdata event, ydata event) st Hc) as Hc1.
  assert (Hs : is_Some
                 (action_start_xy
                    (set_action_start_xy (Some (xdata event, ydata event)) st)))
    by (rewrite action_start_xy_set_action_start_xy; eauto).
  revert H Hc1 Hs.
  generalize (set_action_start_xy (Some (xdata event, ydata event)) st).
  clear st Hc. intros st H Hc Hs.
  destruct (truthy (object_to_add st)).
  { apply outcome_ret in H as ->. now apply add_object_at_consistent. }
  destruct (dblclick event).
  { destruct (find_item_at _ _ _) as [item|];
      [|now apply outcome_ret in H as ->].
    destruct (cls _).
    - eapply prompt_edit_room_properties_consistent; eassumption.
    - eapply prompt_edit_object_properties_consistent; eassumption. }
  apply outcome_ret in H as ->. rewrite state_of_Ok.
  destruct Hc as (Hb & Hm & Ha).
  destruct (find_item_at _ _ _) as [item|].
  - destruct (_ && _) eqn:Hcond.
    + apply andb_true_iff in Hcond as [Hh Hsel].
      apply bool_decide_eq_true in Hsel. apply truthy_is_Some in Hh.
      split; [buttons|]. split.
      * revert Hm. apply modes_ok_frame; proj; reflexivity.
      * unfold action_ok. proj. rewrite <- Hsel.
        split; [intros _; exact Hs|]. split; [intros _; now eexists|].
        intros _. exact Hh.
    + split; [buttons|]. split.
      * revert Hm. apply modes_ok_frame; proj; reflexivity.
      * unfold action_ok. proj.
        split; [intros _; exact Hs|]. split; [intros _; now eexists|].
        intros [=].
  - cbv beta iota zeta. rewrite andb_false_l by reflexivity.
    destruct (draw_mode_active st).
    + split; [buttons|]. split.
      * revert Hm. apply modes_ok_frame; proj; reflexivity.
      * unfold action_ok. proj.
        split; [intros _; exact Hs|]. split; [intros [[=]|[=]]|intros [=]].
    + frame (conj Hb (conj Hm Ha)).
Qed.

Lemma edit_step_consistent st st' :
  edit_step st st' -> consistent st -> consistent st'.
Proof.
  intros H Hc. destruct H.
  - now apply move_selected_consistent.
  - now apply (prompt_add_room_precise_consistent st).
  - now apply copy_room_consistent.
  - now apply paste_room_consistent.
  - now apply (generate_random_layout_consistent st).
  - now apply (on_press_consistent event st).
  - now apply on_motion_consistent.
  - now apply (on_release_consistent event st).
  - now apply on_scroll_consistent.
  - now apply toggle_draw_mode_consistent.
  - now apply enter_add_object_mode_consistent.
  - apply cancel_action_consistent, Hc.
  - now apply (clear_blueprint_consistent true st).
  - now apply (delete_selected_item_consistent st).
  - frame Hc.
Qed.

Lemma init_consistent : consistent init.
Proof.
  unfold init. apply idle_consistent; [buttons|proj; reflexivity..].
Qed.

Lemma reachable_consistent st : reachable st -> consistent st.
Proof.
  induction 1 as [|st st' _ IH Hstep]; [apply init_consistent|].
  destruct Hstep as [st st' Hedit|st|st].
  - now apply (edit_step_consistent st).
  - now apply undo_consistent.
  - now apply redo_consistent.
Qed.

(** In every state that the window goes through when events are handled
    one after the other, the Copy button is enabled exactly when a room is
    selected and the Paste button exactly when the clipboard holds
    something; free-draw mode and object placement are never on together,
    and a pending object type is a key of the template table; an action in
    progress has its start point, a move or a resize its snapshot, and a
    resize its handle. *)
Theorem reachable_interaction_consistent (st : App) :
  reachable st ->
  copy_button st = is_room st (selected_item st)
  /\ paste_button st = bool_decide (is_Some (clipboard st))
  /\ (draw_mode_active st = true -> object_to_add st = None)
  /\ (forall n, object_to_add st = Some n ->
        is_Some (dict_get object_templates n))
  /\ (is_Some (current_action st) -> is_Some (action_start_xy st))
  /\ (current_action st = Some moving
      \/ current_action st = Some resizing_room ->
      is_Some (original_state st))
  /\ (current_action st = Some resizing_room ->
      is_Some (resize_handle st)).
Proof.
  intros Hr.
  destruct (reachable_consistent st Hr)
    as ((Hc & Hp) & (Hd & Hk) & (Hs & Ho & Hh)).
  auto 10.
Qed.

Lemma reachable_interaction_consistent_witness :
  reachable room_A_grabbed
  /\ copy_button room_A_grabbed = is_room room_A_grabbed (Some 0%nat)
  /\ is_Some (resize_handle room_A_grabbed).
Proof.
  assert (Hr : reachable room_A_grabbed).
  { unfold room_A_grabbed.
    eapply reach_step;
      [|apply step_edit;
        apply (es_press (pointer 0.5 5) room_A_selected
                 (run (submits room_A)
                    (on_press (pointer 0.5 5) room_A_selected)));
        apply run_outcome].
    unfold room_A_selected.
    eapply reach_step;
      [|apply step_edit;
        apply (es_release (pointer 0.5 5)
                 (state_of
                    (run (submits room_A)
                       (on_press (pointer 0.5 5) room_A_added)))
                 (run (submits room_A)
                    (on_release (pointer 0.5 5)
                       (state_of
                          (run (submits room_A)
                             (on_press (pointer 0.5 5) room_A_added))))));
        apply run_outcome].
    eapply reach_step;
      [|apply step_edit;
        apply (es_press (pointer 0.5 5) room_A_added
                 (run (submits room_A)
                    (on_press (pointer 0.5 5) room_A_added)));
        apply run_outcome].
    unfold room_A_added.
    eapply reach_step; [apply reach_init|].
    apply step_edit, es_add_room, run_outcome. }
  split; [exact Hr|].
  destruct (reachable_interaction_consistent room_A_grabbed Hr)
    as (Hcopy & _ & _ & _ & _ & _ & Hhandle).
  split.
  - replace (Some 0%nat) with (selected_item room_A_grabbed)
      by (vm_compute; reflexivity).
    exact Hcopy.
  - apply Hhandle. vm_compute. reflexivity.
Defined.

(** ** A selection that outlives its room *)

(** [undo] leaves the selection alone.  When the entry it undoes is the
    creation of the selected room, the room leaves [house] and stays
    selected; a confirmed Delete then raises [ValueError] from
    [list.remove], with nothing deleted and nothing logged. *)
Theorem delete_after_undo_of_creation_raises
    (st : App) (item : nat) (hist : list Entry) (s1 s2 : option State)
    (h1 h2 : list nat) :
  selected_item st = Some item ->
  cls (obj st item) = Room ->
  history st = hist ++ [(add_room, item, s1, s2)] ->
  house st = h1 ++ item :: h2 -> item ∉ h1 -> item ∉ h2 ->
  exists st1,
    undo st = Ok st1
    /\ selected_item st1 = Some item
    /\ house st1 = h1 ++ h2
    /\ exists title message k,
        delete_selected_item st1 = AskYesNo title message k
        /\ k true = Ret (Raised ValueError st1)
        /\ k false = Ret (Ok st1).
Proof.
  intros Hsel Hcls Hhist Hhouse Hn1 Hn2.
  destruct (undo_add_room st hist item s1 s2 (h1 ++ h2) Hhist)
    as (st1 & Hundo & Hmodel).
  { rewrite Hhouse. now apply list_remove_middle. }
  open_model Hmodel.
  exists st1. split; [exact Hundo|].
  split; [now rewrite Hsel0|]. split; [exact Hhs|].
  unfold delete_selected_item. rewrite Hsel0, Hsel.
  eexists _, _, _. split; [reflexivity|]. split; [|reflexivity].
  cbn [negb]. rewrite (obj_same_heap st st1 item Hhp), Hcls.
  unfold house_remove. rewrite Hhs, list_remove_not_elem.
  - now rewrite !and_then_Raised.
  - rewrite elem_of_app. tauto.
Qed.

Lemma delete_after_undo_of_creation_raises_witness :
  exists st1,
    undo room_A_pasted = Ok st1
    /\ run confirms (delete_selected_item st1) = Raised ValueError st1.
Proof.
  destruct (delete_after_undo_of_creation_raises room_A_pasted 1
              [(add_room, 0%nat, Some room_A, None)]
              (Some ("A(copy)", (0 + 50) / 2, (0 + 50) / 2, 10, 10)) None
              [0%nat] [])
    as (st1 & Hundo & _ & _ & t & m & k & Hdel & Hyes & _).
  - vm_compute. reflexivity.
  - vm_compute. reflexivity.
  - vm_compute. reflexivity.
  - vm_compute. reflexivity.
  - intros Hin. apply elem_of_cons in Hin as [Hin|Hin];
      [discriminate Hin|now apply elem_of_nil in Hin].
  - apply not_elem_of_nil.
  - exists st1. split; [exact Hundo|].
    rewrite Hdel.
    change (run confirms (k true) = Raised ValueError st1).
    now rewrite Hyes.
Defined.

(** ** Editing through the properties dialog *)

(** A double click on a shape, outside placement mode, opens the
    properties dialog of its class on the shape's present state.
    Cancelling changes nothing in the model.  A submission equal to the
    present state commits nothing; any other one becomes the state of the
    shape and is committed as one edit entry of the shape's class.  The
    confirmed Delete takes the first occurrence of the shape out of its
    collection, commits one delete entry with the state before, and drops
    the selection if the shape was selected; if the shape is not in the
    collection of its class, [list.remove] raises [ValueError] and
    nothing has changed. *)
Theorem double_click_edits (event : MouseEvent) (st : App) (item : nat) :
  inaxes event = true -> toolbar_mode st = false ->
  truthy (object_to_add st) = false -> dblclick event = true ->
  find_item_at st (xdata event) (ydata event) = Some item ->
  (item < length (heap st))%nat ->
  let old := get_state (obj st item) in
  let c := cls (obj st item) in
  let st1 := set_action_start_xy (Some (xdata event, ydata event)) st in
  exists title k,
    on_press event st = OpenDialog title (Some old) k
    /\ title = match c with
               | Room => "Edit Room Properties"
               | BlueprintObject => "Edit Object Properties"
               end%string
    /\ (exists st',
          k Cancelled = Ret (Ok st')
          /\ heap st' = heap st /\ house st' = house st
          /\ furnishings st' = furnishings st
          /\ history st' = history st /\ redo_stack st' = redo_stack st)
    /\ (forall s, exists st',
          k (Submitted s) = Ret (Ok st')
          /\ house st' = house st /\ furnishings st' = furnishings st
          /\ if state_eqb s old
             then heap st' = heap st /\ history st' = history st
                  /\ redo_stack st' = redo_stack st
             else get_state (obj st' item) = s
                  /\ cls (obj st' item) = c
                  /\ (forall other, other <> item ->
                        obj st' other = obj st other)
                  /\ history st'
                     = history st ++ [(edit_kind c, item, Some old, Some s)]
                  /\ redo_stack st' = [])
    /\ (forall m, list_remove item (members c st) = Some m ->
          exists st',
            k DeleteItem = Ret (Ok st')
            /\ members c st' = m /\ heap st' = heap st
            /\ history st'
               = history st ++ [(delete_kind c, item, Some old, None)]
            /\ redo_stack st' = []
            /\ selected_item st'
               = if decide (selected_item st = Some item) then None
                 else selected_item st)
    /\ (list_remove item (members c st) = None ->
        k DeleteItem = Ret (Raised ValueError st1)).
Proof.
  intros Hin Htool Htok Hdbl Hhit Hv old c st1.
  unfold on_press. rewrite Hin, Htool. cbn [negb orb]. cbv zeta.
  rewrite object_to_add_set_action_start_xy, Htok, Hdbl.
  rewrite (find_item_at_ext st (set_action_start_xy _ st)) by reflexivity.
  rewrite Hhit.
  rewrite (obj_same_heap st (set_action_start_xy _ st) item) by reflexivity.
  fold st1 c.
  assert (Hobj : obj st1 item = obj st item) by reflexivity.
  assert (Hheap : heap st1 = heap st) by reflexivity.
  assert (Hhouse : house st1 = house st) by reflexivity.
  assert (Hfurn : furnishings st1 = furnishings st) by reflexivity.
  assert (Hhist : history st1 = history st) by reflexivity.
  assert (Hredo : redo_stack st1 = redo_stack st) by reflexivity.
  assert (Hsel : selected_item st1 = selected_item st) by reflexivity.
  clearbody st1.
  assert (Hedit : forall s kind,
             let st' :=
               draw_blueprint
                 (log_action (kind, item, Some old, Some s)
                    (set_obj_state item s st1)) in
             house st' = house st /\ furnishings st' = furnishings st
             /\ get_state (obj st' item) = s
             /\ cls (obj st' item) = c
             /\ (forall other, other <> item -> obj st' other = obj st other)
             /\ history st' = history st ++ [(kind, item, Some old, Some s)]
             /\ redo_stack st' = []).
  { intros s kind st'. subst st'. proj.
    rewrite Hhouse, Hfurn, Hhist. split; [reflexivity|].
    split; [reflexivity|].
    split; [unfold obj; proj; rewrite Hheap; now apply get_state_alter|].
    split; [unfold obj; proj; rewrite Hheap;
            now rewrite cls_alter_update_state|].
    split; [|auto].
    intros other Hne. unfold obj. proj. rewrite Hheap.
    now rewrite list_lookup_total_alter_ne by congruence. }
  assert (Hsame : house (draw_blueprint st1) = house st
                  /\ furnishings (draw_blueprint st1) = furnishings st
                  /\ heap (draw_blueprint st1) = heap st
                  /\ history (draw_blueprint st1) = history st
                  /\ redo_stack (draw_blueprint st1) = redo_stack st).
  { proj. auto. }
  destruct c eqn:Hc.
  - unfold prompt_edit_room_properties. rewrite Hobj. fold old.
    eexists _, _. split; [reflexivity|]. split; [reflexivity|].
    cbv beta. split; [|split; [|split]].
    + eexists. split; [reflexivity|]. tauto.
    + intros s. destruct (state_eqb s old);
        cbn [negb]; eexists; (split; [reflexivity|]).
      * tauto.
      * destruct (Hedit s edit_room) as (? & ? & ? & ? & ? & ? & ?).
        cbn [edit_kind]. auto 10.
    + intros m Hm. unfold members in *. unfold house_remove.
      rewrite Hhouse, Hm, and_then_Ok. cbv beta zeta.
      rewrite selected_item_log_action, selected_item_set_house, Hsel.
      eexists. split; [reflexivity|].
      case_decide; proj; rewrite ?Hheap, ?Hhist; auto.
    + intros Hm. unfold members in *. unfold house_remove.
      now rewrite Hhouse, Hm, and_then_Raised.
  - unfold prompt_edit_object_properties. rewrite Hobj. fold old.
    eexists _, _. split; [reflexivity|]. split; [reflexivity|].
    cbv beta. split; [|split; [|split]].
    + eexists. split; [reflexivity|]. tauto.
    + intros s. destruct (state_eqb s old);
        cbn [negb]; eexists; (split; [reflexivity|]).
      * tauto.
      * destruct (Hedit s edit_obj) as (? & ? & ? & ? & ? & ? & ?).
        cbn [edit_kind]. auto 10.
    + intros m Hm. unfold members in *. unfold furnishings_remove.
      rewrite Hfurn, Hm, and_then_Ok. cbv beta zeta.
      rewrite selected_item_log_action, selected_item_set_furnishings, Hsel.
      eexists. split; [reflexivity|].
      case_decide; proj; rewrite ?Hheap, ?Hhist; auto.
    + intros Hm. unfold members in *. unfold furnishings_remove.
      now rewrite Hfurn, Hm, and_then_Raised.
Qed.

Lemma double_click_edits_witness :
  exists title k,
    on_press (double_click 5 5) room_A_added
    = OpenDialog title (Some room_A) k
    /\ title = "Edit Room Properties"%string.
Proof.
  destruct (double_click_edits (double_click 5 5) room_A_added 0)
    as (title & k & Hopen & Htitle & _).
  - reflexivity.
  - vm_compute. reflexivity.
  - vm_compute. reflexivity.
  - reflexivity.
  - vm_compute. reflexivity.
  - vm_compute. lia.
  - exists title, k. split; [exact Hopen|exact Htitle].
Defined.

(** ** Rooms in [house], objects in [furnishings] *)

Lemma item_ok_store hp sh c i : item_ok hp c i -> item_ok (hp ++ [sh]) c i.
Proof.
  intros [Hv Hc]. split; [rewrite length_app; simpl; lia|].
  now rewrite lookup_total_app_l.
Qed.

Lemma item_ok_new hp c s : item_ok (hp ++ [new_shape c s]) c (length hp).
Proof.
  split; [rewrite length_app; simpl; lia|].
  rewrite list_lookup_total_middle by reflexivity. apply cls_new_shape.
Qed.

Lemma item_ok_alter hp s j c i :
  item_ok hp c i -> item_ok (alter (update_state s) j hp) c i.
Proof.
  intros [Hv Hc]. split; [now rewrite length_alter|].
  now rewrite cls_alter_update_state.
Qed.

Lemma entry_ok_store hp sh e : entry_ok hp e -> entry_ok (hp ++ [sh]) e.
Proof.
  destruct e as [[[k item] s1] s2]. intros (H1 & H2 & H3).
  split; [now apply item_ok_store|]. split; assumption.
Qed.

Lemma entry_ok_alter hp s j e :
  entry_ok hp e -> entry_ok (alter (update_state s) j hp) e.
Proof.
  destruct e as [[[k item] s1] s2]. intros (H1 & H2 & H3).
  split; [now apply item_ok_alter|]. split; assumption.
Qed.

Lemma kind_class_edit_kind c : kind_class (edit_kind c) = c.
Proof. now destruct c. Qed.

Lemma typed_frame st st' :
  heap st' = heap st -> house st' = house st ->
  furnishings st' = furnishings st -> history st' = history st ->
  redo_stack st' = redo_stack st -> selected_item st' = selected_item st ->
  typed st -> typed st'.
Proof.
  intros H1 H2 H3 H4 H5 H6. unfold typed.
  now rewrite H1, H2, H3, H4, H5, H6.
Qed.

Lemma typed_draw_blueprint st : typed st -> typed (draw_blueprint st).
Proof. apply typed_frame; proj; reflexivity. Qed.

Lemma typed_update_buttons st : typed st -> typed (update_buttons st).
Proof. apply typed_frame; reflexivity. Qed.

Lemma typed_cancel_action c st : typed st -> typed (cancel_action c st).
Proof. apply typed_frame; proj; reflexivity. Qed.

Lemma typed_store sh st : typed st -> typed (store sh st).
Proof.
  intros (H1 & H2 & H3 & H4 & H5). unfold typed, store. proj.
  repeat split.
  - eapply Forall_impl; [exact H1|]. intros i. apply item_ok_store.
  - eapply Forall_impl; [exact H2|]. intros i. apply item_ok_store.
  - eapply Forall_impl; [exact H3|]. intros e. apply entry_ok_store.
  - eapply Forall_impl; [exact H4|]. intros e. apply entry_ok_store.
  - intros i Hi. rewrite length_app. specialize (H5 i Hi). simpl. lia.
Qed.

Lemma typed_set_obj_state j s st : typed st -> typed (set_obj_state j s st).
Proof.
  intros (H1 & H2 & H3 & H4 & H5). unfold typed, set_obj_state. proj.
  repeat split.
  - eapply Forall_impl; [exact H1|]. intros i. apply item_ok_alter.
  - eapply Forall_impl; [exact H2|]. intros i. apply item_ok_alter.
  - eapply Forall_impl; [exact H3|]. intros e. apply entry_ok_alter.
  - eapply Forall_impl; [exact H4|]. intros e. apply entry_ok_alter.
  - intros i Hi. rewrite length_alter. auto.
Qed.

Lemma typed_set_house h st :
  typed st -> Forall (item_ok (heap st) Room) h -> typed (set_house h st).
Proof. intros (H1 & H2 & H3 & H4 & H5) Hh. repeat split; assumption. Qed.

Lemma typed_set_furnishings f st :
  typed st -> Forall (item_ok (heap st) BlueprintObject) f ->
  typed (set_furnishings f st).
Proof. intros (H1 & H2 & H3 & H4 & H5) Hf. repeat split; assumption. Qed.

Lemma typed_set_history h st :
  typed st -> Forall (entry_ok (heap st)) h -> typed (set_history h st).
Proof. intros (H1 & H2 & H3 & H4 & H5) Hh. repeat split; assumption. Qed.

Lemma typed_set_redo_stack r st :
  typed st -> Forall (entry_ok (heap st)) r -> typed (set_redo_stack r st).
Proof. intros (H1 & H2 & H3 & H4 & H5) Hr. repeat split; assumption. Qed.

Lemma typed_set_selected_item o st :
  typed st -> (forall i, o = Some i -> (i < length (heap st))%nat) ->
  typed (set_selected_item o st).
Proof. intros (H1 & H2 & H3 & H4 & H5) Ho. repeat split; assumption. Qed.

Lemma typed_select_item o st :
  typed st -> (forall i, o = Some i -> (i < length (heap st))%nat) ->
  typed (select_item o st).
Proof.
  intros Ht Ho. unfold select_item. case_decide; [exact Ht|].
  apply typed_draw_blueprint, typed_update_buttons.
  now apply typed_set_selected_item.
Qed.

Lemma typed_house_append i st :
  typed st -> item_ok (heap st) Room i -> typed (house_append i st).
Proof.
  intros Ht Hi. unfold house_append. apply typed_set_house; [exact Ht|].
  apply Forall_app. split; [apply Ht|]. now apply Forall_singleton.
Qed.

Lemma typed_furnishings_append i st :
  typed st -> item_ok (heap st) BlueprintObject i ->
  typed (furnishings_append i st).
Proof.
  intros Ht Hi. unfold furnishings_append.
  apply typed_set_furnishings; [exact Ht|].
  apply Forall_app. split; [apply Ht|]. now apply Forall_singleton.
Qed.

Lemma typed_log_action e st :
  typed st -> entry_ok (heap st) e -> typed (log_action e st).
Proof.
  intros Ht He. unfold log_action. apply typed_update_buttons.
  apply typed_set_redo_stack; [|apply Forall_nil_2].
  apply typed_set_history; [exact Ht|].
  apply Forall_app. split; [apply Ht|]. now apply Forall_singleton.
Qed.

(** A new shape of either class, put into its collection. *)
Lemma typed_add_room s st :
  typed st -> typed (house_append (new_ref st) (store (new_shape Room s) st)).
Proof.
  intros Ht. apply typed_house_append; [now apply typed_store|].
  apply item_ok_new.
Qed.

Lemma typed_add_obj s st :
  typed st ->
  typed (furnishings_append (new_ref st)
           (store (new_shape BlueprintObject s) st)).
Proof.
  intros Ht. apply typed_furnishings_append; [now apply typed_store|].
  apply item_ok_new.
Qed.

Lemma entry_ok_added st c s k :
  kind_class k = c -> k <> edit_room -> k <> edit_obj ->
  entry_ok (heap st ++ [new_shape c s])
    (k, new_ref st, Some s, None).
Proof.
  intros Hk Hr Ho. split; [rewrite Hk; apply item_ok_new|].
  split; [eauto|]. intros [?|?]; congruence.
Qed.

(** Assignments to the other attributes. *)
Lemma typed_set_current_action v st : typed st -> typed (set_current_action v st).
Proof. apply typed_frame; reflexivity. Qed.
Lemma typed_set_action_start_xy v st : typed st -> typed (set_action_start_xy v st).
Proof. apply typed_frame; reflexivity. Qed.
Lemma typed_set_ghost_rect v st : typed st -> typed (set_ghost_rect v st).
Proof. apply typed_frame; reflexivity. Qed.
Lemma typed_set_object_to_add v st : typed st -> typed (set_object_to_add v st).
Proof. apply typed_frame; reflexivity. Qed.
Lemma typed_set_draw_mode_active v st : typed st -> typed (set_draw_mode_active v st).
Proof. apply typed_frame; reflexivity. Qed.
Lemma typed_set_original_state v st : typed st -> typed (set_original_state v st).
Proof. apply typed_frame; reflexivity. Qed.
Lemma typed_set_resize_handle v st : typed st -> typed (set_resize_handle v st).
Proof. apply typed_frame; reflexivity. Qed.
Lemma typed_set_toolbar_mode v st : typed st -> typed (set_toolbar_mode v st).
Proof. apply typed_frame; reflexivity. Qed.
Lemma typed_set_xlim v st : typed st -> typed (set_xlim v st).
Proof. apply typed_frame; reflexivity. Qed.
Lemma typed_set_ylim v st : typed st -> typed (set_ylim v st).
Proof. apply typed_frame; reflexivity. Qed.
Lemma typed_set_total_sqft_label v st : typed st -> typed (set_total_sqft_label v st).
Proof. apply typed_frame; reflexivity. Qed.
Lemma typed_set_cursor v st : typed st -> typed (set_cursor v st).
Proof. apply typed_frame; reflexivity. Qed.
Lemma typed_set_clipboard v st : typed st -> typed (set_clipboard v st).
Proof. apply typed_frame; reflexivity. Qed.

Lemma typed_push_redo e st :
  typed st -> entry_ok (heap st) e ->
  typed (set_redo_stack (redo_stack st ++ [e]) st).
Proof.
  intros Ht He. apply typed_set_redo_stack; [exact Ht|].
  apply Forall_app. split; [apply Ht|]. now apply Forall_singleton.
Qed.

Lemma typed_push_history e st :
  typed st -> entry_ok (heap st) e ->
  typed (set_history (history st ++ [e]) st).
Proof.
  intros Ht He. apply typed_set_history; [exact Ht|].
  apply Forall_app. split; [apply Ht|]. now apply Forall_singleton.
Qed.

(** Follows a state back through the calls that made it; what is left are
    the conditions on the items and entries that were put in. *)
Ltac typing :=
  norm;
  repeat match goal with
    | |- typed (draw_blueprint _) => apply typed_draw_blueprint
    | |- typed (update_buttons _) => apply typed_update_buttons
    | |- typed (cancel_action _ _) => apply typed_cancel_action
    | |- typed (set_obj_state _ _ _) => apply typed_set_obj_state
    | |- typed (house_append (new_ref ?s) (store (new_shape Room _) ?s)) =>
        apply typed_add_room
    | |- typed (furnishings_append (new_ref ?s)
                  (store (new_shape BlueprintObject _) ?s)) =>
        apply typed_add_obj
    | |- typed (append_room _ _) => apply typed_add_room
    | |- typed (log_action _ _) => apply typed_log_action
    | |- typed (select_item _ _) => apply typed_select_item
    | |- typed (set_redo_stack (redo_stack ?y ++ [_]) ?y) =>
        apply typed_push_redo
    | |- typed (set_history (history ?y ++ [_]) ?y) =>
        apply typed_push_history
    | |- typed (house_append _ _) => apply typed_house_append
    | |- typed (furnishings_append _ _) => apply typed_furnishings_append
    | |- typed (set_house _ _) => apply typed_set_house
    | |- typed (set_furnishings _ _) => apply typed_set_furnishings
    | |- typed (set_history _ _) => apply typed_set_history
    | |- typed (set_redo_stack _ _) => apply typed_set_redo_stack
    | |- typed (set_current_action _ _) => apply typed_set_current_action
    | |- typed (set_action_start_xy _ _) => apply typed_set_action_start_xy
    | |- typed (set_ghost_rect _ _) => apply typed_set_ghost_rect
    | |- typed (set_object_to_add _ _) => apply typed_set_object_to_add
    | |- typed (set_draw_mode_active _ _) => apply typed_set_draw_mode_active
    | |- typed (set_original_state _ _) => apply typed_set_original_state
    | |- typed (set_resize_handle _ _) => apply typed_set_resize_handle
    | |- typed (set_toolbar_mode _ _) => apply typed_set_toolbar_mode
    | |- typed (set_xlim _ _) => apply typed_set_xlim
    | |- typed (set_ylim _ _) => apply typed_set_ylim
    | |- typed (set_total_sqft_label _ _) => apply typed_set_total_sqft_label
    | |- typed (set_cursor _ _) => apply typed_set_cursor
    | |- typed (set_clipboard _ _) => apply typed_set_clipboard
    end;
  try assumption.

Lemma entry_ok_edit hp item (old new : State) :
  (item < length hp)%nat ->
  entry_ok hp (edit_kind (cls (hp !!! item)), item, Some old, Some new).
Proof.
  intros Hv. split; [|split; eauto].
  rewrite kind_class_edit_kind. split; [exact Hv|reflexivity].
Qed.

Lemma entry_ok_new hp c s (k : ActionKind) (s1 : State) :
  kind_class k = c -> k <> edit_room -> k <> edit_obj ->
  entry_ok (hp ++ [new_shape c s]) (k, length hp, Some s1, None).
Proof.
  intros Hk Hr Ho. split; [rewrite Hk; apply item_ok_new|].
  split; [eauto|]. intros [?|?]; congruence.
Qed.

Lemma Forall_list_remove (P : nat -> Prop) i l l' :
  list_remove i l = Some l' -> Forall P l -> Forall P l'.
Proof.
  intros H Hl.
  apply list_remove_split in H as (l1 & l2 & -> & -> & _).
  apply Forall_app in Hl as [H1 H2]. apply Forall_cons in H2 as [_ H2].
  apply Forall_app. split; assumption.
Qed.

Lemma typed_clear_all st : typed st -> typed (clear_all st).
Proof.
  intros Ht. unfold clear_all. typing; try apply Forall_nil_2.
  intros i [=].
Qed.

Lemma move_selected_typed dx dy st : typed st -> typed (move_selected dx dy st).
Proof.
  intros Ht. unfold move_selected.
  destruct (selected_item st) as [item|] eqn:Hsel; [|exact Ht].
  destruct (get_state _) as [[[[n ox] oy] ow] oh].
  typing. unfold obj. apply entry_ok_edit.
  unfold set_obj_state. rewrite ?heap_set_heap, length_alter.
  now apply Ht.
Qed.

Lemma prompt_add_room_precise_typed st st' :
  outcome (prompt_add_room_precise st) st' -> typed st -> typed st'.
Proof.
  unfold prompt_add_room_precise. intros H Ht.
  apply outcome_dialog in H as ([s| |] & H); apply outcome_ret in H as ->;
    [|exact Ht|exact Ht].
  typing. proj. now apply entry_ok_new.
Qed.

Lemma copy_room_typed st : typed st -> typed (copy_room st).
Proof.
  intros H. unfold copy_room.
  destruct (selected_item st) as [item|]; [|exact H].
  destruct (is_room st (Some item)); [|exact H].
  typing.
Qed.

Lemma paste_room_typed st : typed st -> typed (paste_room st).
Proof.
  intros H. unfold paste_room.
  destruct (clipboard st) as [[[[[n ?] ?] w] h]|]; [|exact H].
  typing.
  - proj. now apply entry_ok_new.
  - intros i [= <-]. proj. unfold new_ref.
    rewrite length_app. simpl. lia.
Qed.

Lemma clear_blueprint_typed c st st' :
  outcome (clear_blueprint c st) st' -> typed st -> typed st'.
Proof.
  unfold clear_blueprint. intros H Ht. destruct c.
  - apply outcome_yesno in H as ([|] & H); apply outcome_ret in H as ->;
      [now apply typed_clear_all|exact Ht].
  - apply outcome_ret in H as ->. now apply typed_clear_all.
Qed.

Lemma generate_rooms_typed st st' :
  outcome (generate_rooms st) st' -> typed st -> typed st'.
Proof.
  unfold generate_rooms, mbind, Eff_bind, mret, Eff_ret. intros H Ht.
  apply outcome_bind in H as (st0 & H0 & H).
  apply outcome_ret in H0 as ->.
  repeat (apply outcome_bind in H as (? & _ & H)).
  apply outcome_ret in H as ->.
  typing. now apply typed_clear_all.
Qed.

Lemma generate_random_layout_typed st st' :
  outcome (generate_random_layout st) st' -> typed st -> typed st'.
Proof.
  unfold generate_random_layout. intros H Ht.
  destruct (house st).
  - now apply (generate_rooms_typed st).
  - apply outcome_yesno in H as ([|] & H).
    + now apply (generate_rooms_typed st).
    + now apply outcome_ret in H as ->.
Qed.

Lemma on_motion_typed event st :
  typed st -> typed (state_of (on_motion event st)).
Proof.
  intros Ht. unfold on_motion.
  destruct (_ || _); [exact Ht|].
  destruct (truthy _).
  { destruct (_ ≫= _) as [[w h]|]; [|exact Ht].
    destruct (ghost_rect st); solve [typing]. }
  destruct (current_action st) as [a|]; [|solve [typing]].
  destruct (action_start_xy st) as [[sx sy]|]; [|exact Ht].
  destruct a, (ghost_rect st), (selected_item st);
    repeat first
      [ solve [typing]
      | match goal with
        | |- context [match ?x with _ => _ end] => destruct x
        end ].
Qed.

Lemma on_scroll_typed event up st :
  typed st -> typed (state_of (on_scroll event up st)).
Proof.
  intros Ht. unfold on_scroll. destruct (negb _); [exact Ht|].
  cbv zeta. destruct (Qeq_bool _ 0); [exact Ht|].
  destruct (Qeq_bool _ 0); typing.
Qed.

Lemma toggle_draw_mode_typed st :
  typed st ->
  typed
    (toggle_draw_mode (set_draw_mode_active (negb (draw_mode_active st)) st)).
Proof.
  intros Ht. unfold toggle_draw_mode. cbv zeta.
  rewrite !draw_mode_active_set_draw_mode_active.
  destruct (negb _); typing.
Qed.

Lemma enter_add_object_mode_typed combo st :
  typed st -> typed (enter_add_object_mode combo st).
Proof. intros Ht. unfold enter_add_object_mode. typing. Qed.

Lemma add_object_at_typed px py st :
  typed st -> typed (state_of (add_object_at px py st)).
Proof.
  intros Ht. unfold add_object_at.
  destruct (object_to_add st) as [n|]; [|exact Ht].
  destruct (dict_get _ _) as [[w h]|]; [|exact Ht].
  typing. proj. now apply entry_ok_new.
Qed.

Lemma find_item_at_member st px py item :
  find_item_at st px py = Some item ->
  item ∈ furnishings st \/ item ∈ house st.
Proof.
  unfold find_item_at.
  destruct (find _ (rev (furnishings st))) as [o|] eqn:E.
  - intros [= <-]. left. apply find_hit in E as [Hin _].
    apply list_elem_of_In. apply in_rev. now apply list_elem_of_In.
  - intros H. right. apply find_hit in H as [Hin _].
    apply list_elem_of_In. apply in_rev. now apply list_elem_of_In.
Qed.

(** A shape found under the pointer is in the collection of its class. *)
Lemma typed_member st item :
  typed st -> item ∈ furnishings st \/ item ∈ house st ->
  (item < length (heap st))%nat
  /\ item ∈ members (cls (obj st item)) st.
Proof.
  intros (Hh & Hf & _) [Hin|Hin].
  - destruct (proj1 (Forall_forall _ _) Hf item Hin) as [Hv Hc].
    split; [exact Hv|]. unfold obj. now rewrite Hc.
  - destruct (proj1 (Forall_forall _ _) Hh item Hin) as [Hv Hc].
    split; [exact Hv|]. unfold obj. now rewrite Hc.
Qed.

Lemma prompt_edit_room_properties_typed room st r :
  outcome (prompt_edit_room_properties room st) r ->
  typed st -> item_ok (heap st) Room room -> typed (state_of r).
Proof.
  unfold prompt_edit_room_properties. intros H Ht Hroom.
  apply outcome_dialog in H as ([s| |] & H); apply outcome_ret in H as ->.
  - destruct (negb _); typing.
    proj. split; [now apply item_ok_alter|]. split; eauto.
  - unfold house_remove. destruct (list_remove _ _) eqn:Hrm; [|exact Ht].
    rewrite and_then_Ok. cbv beta zeta.
    assert (He : entry_ok (heap st)
                   (delete_room, room, Some (get_state (obj st room)), None)).
    { split; [exact Hroom|]. split; [eauto|]. intros [?|?]; congruence. }
    pose proof (Forall_list_remove _ _ _ _ Hrm (proj1 Ht)) as Hl.
    case_decide; typing; try exact He; try exact Hl. intros i [=].
  - typing.
Qed.

Lemma prompt_edit_object_properties_typed o st r :
  outcome (prompt_edit_object_properties o st) r ->
  typed st -> item_ok (heap st) BlueprintObject o -> typed (state_of r).
Proof.
  unfold prompt_edit_object_properties. intros H Ht Ho.
  apply outcome_dialog in H as ([s| |] & H); apply outcome_ret in H as ->.
  - destruct (negb _); typing.
    proj. split; [now apply item_ok_alter|]. split; eauto.
  - unfold furnishings_remove.
    destruct (list_remove _ _) eqn:Hrm; [|exact Ht].
    rewrite and_then_Ok. cbv beta zeta.
    assert (He : entry_ok (heap st)
                   (delete_obj, o, Some (get_state (obj st o)), None)).
    { split; [exact Ho|]. split; [eauto|]. intros [?|?]; congruence. }
    pose proof (Forall_list_remove _ _ _ _ Hrm (proj1 (proj2 Ht))) as Hl.
    case_decide; typing; try exact He; try exact Hl. intros i [=].
  - typing.
Qed.

Lemma delete_selected_item_typed st r :
  outcome (delete_selected_item st) r -> typed st -> typed (state_of r).
Proof.
  unfold delete_selected_item. intros H Ht.
  destruct (selected_item st) as [item|] eqn:Hsel;
    [|now apply outcome_ret in H as ->].
  apply outcome_yesno in H as ([|] & H); apply outcome_ret in H as ->;
    [|exact Ht].
  pose proof (proj2 (proj2 (proj2 (proj2 Ht))) item Hsel) as Hv.
  unfold house_remove, furnishings_remove.
  assert (He : forall k,
             kind_class k = cls (obj st item) ->
             k <> edit_room -> k <> edit_obj ->
             entry_ok (heap st) (k, item, Some (get_state (obj st item)), None)).
  { intros k Hk Hr Ho. split; [split; [exact Hv|now rewrite Hk]|].
    split; [eauto|]. intros [?|?]; congruence. }
  destruct (cls (obj st item)) eqn:Hc, (list_remove _ _) eqn:Hrm;
    typing; try (intros i [=]);
    try (proj; now apply He);
    first [ exact (Forall_list_remove _ _ _ _ Hrm (proj1 Ht))
          | exact (Forall_list_remove _ _ _ _ Hrm (proj1 (proj2 Ht))) ].
Qed.

Lemma on_release_typed event st r :
  outcome (on_release event st) r ->
  action_ok st -> typed st -> typed (state_of r).
Proof.
  unfold on_release. intros H (_ & Hos & _) Ht.
  destruct (current_action st) as [a|] eqn:Hact;
    [|now apply outcome_ret in H as ->].
  cbv zeta in H.
  destruct (selected_item st) as [item|] eqn:Hsel.
  - rewrite item_type_of_selected in H.
    pose proof (proj2 (proj2 (proj2 (proj2 Ht))) item Hsel) as Hv.
    assert (He : a = moving \/ a = resizing_room ->
                 entry_ok (heap st)
                   (edit_kind (cls (obj st item)), item, original_state st,
                    Some (get_state (obj st item)))).
    { intros Ha. split; [|split; [|eauto]].
      - rewrite kind_class_edit_kind. split; [exact Hv|reflexivity].
      - apply Hos. destruct Ha as [-> | ->]; auto. }
    destruct a, (ghost_rect st) as [g|]; break_outcome H;
      try (apply outcome_ret in H as ->; typing;
           first [ proj; apply He; auto ]).
    apply outcome_string in H as (nm & H).
    destruct (truthy nm); apply outcome_ret in H as ->; typing.
    proj. now apply entry_ok_new.
  - destruct a, (ghost_rect st) as [g|]; break_outcome H;
      try (apply outcome_ret in H as ->; solve [typing]).
    apply outcome_string in H as (nm & H).
    destruct (truthy nm); apply outcome_ret in H as ->; typing.
    proj. now apply entry_ok_new.
Qed.

Lemma on_press_typed event st r :
  outcome (on_press event st) r -> typed st -> typed (state_of r).
Proof.
  unfold on_press. intros H Ht.
  destruct (_ || _); [now apply outcome_ret in H as ->|].
  cbv zeta in H.
  apply (typed_set_action_start_xy (Some (xdata event, ydata event))) in Ht.
  revert H Ht.
  generalize (set_action_start_xy (Some (xdata event, ydata event)) st).
  clear st. intros st H Ht.
  destruct (truthy (object_to_add st)).
  { apply outcome_ret in H as ->. now apply add_object_at_typed. }
  destruct (find_item_at _ _ _) as [item|] eqn:Hhit.
  - destruct (typed_member st item Ht (find_item_at_member _ _ _ _ Hhit))
      as [Hv Hin].
    destruct (dblclick event).
    { destruct (cls (obj st item)) eqn:Hc.
      - eapply prompt_edit_room_properties_typed; [eassumption..|].
        split; assumption.
      - eapply prompt_edit_object_properties_typed; [eassumption..|].
        split; assumption. }
    apply outcome_ret in H as ->.
    destruct (_ && _); typing. now intros i [= <-].
  - destruct (dblclick event); [now apply outcome_ret in H as ->|].
    apply outcome_ret in H as ->.
    cbv beta iota zeta. rewrite andb_false_l by reflexivity.
    destruct (draw_mode_active st); typing; intros i [=].
Qed.

Lemma popped {A} (P : A -> Prop) (l r : list A) (a : A) :
  list_pop l = Some (a, r) -> Forall P l -> Forall P r /\ P a.
Proof.
  intros H Hl. apply list_pop_Some in H as ->.
  apply Forall_app in Hl as [Hr Ha].
  split; [exact Hr|]. exact (Forall_inv Ha).
Qed.

Lemma undo_typed st : typed st -> typed (state_of (undo st)).
Proof.
  intros Ht. unfold undo.
  destruct (list_pop (history st)) as [[[[[a item] s1] s2] rest]|] eqn:Hpop;
    [|exact Ht].
  destruct (popped _ _ _ _ Hpop (proj1 (proj2 (proj2 Ht)))) as [Hrest He].
  pose proof He as (Hitem & _).
  cbv zeta. unfold house_remove, furnishings_remove, restore_state.
  rewrite house_set_history, furnishings_set_history.
  destruct a, s1; try destruct (list_remove _ _) eqn:Hrm; typing;
    try exact Hrest; try exact Hitem;
    try (proj; first [exact He | apply entry_ok_alter; exact He]);
    first [ exact (Forall_list_remove _ _ _ _ Hrm (proj1 Ht))
          | exact (Forall_list_remove _ _ _ _ Hrm (proj1 (proj2 Ht))) ].
Qed.

Lemma redo_typed st : typed st -> typed (state_of (redo st)).
Proof.
  intros Ht. unfold redo.
  destruct (list_pop (redo_stack st)) as [[[[[a item] s1] s2] rest]|] eqn:Hpop;
    [|exact Ht].
  destruct (popped _ _ _ _ Hpop (proj1 (proj2 (proj2 (proj2 Ht)))))
    as [Hrest He].
  pose proof He as (Hitem & _).
  cbv zeta. unfold house_remove, furnishings_remove, restore_state.
  rewrite house_set_redo_stack, furnishings_set_redo_stack.
  destruct a, s2; try destruct (list_remove _ _) eqn:Hrm; typing;
    try exact Hrest; try exact Hitem;
    try (proj; first [exact He | apply entry_ok_alter; exact He]);
    first [ exact (Forall_list_remove _ _ _ _ Hrm (proj1 Ht))
          | exact (Forall_list_remove _ _ _ _ Hrm (proj1 (proj2 Ht))) ].
Qed.

Lemma edit_step_typed st st' :
  edit_step st st' -> action_ok st -> typed st -> typed st'.
Proof.
  intros H Ha Ht. destruct H.
  - now apply move_selected_typed.
  - now apply (prompt_add_room_precise_typed st).
  - now apply copy_room_typed.
  - now apply paste_room_typed.
  - now apply (generate_random_layout_typed st).
  - now apply (on_press_typed event st).
  - now apply on_motion_typed.
  - now apply (on_release_typed event st).
  - now apply on_scroll_typed.
  - now apply toggle_draw_mode_typed.
  - now apply enter_add_object_mode_typed.
  - now apply typed_cancel_action.
  - now apply (clear_blueprint_typed true st).
  - now apply (delete_selected_item_typed st).
  - now apply typed_set_toolbar_mode.
Qed.

Lemma init_typed : typed init.
Proof.
  unfold init. typing.
  repeat split; try apply Forall_nil_2. intros i [=].
Qed.

Lemma reachable_typed st : reachable st -> typed st.
Proof.
  induction 1 as [|st st' Hr IH Hstep]; [apply init_typed|].
  destruct Hstep as [st st' Hedit|st|st].
  - apply (edit_step_typed st); [exact Hedit| |exact IH].
    apply (reachable_consistent st Hr).
  - now apply undo_typed.
  - now apply redo_typed.
Qed.

Lemma room_A_added_reachable : reachable room_A_added.
Proof.
  unfold room_A_added.
  eapply reach_step; [apply reach_init|].
  apply step_edit, es_add_room, run_outcome.
Qed.

(** In every state that the window goes through when events are handled
    one after the other, [house] holds only rooms and [furnishings] only
    objects, all of them objects of the store; every entry of the two
    stacks is about a shape of the class its kind names, holds the state
    to go back to and, for an edit, the state to go forward to; the
    selection is an object of the store; and a shape that [find_item_at]
    finds is in the collection of its class. *)
Theorem reachable_collections_typed (st : App) :
  reachable st ->
  (forall i, i ∈ house st ->
     (i < length (heap st))%nat /\ cls (obj st i) = Room)
  /\ (forall i, i ∈ furnishings st ->
        (i < length (heap st))%nat /\ cls (obj st i) = BlueprintObject)
  /\ (forall k item s1 s2,
        (k, item, s1, s2) ∈ history st ++ redo_stack st ->
        (item < length (heap st))%nat
        /\ cls (obj st item) = kind_class k
        /\ is_Some s1
        /\ (k = edit_room \/ k = edit_obj -> is_Some s2))
  /\ (forall i, selected_item st = Some i -> (i < length (heap st))%nat)
  /\ (forall px py item,
        find_item_at st px py = Some item ->
        item ∈ members (cls (obj st item)) st).
Proof.
  intros Hr. pose proof (reachable_typed st Hr) as Ht.
  pose proof Ht as (Hh & Hf & Hhi & Hre & Hsel).
  split; [exact (proj1 (Forall_forall _ _) Hh)|].
  split; [exact (proj1 (Forall_forall _ _) Hf)|].
  split.
  { intros k item s1 s2 Hin.
    assert (He : Forall (entry_ok (heap st)) (history st ++ redo_stack st))
      by (apply Forall_app; split; assumption).
    destruct (proj1 (Forall_forall _ _) He _ Hin) as ((Hv & Hc) & H1 & H2).
    auto. }
  split; [exact Hsel|].
  intros px py item Hhit.
  apply (typed_member st item Ht (find_item_at_member _ _ _ _ Hhit)).
Qed.

Lemma reachable_collections_typed_witness :
  reachable room_A_added
  /\ (forall i, i ∈ house room_A_added -> cls (obj room_A_added i) = Room)
  /\ 0%nat ∈ house room_A_added.
Proof.
  split; [exact room_A_added_reachable|].
  destruct (reachable_collections_typed room_A_added room_A_added_reachable)
    as (Hh & _ & _ & _ & Hfind).
  split; [intros i Hi; now apply Hh|].
  apply (Hfind 5 5 0%nat). vm_compute. reflexivity.
Defined.
